(** * Vigilo: alert detection and notification dispatch

    A shallow embedding of the Vigilo monitoring agent (src/config.py,
    src/system_mon.py, src/docker_mon.py, src/notifier.py,
    src/heartbeat.py, src/main.py) and the properties of its
    alert-detection and dispatch engine.

    Conventions of the embedding:
    - Python floats (percentages, [time.time()] readings) are read as the
      rationals they denote ([Q]); Python ints are [Z]. Clock readings
      are compared and subtracted as these rationals. The quotients and
      products of the statistics ([get_stats], the usage figures of a
      container) are rounded to binary64 at every step ([b64]), as the
      interpreter does, and so is [round(x, 2)].
    - Dictionaries used as maps ([_last_alert_sent], [container_map]) are
      [gmap]s; dictionaries used as structures (alerts, statistics,
      payloads) are records whose optional keys are [option] fields.
    - f-strings are kept as the sequence of their literal parts and
      interpolated values ([text]); rendering a number or a date to
      characters is not modelled.
    - The outside world (system clock, HTTP endpoints, psutil, the Docker
      socket) is an environment of oracles [Env]; what the program did to
      it is recorded in a [World].
    - Calls to [logger] have no effect on the program state and are left
      out. *)

From Stdlib Require Import QArith Qround Qabs Qpower Lqa ZArith SpecFloat.
From stdpp Require Import base strings list gmap.

#[local] Open Scope Z_scope.
#[local] Open Scope string_scope.
#[local] Open Scope list_scope.

(** ** Python values *)

Module py.

(** A Python number: [int] or [float]. A finite float is read as the
    rational it denotes; [inf], [-inf] and [nan] have none. *)
Inductive number :=
| PyInt (z : Z)
| PyFloat (q : Q)
| PyInf (negative : bool)
| PyNaN.

(** One part of an f-string: literal characters or an interpolated
    value that Python would render with [str()], [.upper()] or
    [strftime]. *)
Inductive piece :=
| Lit (s : string)
| Num (n : number)
| Upper (s : string)
| DateTime (t : Q).

Definition text := list piece.

(** The line feed of ["\n"]. *)
Definition nl : string := String (Ascii.ascii_of_nat 10) EmptyString.

(** Truth value of an [Optional[str]]: [None] and the empty string are
    false. *)
Definition truthy (s : option string) : bool :=
  match s with
  | None => false
  | Some s => negb (String.eqb s "")
  end.

(** [int(x)] of a float: truncation towards zero. *)
Definition int (q : Q) : Z := Z.quot (Qnum q) (Zpos (Qden q)).

Definition Qltb (x y : Q) : bool := negb (Qle_bool y x).

(** Nearest integer, ties to the even one, as Python's [round]. *)
Definition round_half_even (q : Q) : Z :=
  let f := Qfloor q in
  match (q - inject_Z f ?= 1 # 2)%Q with
  | Lt => f
  | Gt => f + 1
  | Eq => if Z.even f then f else f + 1
  end.

(** *** binary64 *)

(** [2 ^ k] for an integer [k] of either sign. *)
Definition pow2 (k : Z) : Q := Qpower 2 k.

(** The integer part of the binary logarithm of [|x|], for [x] other
    than zero. *)
Definition exponent (x : Q) : Z :=
  let a := Qabs x in
  if Qle_bool 1 a then Z.log2 (Qfloor a) else - Z.log2_up (Qceiling (/ a)).

(** The distance between the floats around [x]: 53 significant bits,
    and no exponent below that of the subnormal numbers. *)
Definition ulp (x : Q) : Q := pow2 (Z.max (exponent x) (-1022) - 52).

(** The float nearest to [x], ties to the even significand: what an
    arithmetic operation with the exact result [x] returns, as long as
    this stays in the range of the format. *)
Definition b64 (x : Q) : Q :=
  Qred (inject_Z (round_half_even (x / ulp x)) * ulp x).

(** The rounded result stays below [2 ^ 1024]. *)
Definition in_range (x : Q) : bool := Qltb (Qabs (b64 x)) (pow2 1024).

(** [round(x, 2)]: an int is returned as it is, and so are [inf] and
    [nan]. A finite float is rounded to two decimals, ties to the even
    one, and the result is the float nearest to that decimal. (It
    cannot leave the range: a float from [2 ^ 53] on is an integer and
    is returned as it is.) *)
Definition round2 (x : number) : number :=
  match x with
  | PyFloat q => PyFloat (b64 (Qmake (round_half_even (q * 100)) 100))
  | _ => x
  end.

(** Exceptions the model distinguishes. *)
Inductive exn :=
| Timeout               (* requests.exceptions.Timeout *)
| ConnectionError       (* requests.exceptions.ConnectionError *)
| ZeroDivisionError
| Unexpected (what : string).  (* any other [Exception] *)

(** Result of running a piece of Python: a value or a raised
    exception. *)
Inductive outcome (A : Type) :=
| Ret (a : A)
| Raise (e : exn).
Arguments Ret {A} a.
Arguments Raise {A} e.

(** Sequencing of pure code that may raise. *)
Definition and_then {A B} (r : outcome A) (k : A -> outcome B) : outcome B :=
  match r with
  | Ret a => k a
  | Raise e => Raise e
  end.

(** [OverflowError], among the exceptions the model does not name. *)
Definition overflow_error : exn := Unexpected "OverflowError".

(** [a / b] on ints: the float nearest to the quotient. A quotient
    beyond the range of floats raises [OverflowError]. *)
Definition truediv (a b : Z) : outcome Q :=
  if (b =? 0)%Z then Raise ZeroDivisionError
  else
    let quotient := (inject_Z a / inject_Z b)%Q in
    if in_range quotient then Ret (b64 quotient) else Raise overflow_error.

(** A float: finite, infinite or not a number. *)
Inductive float :=
| Real (q : Q)
| Infinity (negative : bool)
| NotANumber.

Definition of_float (x : float) : number :=
  match x with
  | Real q => PyFloat q
  | Infinity negative => PyInf negative
  | NotANumber => PyNaN
  end.

(** The float operand that a number is in float arithmetic: an int is
    converted to the nearest float, and raises [OverflowError] beyond
    the range. *)
Definition to_float (x : number) : outcome float :=
  match x with
  | PyInt z =>
      if in_range (inject_Z z) then Ret (Real (b64 (inject_Z z)))
      else Raise overflow_error
  | PyFloat q => Ret (Real q)
  | PyInf negative => Ret (Infinity negative)
  | PyNaN => Ret NotANumber
  end.

(** [x * y] on floats: the nearest float, an infinity beyond the
    range. *)
Definition fmul (x y : float) : float :=
  match x, y with
  | Real a, Real b =>
      if in_range (a * b) then Real (b64 (a * b))
      else Infinity (Qltb (a * b) 0)
  | Infinity s, Infinity t => Infinity (xorb s t)
  | Infinity s, Real b | Real b, Infinity s =>
      if Qeq_bool b 0 then NotANumber else Infinity (xorb s (Qltb b 0))
  | NotANumber, _ | _, NotANumber => NotANumber
  end.

(** [x * y] on numbers: exact on two ints, and on floats as soon as one
    of them is a float. *)
Definition mul (x y : number) : outcome number :=
  match x, y with
  | PyInt a, PyInt b => Ret (PyInt (a * b))
  | _, _ =>
      and_then (to_float x) (fun a =>
      and_then (to_float y) (fun b =>
      Ret (of_float (fmul a b))))
  end.

End py.
Import py.

(** ** Data model *)

(** An alert dictionary. The evaluators build it with the keys below;
    [send_alert] and [_process_alerts] read ["type"] and ["message"] with
    [dict.get], so a key may be absent. *)
Record alert := {
  a_type : option string;
  a_severity : option string;
  a_message : option text;
  a_value : option Q;
  a_threshold : option Q;
  a_details : option text;
  a_container : option string;
  a_status : option string;
}.

(** The dictionary [get_system_stats] returns on success... *)
Record sample := {
  cpu_percent : Q;
  ram_percent : Q;
  ram_used_gb : Q;
  ram_total_gb : Q;
  disk_percent : Q;
  disk_used_gb : Q;
  disk_total_gb : Q;
  uptime : string;
  uptime_seconds : Z;
  process_count : Z;
  timestamp : Z;
}.

(** ... and the one with an ["error"] key it returns when sampling
    failed. *)
Inductive stats :=
| Sample (s : sample)
| SampleError (error : string) (error_timestamp : Z).

(** A container object of the Docker SDK, by the attributes the monitor
    reads. [attrs_health] is [attrs["State"]["Health"]]: [None] when the
    dictionary is missing or empty, [Some None] when it has no ["Status"],
    [Some (Some s)] when its ["Status"] is [s]. *)
Record container := {
  short_id : string;
  name : string;
  status : string;
  image_tags : list string;
  image_short_id : string;
  attrs_created : option string;
  attrs_health : option (option string);
}.

(** The dictionary [get_all_containers] builds for a container; the
    ["health"] key is optional. *)
Record container_info := {
  ci_id : string;
  ci_name : string;
  ci_status : string;
  ci_image : string;
  ci_created : string;
  ci_health : option string;
}.

(** JSON body of a message for the Evolution API
    ([Notifier._build_payload]). *)
Record text_message := {
  tm_number : string;
  tm_text : text;
  tm_delay : Z;
  tm_presence : string;
}.

(** The ["stats"] entry of a heartbeat. *)
Record stats_summary := {
  ss_cpu_percent : number;
  ss_ram_percent : number;
  ss_disk_percent : number;
  ss_uptime_seconds : Z;
}.

(** The dictionaries passed as [event_data] to [Heartbeat.send_event]. *)
Inductive event_data :=
| AlertsGenerated (alert_count : Z) (alert_types : list string)
| Startup (message hostname : string)
| Shutdown (message : string) (checks_performed : Z).

(** JSON body of a heartbeat ([Heartbeat._build_payload]). *)
Record heartbeat_payload := {
  hp_agent_name : string;
  hp_status : string;
  hp_timestamp : Z;
  hp_consecutive_failures : Z;
  hp_total_sent : Z;
  hp_total_failed : Z;
  hp_stats : option stats_summary;
  hp_event_type : option string;
  hp_event_data : option event_data;
}.

(** A call of [requests.post]. *)
Inductive request :=
| PostSendText (url apikey : string) (json : text_message)
| PostWebhook (url : string) (json : heartbeat_payload).

(** What a call of [requests.post] does: it returns a response with a
    status code and a body, or raises. *)
Inductive http_result :=
| Response (status_code : Z) (body : string)
| Fails (e : exn).

(** ** The outside world *)

(** What the program has done so far. *)
Record World := {
  clock_reads : nat;        (* readings of the system clock *)
  outbox : list request;    (* calls of requests.post, oldest first *)
  sleeps : list Z;          (* calls of time.sleep, oldest first *)
  samples : nat;            (* psutil samplings *)
  docker_calls : nat;       (* calls to the Docker socket *)
  calls : nat;              (* collaborator calls of the cycle body *)
}.

(** What the world answers. Each oracle is indexed by the number of
    earlier interactions of its kind. *)
Class Env := {
  clock : nat -> Q;                           (* time.time(), datetime.now() *)
  http : nat -> http_result;                  (* requests.post *)
  psutil : nat -> stats;                      (* SystemMonitor.get_system_stats *)
  docker_ping : nat -> bool;                  (* client.ping() succeeds *)
  docker_list : nat -> option (list container); (* client.containers.list(all=True) *)
  fault : nat -> option exn;                  (* an unexpected exception in a collaborator *)
}.

Definition empty_world : World :=
  {| clock_reads := 0%nat; outbox := []; sleeps := []; samples := 0%nat;
     docker_calls := 0%nat; calls := 0%nat |}.

(** ** Stateful Python code: state, world and exceptions *)

(** A computation over an object state [St]. A raised exception keeps the
    state and world reached so far. *)
Definition M (St A : Type) : Type := St -> World -> outcome A * St * World.

Definition ret {St A} (a : A) : M St A := fun s w => (Ret a, s, w).

Definition raise {St A} (e : exn) : M St A := fun s w => (Raise e, s, w).

Definition bind {St A B} (c : M St A) (k : A -> M St B) : M St B :=
  fun s w =>
    match c s w with
    | (Ret a, s', w') => k a s' w'
    | (Raise e, s', w') => (Raise e, s', w')
    end.

Declare Scope py_scope.
Delimit Scope py_scope with py.
Notation "x <- c ;; k" := (bind c (fun x => k))
  (at level 100, c at next level, right associativity) : py_scope.
Notation "c ;; k" := (bind c (fun _ => k))
  (at level 100, right associativity) : py_scope.
#[local] Open Scope py_scope.

(** [try: c except Exception as e: handler e]. *)
Definition try_except {St A} (c : M St A) (handler : exn -> M St A) : M St A :=
  fun s w =>
    match c s w with
    | (Ret a, s', w') => (Ret a, s', w')
    | (Raise e, s', w') => handler e s' w'
    end.

Definition gets {St A} (f : St -> A) : M St A := fun s w => (Ret (f s), s, w).

Definition modify {St} (f : St -> St) : M St unit := fun s w => (Ret tt, f s, w).

(** Run a method of a component [T] held in a field of [St]. *)
Definition zoom {St T A} (get : St -> T) (set : T -> St -> St) (c : M T A) : M St A :=
  fun s w =>
    match c (get s) w with
    | (r, t', w') => (r, set t' s, w')
    end.

Section Effects.
Context {E : Env}.

(** [time.time()]. *)
Definition time_time {St} : M St Q :=
  fun s w =>
    (Ret (clock (clock_reads w)), s,
     {| clock_reads := S (clock_reads w); outbox := outbox w;
        sleeps := sleeps w; samples := samples w;
        docker_calls := docker_calls w; calls := calls w |}).

(** [datetime.now()]: the same system clock. *)
Definition datetime_now {St} : M St Q := time_time.

(** [time.sleep(secs)]. *)
Definition time_sleep {St} (secs : Z) : M St unit :=
  fun s w =>
    (Ret tt, s,
     {| clock_reads := clock_reads w; outbox := outbox w;
        sleeps := sleeps w ++ [secs]; samples := samples w;
        docker_calls := docker_calls w; calls := calls w |}).

(** [requests.post(...)]: the request goes out, then the call returns
    the response or raises. *)
Definition requests_post {St} (r : request) : M St (Z * string) :=
  fun s w =>
    let w' := {| clock_reads := clock_reads w; outbox := outbox w ++ [r];
                 sleeps := sleeps w; samples := samples w;
                 docker_calls := docker_calls w; calls := calls w |} in
    match http (length (outbox w)) with
    | Response code body => (Ret (code, body), s, w')
    | Fails e => (Raise e, s, w')
    end.

(** A call from the cycle body into a collaborator: besides what the
    collaborator does, anything unexpected may be raised. *)
Definition call {St A} (c : M St A) : M St A :=
  fun s w =>
    let w' := {| clock_reads := clock_reads w; outbox := outbox w;
                 sleeps := sleeps w; samples := samples w;
                 docker_calls := docker_calls w; calls := S (calls w) |} in
    match fault (calls w) with
    | Some e => (Raise e, s, w')
    | None => c s w'
    end.

End Effects.

(** ** src/config.py *)

Module config.

Record Config := {
  CHECK_INTERVAL : Z;
  REPORT_HOURS : Z;
  WATCH_CONTAINERS : list string;
  CPU_THRESHOLD : Q;
  RAM_THRESHOLD : Q;
  DISK_THRESHOLD : Q;
  ALERT_COOLDOWN : Z;
}.

Definition get_report_interval (self : Config) : Z :=
  REPORT_HOURS self * 3600.

(** [s.startswith(prefixes)] for a tuple of prefixes. *)
Definition startswith (s : string) (prefixes : list string) : bool :=
  existsb (fun p => String.prefix p s) prefixes.

(** [raise ValueError(msg)]. *)
Definition value_error (msg : string) : exn := Unexpected msg.

(** The two URLs are settings the record above leaves out; the method
    reads them from [self] like the others. *)
Definition _validate_config (N8N_HEARTBEAT_URL EVOLUTION_URL : string)
    (self : Config) : outcome unit :=
  if negb (startswith N8N_HEARTBEAT_URL ["http://"; "https://"]) then
    Raise (value_error "N8N_HEARTBEAT_URL deve começar com http:// ou https://")
  else if negb (startswith EVOLUTION_URL ["http://"; "https://"]) then
    Raise (value_error "EVOLUTION_URL deve começar com http:// ou https://")
  else if (CHECK_INTERVAL self <? 10)%Z then
    Raise (value_error "CHECK_INTERVAL deve ser no mínimo 10 segundos")
  else if (REPORT_HOURS self <? 1)%Z then
    Raise (value_error "REPORT_HOURS deve ser no mínimo 1 hora")
  else if negb (Qltb 0 (CPU_THRESHOLD self)
                && Qle_bool (CPU_THRESHOLD self) 100) then
    Raise (value_error "CPU_THRESHOLD deve estar entre 0 e 100")
  else if negb (Qltb 0 (RAM_THRESHOLD self)
                && Qle_bool (RAM_THRESHOLD self) 100) then
    Raise (value_error "RAM_THRESHOLD deve estar entre 0 e 100")
  else if negb (Qltb 0 (DISK_THRESHOLD self)
                && Qle_bool (DISK_THRESHOLD self) 100) then
    Raise (value_error "DISK_THRESHOLD deve estar entre 0 e 100")
  else Ret tt.

End config.

(** ** src/system_mon.py *)

Module system_mon.

Record SystemMonitor := {
  CPU_THRESHOLD : Q;
  RAM_THRESHOLD : Q;
  DISK_THRESHOLD : Q;
}.

Section with_env.
Context {E : Env}.

(** Sampling through psutil is outside the program: the environment
    hands over the dictionary, which has one of the two shapes of
    [stats]. The method catches every exception itself. *)
Definition get_system_stats : M SystemMonitor stats :=
  fun self w =>
    (Ret (psutil (samples w)), self,
     {| clock_reads := clock_reads w; outbox := outbox w;
        sleeps := sleeps w; samples := S (samples w);
        docker_calls := docker_calls w; calls := calls w |}).

End with_env.

Definition check_thresholds (self : SystemMonitor) (st : stats) : list alert :=
  let alerts := [] in
  match st with
  | SampleError _ _ => alerts
  | Sample s =>
      let alerts :=
        if Qltb (CPU_THRESHOLD self) (cpu_percent s) then
          alerts ++ [ {|
            a_type := Some "CPU_CRITICAL";
            a_severity := Some "high";
            a_message := Some [Lit "🔴 CPU em "; Num (PyFloat (cpu_percent s));
                               Lit "% (limite: "; Num (PyFloat (CPU_THRESHOLD self));
                               Lit "%)"];
            a_value := Some (cpu_percent s);
            a_threshold := Some (CPU_THRESHOLD self);
            a_details := None; a_container := None; a_status := None |} ]
        else alerts in
      let alerts :=
        if Qltb (RAM_THRESHOLD self) (ram_percent s) then
          alerts ++ [ {|
            a_type := Some "RAM_CRITICAL";
            a_severity := Some "high";
            a_message := Some [Lit "🔴 RAM em "; Num (PyFloat (ram_percent s));
                               Lit "% (limite: "; Num (PyFloat (RAM_THRESHOLD self));
                               Lit "%)"];
            a_value := Some (ram_percent s);
            a_threshold := Some (RAM_THRESHOLD self);
            a_details := Some [Num (PyFloat (ram_used_gb s)); Lit "GB / ";
                               Num (PyFloat (ram_total_gb s)); Lit "GB"];
            a_container := None; a_status := None |} ]
        else alerts in
      let alerts :=
        if Qltb (DISK_THRESHOLD self) (disk_percent s) then
          alerts ++ [ {|
            a_type := Some "DISK_CRITICAL";
            a_severity := Some "critical";
            a_message := Some [Lit "🔴 DISCO em "; Num (PyFloat (disk_percent s));
                               Lit "% (limite: "; Num (PyFloat (DISK_THRESHOLD self));
                               Lit "%)"];
            a_value := Some (disk_percent s);
            a_threshold := Some (DISK_THRESHOLD self);
            a_details := Some [Num (PyFloat (disk_used_gb s)); Lit "GB / ";
                               Num (PyFloat (disk_total_gb s)); Lit "GB"];
            a_container := None; a_status := None |} ]
        else alerts in
      alerts
  end.

(** The report is a triple-quoted f-string; [.strip()] removes its
    final line feed, nothing else at either end being blank. *)
Definition get_formatted_report (self : SystemMonitor) (st : stats) : text :=
  match st with
  | SampleError error _ =>
      [Lit "❌ Erro ao coletar dados do sistema: "; Lit error]
  | Sample s =>
      let cpu_emoji :=
        if Qltb (cpu_percent s) (CPU_THRESHOLD self) then "🟢" else "🔴" in
      let ram_emoji :=
        if Qltb (ram_percent s) (RAM_THRESHOLD self) then "🟢" else "🔴" in
      let disk_emoji :=
        if Qltb (disk_percent s) (DISK_THRESHOLD self) then "🟢" else "🔴" in
      [Lit "📊 *Relatório do Sistema*"; Lit nl; Lit nl;
       Lit cpu_emoji; Lit " *CPU:* "; Num (PyFloat (cpu_percent s)); Lit "%"; Lit nl;
       Lit ram_emoji; Lit " *RAM:* "; Num (PyFloat (ram_percent s)); Lit "% (";
         Num (PyFloat (ram_used_gb s)); Lit "GB / ";
         Num (PyFloat (ram_total_gb s)); Lit "GB)"; Lit nl;
       Lit disk_emoji; Lit " *Disco:* "; Num (PyFloat (disk_percent s)); Lit "% (";
         Num (PyFloat (disk_used_gb s)); Lit "GB / ";
         Num (PyFloat (disk_total_gb s)); Lit "GB)"; Lit nl; Lit nl;
       Lit "⏱️ *Uptime:* "; Lit (uptime s); Lit nl;
       Lit "🔢 *Processos:* "; Num (PyInt (process_count s))]
  end.

End system_mon.

(** ** src/docker_mon.py *)

Module docker_mon.

(** [client] tells whether [self.client] is a client object ([true]) or
    [None] ([false]: [_connect] failed). *)
Record DockerMonitor := {
  watch_containers : list string;
  client : bool;
}.

Definition _get_health_status (c : container) : option string :=
  match attrs_health c with
  | Some (Some st) => Some st
  | Some None => Some "none"
  | None => None
  end.

(** The dictionary built for one container in [get_all_containers]. *)
Definition container_info_of (c : container) : container_info :=
  let health_status := _get_health_status c in
  {| ci_id := short_id c;
     ci_name := name c;
     ci_status := status c;
     ci_image := match image_tags c with
                 | tag :: _ => tag
                 | [] => image_short_id c
                 end;
     ci_created := default "" (attrs_created c);
     ci_health := if truthy health_status then health_status else None |}.

(** [{c["name"]: c for c in all_containers}]: a later container
    replaces an earlier one of the same name. *)
Definition container_map_of (all_containers : list container_info)
  : gmap string container_info :=
  foldl (fun m c => <[ci_name c := c]> m) ∅ all_containers.

(** One iteration of the loop over the watched names. *)
Definition check_watched (container_map : gmap string container_info)
    (alerts : list alert) (watched_name : string) : list alert :=
  match container_map !! watched_name with
  | None =>
      alerts ++ [ {|
        a_type := Some "CONTAINER_NOT_FOUND";
        a_severity := Some "critical";
        a_message := Some [Lit "❌ Container '"; Lit watched_name;
                           Lit "' não encontrado!"];
        a_value := None; a_threshold := None; a_details := None;
        a_container := Some watched_name;
        a_status := None |} ]
  | Some c =>
      let alerts :=
        if negb (String.eqb (ci_status c) "running") then
          alerts ++ [ {|
            a_type := Some "CONTAINER_NOT_RUNNING";
            a_severity := Some "critical";
            a_message := Some [Lit "🔴 Container '"; Lit watched_name;
                               Lit "' está "; Upper (ci_status c); Lit "!"];
            a_value := None; a_threshold := None; a_details := None;
            a_container := Some watched_name;
            a_status := Some (ci_status c) |} ]
        else alerts in
      let alerts :=
        match ci_health c with
        | Some h =>
            if String.eqb h "unhealthy" then
              alerts ++ [ {|
                a_type := Some "CONTAINER_UNHEALTHY";
                a_severity := Some "high";
                a_message := Some [Lit "⚠️ Container '"; Lit watched_name;
                                   Lit "' está UNHEALTHY!"];
                a_value := None; a_threshold := None; a_details := None;
                a_container := Some watched_name;
                a_status := None |} ]
            else alerts
        | None => alerts
        end in
      alerts
  end.

(** [sep.join(parts)] on f-string texts. *)
Fixpoint join (sep : text) (parts : list text) : text :=
  match parts with
  | [] => []
  | [p] => p
  | p :: rest => p ++ sep ++ join sep rest
  end.

Section with_env.
Context {E : Env}.

Definition is_connected : M DockerMonitor bool :=
  has_client <- gets client ;;
  if negb has_client then ret false
  else
    fun self w =>
      (Ret (docker_ping (docker_calls w)), self,
       {| clock_reads := clock_reads w; outbox := outbox w;
          sleeps := sleeps w; samples := samples w;
          docker_calls := S (docker_calls w); calls := calls w |}).

(** [self.client.containers.list(all=True)], [None] when it raises. *)
Definition containers_list : M DockerMonitor (option (list container)) :=
  fun self w =>
    (Ret (docker_list (docker_calls w)), self,
     {| clock_reads := clock_reads w; outbox := outbox w;
        sleeps := sleeps w; samples := samples w;
        docker_calls := S (docker_calls w); calls := calls w |}).

Definition get_all_containers : M DockerMonitor (list container_info) :=
  connected <- is_connected ;;
  if negb connected then ret []
  else
    listing <- containers_list ;;
    match listing with
    | Some containers => ret (map container_info_of containers)
    | None => ret []
    end.

Definition check_watched_containers : M DockerMonitor (list alert) :=
  watched <- gets watch_containers ;;
  match watched with
  | [] => ret []
  | _ :: _ =>
      connected <- is_connected ;;
      if negb connected then
        ret [ {|
          a_type := Some "DOCKER_CONNECTION_ERROR";
          a_severity := Some "critical";
          a_message := Some [Lit "❌ Não foi possível conectar ao Docker"];
          a_value := None; a_threshold := None; a_details := None;
          a_container := None; a_status := None |} ]
      else
        all_containers <- get_all_containers ;;
        let container_map := container_map_of all_containers in
        ret (foldl (check_watched container_map) [] watched)
  end.

Definition get_docker_summary : M DockerMonitor text :=
  connected <- is_connected ;;
  if negb connected then ret [Lit "❌ *Docker:* Não conectado"]
  else
    all_containers <- get_all_containers ;;
    let running :=
      filter (fun c => ci_status c = "running") all_containers in
    let stopped :=
      filter (fun c => ci_status c ≠ "running") all_containers in
    let summary :=
      [Lit "🐳 *Docker:* "; Num (PyInt (Z.of_nat (length running)));
       Lit " rodando / "; Num (PyInt (Z.of_nat (length stopped)));
       Lit " parados"] in
    watched <- gets watch_containers ;;
    let watched_status :=
      map (fun name =>
             match List.find (fun c => String.eqb (ci_name c) name)
                             all_containers with
             | Some c =>
                 let emoji :=
                   if String.eqb (ci_status c) "running" then "🟢" else "🔴" in
                 [Lit emoji; Lit " "; Lit name]
             | None => [Lit "❌ "; Lit name]
             end) watched in
    match watched_status with
    | [] => ret summary
    | _ :: _ =>
        ret (summary ++ [Lit nl; Lit nl; Lit "*Monitorados:*"; Lit nl]
                     ++ join [Lit nl] watched_status)
    end.

End with_env.

(** What [container.stats(stream=False)] returns, by the entries the
    monitor reads. An entry is [None] when a key on the way to it is
    missing from the dictionary. *)
Record container_stats := {
  cs_total_usage : option Z;       (* ["cpu_stats"]["cpu_usage"]["total_usage"] *)
  cs_pre_total_usage : option Z;   (* ["precpu_stats"]["cpu_usage"]["total_usage"] *)
  cs_system_usage : option Z;      (* ["cpu_stats"]["system_cpu_usage"] *)
  cs_pre_system_usage : option Z;  (* ["precpu_stats"]["system_cpu_usage"] *)
  cs_online_cpus : option Z;       (* ["cpu_stats"]["online_cpus"] *)
  cs_memory_usage : option Z;      (* ["memory_stats"]["usage"] *)
}.

(** [KeyError], among the exceptions the model does not name. *)
Definition key_error : exn := Unexpected "KeyError".

Definition is_key_error (e : exn) : bool :=
  match e with
  | Unexpected what => String.eqb what "KeyError"
  | _ => false
  end.

(** [d[key]]. *)
Definition item {A} (entry : option A) : outcome A :=
  match entry with
  | Some a => Ret a
  | None => Raise key_error
  end.

Definition _calculate_cpu_percent (stats : container_stats) : outcome number :=
  let attempt : outcome (option number) :=
    and_then (item (cs_total_usage stats)) (fun total =>
    and_then (item (cs_pre_total_usage stats)) (fun pre_total =>
    let cpu_delta := total - pre_total in
    and_then (item (cs_system_usage stats)) (fun system =>
    and_then (item (cs_pre_system_usage stats)) (fun pre_system =>
    let system_delta := system - pre_system in
    let cpu_count := default 1 (cs_online_cpus stats) in
    if (system_delta >? 0)%Z && (cpu_delta >? 0)%Z then
      and_then (truediv cpu_delta system_delta) (fun ratio =>
      and_then (mul (PyFloat ratio) (PyInt cpu_count)) (fun share =>
      and_then (mul share (PyFloat 100)) (fun cpu_percent =>
      Ret (Some (round2 cpu_percent)))))
    else Ret None)))) in
  match attempt with
  | Ret (Some cpu_percent) => Ret cpu_percent
  | Ret None => Ret (PyFloat 0)
  | Raise e =>
      match e with
      | ZeroDivisionError => Ret (PyFloat 0)
      | _ => if is_key_error e then Ret (PyFloat 0) else Raise e
      end
  end.

Definition _calculate_memory_usage (stats : container_stats) : outcome number :=
  let attempt : outcome number :=
    and_then (item (cs_memory_usage stats)) (fun memory_usage =>
    and_then (truediv memory_usage (1024 * 1024)) (fun megabytes =>
    Ret (round2 (PyFloat megabytes)))) in
  match attempt with
  | Ret memory => Ret memory
  | Raise e => if is_key_error e then Ret (PyFloat 0) else Raise e
  end.

End docker_mon.

(** ** src/notifier.py *)

Module notifier.

(** [evolution_url] is kept as [__init__] stores it, without trailing
    slashes. [_last_alert_sent] maps an alert type to the time of its
    last successful send. *)
Record Notifier := {
  evolution_url : string;
  evolution_token : string;
  evolution_instance : string;
  notify_number : string;
  cooldown_seconds : Z;
  _last_alert_sent : gmap string Q;
}.

Definition set_last_alert_sent (m : gmap string Q) (self : Notifier) : Notifier :=
  {| evolution_url := evolution_url self;
     evolution_token := evolution_token self;
     evolution_instance := evolution_instance self;
     notify_number := notify_number self;
     cooldown_seconds := cooldown_seconds self;
     _last_alert_sent := m |}.

Definition _build_payload (self : Notifier) (message : text) : text_message :=
  {| tm_number := notify_number self;
     tm_text := message;
     tm_delay := 1200;
     tm_presence := "composing" |}.

Section with_env.
Context {E : Env}.

Definition _can_send_alert (alert_type : string) : M Notifier bool :=
  current_time <- time_time ;;
  last_alert_sent <- gets _last_alert_sent ;;
  match last_alert_sent !! alert_type with
  | None => ret true
  | Some last =>
      let time_since_last := (current_time - last)%Q in
      cooldown <- gets cooldown_seconds ;;
      if Qle_bool (inject_Z cooldown) time_since_last then ret true
      else ret false
  end.

Definition _mark_alert_sent (alert_type : string) : M Notifier unit :=
  now <- time_time ;;
  modify (fun self =>
    set_last_alert_sent (<[alert_type := now]> (_last_alert_sent self)) self).

Definition send_message (message : text) (force : bool)
    (alert_type : option string) : M Notifier bool :=
  in_cooldown <-
    (if negb force && truthy alert_type then
       can_send <- _can_send_alert (default "" alert_type) ;;
       ret (negb can_send)
     else ret false) ;;
  if in_cooldown : bool then ret false
  else
    try_except
      (self <- gets id ;;
       let url := evolution_url self +:+ "/message/sendText/"
                    +:+ evolution_instance self in
       let payload := _build_payload self message in
       response <- requests_post
                     (PostSendText url (evolution_token self) payload) ;;
       let status_code := fst response in
       if (status_code =? 200)%Z || (status_code =? 201)%Z then
         (if truthy alert_type
          then _mark_alert_sent (default "" alert_type)
          else ret tt) ;;
         ret true
       else ret false)
      (fun _ => ret false).

Definition send_alert (a : alert) : M Notifier bool :=
  let alert_type := default "UNKNOWN" (a_type a) in
  let message := default [Lit "Alerta sem mensagem"] (a_message a) in
  timestamp <- datetime_now ;;
  let formatted_message :=
    [Lit "⚠️ *ALERTA VIGILO* ⚠️"; Lit nl; Lit nl] ++ message
      ++ [Lit nl; Lit nl; Lit "🕒 "; DateTime timestamp] in
  send_message formatted_message false (Some alert_type).

(** The loop of [send_alerts], with the running [sent_count]. *)
Fixpoint send_alerts_from (sent_count : Z) (alerts : list alert)
  : M Notifier Z :=
  match alerts with
  | [] => ret sent_count
  | a :: rest =>
      sent <- send_alert a ;;
      if sent : bool then
        time_sleep 1 ;;
        send_alerts_from (sent_count + 1) rest
      else send_alerts_from sent_count rest
  end.

Definition send_alerts (alerts : list alert) : M Notifier Z :=
  send_alerts_from 0 alerts.

Definition send_report (report_text : text) : M Notifier bool :=
  timestamp <- datetime_now ;;
  let formatted_message :=
    [Lit "📊 *RELATÓRIO VIGILO*"; Lit nl; Lit nl] ++ report_text
      ++ [Lit nl; Lit nl; Lit "🕒 "; DateTime timestamp] in
  send_message formatted_message true None.

Definition send_startup_notification (hostname : string) : M Notifier bool :=
  now <- datetime_now ;;
  let message :=
    [Lit "✅ *Vigilo Iniciado*"; Lit nl; Lit nl; Lit "🖥️ Host: ";
     Lit hostname; Lit nl; Lit "🕒 "; DateTime now] in
  send_message message true None.

Definition get_cooldown_status : M Notifier (gmap string text) :=
  current_time <- time_time ;;
  self <- gets id ;;
  ret ((fun last_sent =>
          let time_since := (current_time - last_sent)%Q in
          if Qltb time_since (inject_Z (cooldown_seconds self)) then
            let remaining :=
              int (inject_Z (cooldown_seconds self) - time_since) in
            [Num (PyInt remaining); Lit "s restantes"]
          else [Lit "Pronto para enviar"])
       <$> _last_alert_sent self).

End with_env.

End notifier.

(** ** src/heartbeat.py *)

Module heartbeat.

Record Heartbeat := {
  webhook_url : string;
  timeout : Z;
  hostname : string;
  consecutive_failures : Z;
  total_sent : Z;
  total_failed : Z;
}.

Definition set_counters (failures sent failed : Z) (self : Heartbeat) : Heartbeat :=
  {| webhook_url := webhook_url self;
     timeout := timeout self;
     hostname := hostname self;
     consecutive_failures := failures;
     total_sent := sent;
     total_failed := failed |}.

(** The dictionary [get_stats] returns. *)
Record heartbeat_stats := {
  hs_hostname : string;
  hs_total_sent : Z;
  hs_total_failed : Z;
  hs_consecutive_failures : Z;
  hs_success_rate : number;
}.

(** [stats.get(key, 0)] for the summary of a heartbeat. *)
Definition summary_of (st : stats) : stats_summary :=
  match st with
  | Sample s =>
      {| ss_cpu_percent := PyFloat (cpu_percent s);
         ss_ram_percent := PyFloat (ram_percent s);
         ss_disk_percent := PyFloat (disk_percent s);
         ss_uptime_seconds := uptime_seconds s |}
  | SampleError _ _ =>
      {| ss_cpu_percent := PyInt 0;
         ss_ram_percent := PyInt 0;
         ss_disk_percent := PyInt 0;
         ss_uptime_seconds := 0 |}
  end.

Definition _handle_failure : M Heartbeat unit :=
  modify (fun self =>
    set_counters (consecutive_failures self + 1) (total_sent self)
                 (total_failed self + 1) self).

Definition get_stats (self : Heartbeat) : outcome heartbeat_stats :=
  let success_rate := PyInt 0 in
  let total_attempts := total_sent self + total_failed self in
  let success_rate :=
    if (total_attempts >? 0)%Z then
      and_then (truediv (total_sent self) total_attempts) (fun ratio =>
      mul (PyFloat ratio) (PyInt 100))
    else Ret success_rate in
  match success_rate with
  | Ret success_rate =>
      Ret {| hs_hostname := hostname self;
             hs_total_sent := total_sent self;
             hs_total_failed := total_failed self;
             hs_consecutive_failures := consecutive_failures self;
             hs_success_rate := round2 success_rate |}
  | Raise e => Raise e
  end.

Section with_env.
Context {E : Env}.

Definition _build_payload (st : option stats)
    (extra_data : option (string * event_data)) : M Heartbeat heartbeat_payload :=
  now <- time_time ;;
  self <- gets id ;;
  ret {| hp_agent_name := hostname self;
         hp_status := "alive";
         hp_timestamp := int now;
         hp_consecutive_failures := consecutive_failures self;
         hp_total_sent := total_sent self;
         hp_total_failed := total_failed self;
         hp_stats := summary_of <$> st;
         hp_event_type := fst <$> extra_data;
         hp_event_data := snd <$> extra_data |}.

Definition send (st : option stats)
    (extra_data : option (string * event_data)) : M Heartbeat bool :=
  try_except
    (payload <- _build_payload st extra_data ;;
     url <- gets webhook_url ;;
     response <- requests_post (PostWebhook url payload) ;;
     let status_code := fst response in
     if (status_code =? 200)%Z || (status_code =? 201)%Z
        || (status_code =? 204)%Z then
       modify (fun self =>
         set_counters 0 (total_sent self + 1) (total_failed self) self) ;;
       ret true
     else
       _handle_failure ;;
       ret false)
    (fun _ => _handle_failure ;; ret false).

Definition send_event (event_type : string) (data : event_data)
  : M Heartbeat bool :=
  let extra_data := (event_type, data) in
  send None (Some extra_data).

Definition send_startup_event : M Heartbeat bool :=
  self <- gets id ;;
  send_event "startup" (Startup "Vigilo Agent iniciado" (hostname self)).

Definition send_alert_event (alert_count : Z) (alert_types : list string)
  : M Heartbeat bool :=
  send_event "alerts_generated" (AlertsGenerated alert_count alert_types).

End with_env.

End heartbeat.

(** ** src/main.py *)

Module main.
Import config system_mon docker_mon notifier heartbeat.

Record VigiloAgent := {
  system_monitor : SystemMonitor;
  docker_monitor : DockerMonitor;
  notifier : Notifier;
  heartbeat : Heartbeat;
  running : bool;
  last_report_time : Q;
  check_count : Z;
}.

Definition set_system_monitor (m : SystemMonitor) (self : VigiloAgent) :=
  {| system_monitor := m; docker_monitor := docker_monitor self;
     notifier := notifier self; heartbeat := heartbeat self;
     running := running self; last_report_time := last_report_time self;
     check_count := check_count self |}.

Definition set_docker_monitor (m : DockerMonitor) (self : VigiloAgent) :=
  {| system_monitor := system_monitor self; docker_monitor := m;
     notifier := notifier self; heartbeat := heartbeat self;
     running := running self; last_report_time := last_report_time self;
     check_count := check_count self |}.

Definition set_notifier (n : Notifier) (self : VigiloAgent) :=
  {| system_monitor := system_monitor self;
     docker_monitor := docker_monitor self;
     notifier := n; heartbeat := heartbeat self;
     running := running self; last_report_time := last_report_time self;
     check_count := check_count self |}.

Definition set_heartbeat (h : Heartbeat) (self : VigiloAgent) :=
  {| system_monitor := system_monitor self;
     docker_monitor := docker_monitor self;
     notifier := notifier self; heartbeat := h;
     running := running self; last_report_time := last_report_time self;
     check_count := check_count self |}.

Definition set_last_report_time (t : Q) (self : VigiloAgent) :=
  {| system_monitor := system_monitor self;
     docker_monitor := docker_monitor self;
     notifier := notifier self; heartbeat := heartbeat self;
     running := running self; last_report_time := t;
     check_count := check_count self |}.

Definition set_check_count (n : Z) (self : VigiloAgent) :=
  {| system_monitor := system_monitor self;
     docker_monitor := docker_monitor self;
     notifier := notifier self; heartbeat := heartbeat self;
     running := running self; last_report_time := last_report_time self;
     check_count := n |}.

(** Methods of the four components, run on the agent. *)
Definition on_system_monitor {A} : M SystemMonitor A -> M VigiloAgent A :=
  zoom system_monitor set_system_monitor.
Definition on_docker_monitor {A} : M DockerMonitor A -> M VigiloAgent A :=
  zoom docker_monitor set_docker_monitor.
Definition on_notifier {A} : M Notifier A -> M VigiloAgent A :=
  zoom notifier set_notifier.
Definition on_heartbeat {A} : M Heartbeat A -> M VigiloAgent A :=
  zoom heartbeat set_heartbeat.

(** A pure method that may raise. *)
Definition of_outcome {St A} (r : outcome A) : M St A :=
  match r with
  | Ret a => ret a
  | Raise e => raise e
  end.

Definition set_running (b : bool) (self : VigiloAgent) :=
  {| system_monitor := system_monitor self;
     docker_monitor := docker_monitor self;
     notifier := notifier self; heartbeat := heartbeat self;
     running := b; last_report_time := last_report_time self;
     check_count := check_count self |}.

Definition _signal_handler : M VigiloAgent unit :=
  modify (set_running false).

Section with_env.
Context {E : Env} (config : Config).

Definition _send_startup_notifications : M VigiloAgent unit :=
  hostname <- gets (fun self => hostname (heartbeat self)) ;;
  on_notifier (send_startup_notification hostname) ;;
  on_heartbeat send_startup_event ;;
  ret tt.

Definition _should_send_report : M VigiloAgent bool :=
  current_time <- time_time ;;
  last <- gets last_report_time ;;
  let time_since_last_report := (current_time - last)%Q in
  let report_interval := get_report_interval config in
  ret (Qle_bool (inject_Z report_interval) time_since_last_report).

Definition _generate_full_report (system_stats : stats) : M VigiloAgent text :=
  system_report <-
    on_system_monitor
      (gets (fun monitor => get_formatted_report monitor system_stats)) ;;
  docker_report <- on_docker_monitor get_docker_summary ;;
  heartbeat_stats <-
    (self <- gets id ;; of_outcome (get_stats (heartbeat self))) ;;
  checks <- gets check_count ;;
  let agent_info :=
    [Lit nl; Lit "📡 *Status do Agente*"; Lit nl;
     Lit "✅ Checagens realizadas: "; Num (PyInt checks); Lit nl;
     Lit "📤 Heartbeats enviados: ";
       Num (PyInt (hs_total_sent heartbeat_stats)); Lit nl;
     Lit "❌ Falhas heartbeat: ";
       Num (PyInt (hs_total_failed heartbeat_stats)); Lit nl;
     Lit "📊 Taxa de sucesso: ";
       Num (hs_success_rate heartbeat_stats); Lit "%"; Lit nl] in
  let full_report :=
    system_report ++ [Lit nl; Lit nl] ++ docker_report ++ [Lit nl]
      ++ agent_info in
  ret full_report.

Definition _process_alerts (system_alerts docker_alerts : list alert)
  : M VigiloAgent unit :=
  let all_alerts := system_alerts ++ docker_alerts in
  match all_alerts with
  | [] => ret tt
  | _ :: _ =>
      sent_count <- on_notifier (send_alerts all_alerts) ;;
      let alert_types :=
        map (fun a => default "UNKNOWN" (a_type a)) all_alerts in
      on_heartbeat
        (send_alert_event (Z.of_nat (length all_alerts)) alert_types) ;;
      ret tt
  end.

(** Lines 216-225 of [_perform_check]: step 6, the periodic report. *)
Definition _perform_check_report (system_stats : stats) : M VigiloAgent unit :=
  due <- call _should_send_report ;;
  if due : bool then
    report <- call (_generate_full_report system_stats) ;;
    sent <- call (on_notifier (send_report report)) ;;
    if sent : bool then
      now <- time_time ;;
      modify (set_last_report_time now)
    else ret tt
  else ret tt.

Definition _perform_check : M VigiloAgent unit :=
  try_except
    (modify (fun self => set_check_count (check_count self + 1) self) ;;
     (* 1 *)
     system_stats <- call (on_system_monitor get_system_stats) ;;
     (* 2 *)
     system_alerts <-
       call (on_system_monitor
               (gets (fun monitor => check_thresholds monitor system_stats))) ;;
     (* 3 *)
     docker_alerts <- call (on_docker_monitor check_watched_containers) ;;
     (* 4 *)
     (match system_alerts, docker_alerts with
      | [], [] => ret tt
      | _, _ => call (_process_alerts system_alerts docker_alerts)
      end) ;;
     (* 5 *)
     call (on_heartbeat (send (Some system_stats) None)) ;;
     (* 6 *)
     _perform_check_report system_stats)
    (fun _ => ret tt).

(** [n] iterations of the loop of [run], for as long as no signal
    clears [running]: a check, then the pause until the next one. An
    exception escaping the iteration is met with a pause of 30
    seconds. *)
Fixpoint run_cycles (n : nat) : M VigiloAgent unit :=
  match n with
  | O => ret tt
  | S n' =>
      try_except
        (_perform_check ;; time_sleep (CHECK_INTERVAL config))
        (fun _ => time_sleep 30) ;;
      run_cycles n'
  end.

Definition _shutdown : M VigiloAgent unit :=
  try_except
    (hostname <- gets (fun self => hostname (heartbeat self)) ;;
     now <- datetime_now ;;
     checks <- gets check_count ;;
     let shutdown_msg :=
       [Lit "🛑 *Vigilo Encerrado*"; Lit nl; Lit nl; Lit "🖥️ Host: ";
        Lit hostname; Lit nl; Lit "🕒 "; DateTime now; Lit nl; Lit nl;
        Lit "📊 Checagens realizadas: "; Num (PyInt checks)] in
     on_notifier (send_message shutdown_msg true None) ;;
     on_heartbeat
       (send_event "shutdown" (Shutdown "Vigilo Agent encerrado" checks)) ;;
     ret tt)
    (fun _ => ret tt).

(** [run], from its [iteration]-th pass through the loop on, for at most
    [fuel] passes. [signal k] tells whether SIGINT or SIGTERM arrives
    during the [k]-th pass: the handler only clears [running], which is
    read at the head of the loop alone, and an interrupted [time.sleep]
    resumes, so the pass is completed first. With the handler installed
    for SIGINT no [KeyboardInterrupt] is raised, and that clause of the
    loop is left out. The result tells whether [run] returned within
    the fuel. *)
Fixpoint run (signal : nat → bool) (iteration fuel : nat) : M VigiloAgent bool :=
  still_running <- gets running ;;
  if still_running : bool then
    match fuel with
    | O => ret false
    | S fuel' =>
        try_except
          (_perform_check ;; time_sleep (CHECK_INTERVAL config))
          (fun _ => time_sleep 30) ;;
        (if signal iteration then _signal_handler else ret tt) ;;
        run signal (S iteration) fuel'
    end
  else
    _shutdown ;;
    ret true.

End with_env.

End main.

(** * Properties *)

Import config system_mon docker_mon notifier heartbeat main.

(** ** Vocabulary of the statements *)

(** What an alert says, apart from its texts. *)
Definition headline (a : alert)
  : option string * option string * option Q * option Q :=
  (a_type a, a_severity a, a_value a, a_threshold a).

(** The alert expected for a metric sampled at [v] against the threshold
    [t]: one alert when [v] is strictly above [t], none otherwise. *)
Definition above (type severity : string) (v t : Q)
  : list (option string * option string * option Q * option Q) :=
  if Qlt_le_dec t v then [(Some type, Some severity, Some v, Some t)] else [].

(** The alerts of a given type about a given container. *)
Definition about (type container : string) (alerts : list alert) : list alert :=
  filter (fun a => a_type a = Some type ∧ a_container a = Some container) alerts.

(** A response that [Notifier.send_message] does not take for a
    delivery: a status other than 200 and 201, or an exception. *)
Definition undelivered (r : http_result) : Prop :=
  match r with
  | Response status_code _ => status_code ≠ 200 ∧ status_code ≠ 201
  | Fails _ => True
  end.

(** The cooldown gate lets [alert_type] through at time [now]. *)
Definition admitted (self : Notifier) (alert_type : string) (now : Q) : bool :=
  match _last_alert_sent self !! alert_type with
  | None => true
  | Some last => Qle_bool (inject_Z (cooldown_seconds self)) (now - last)
  end.

Definition is_send_text (r : request) : bool :=
  match r with
  | PostSendText _ _ _ => true
  | PostWebhook _ _ => false
  end.

(** The world after one more reading of the clock. *)
Definition tick (w : World) : World :=
  {| clock_reads := S (clock_reads w); outbox := outbox w;
     sleeps := sleeps w; samples := samples w;
     docker_calls := docker_calls w; calls := calls w |}.

(** The sends that bypass the cooldown: periodic report, startup notice
    and the shutdown notice of [_shutdown]. *)
Inductive force_send :=
| Report (report_text : text)
| StartupNotice (hostname : string)
| ShutdownNotice (shutdown_msg : text).

Definition run_force_send {E : Env} (f : force_send) : M Notifier bool :=
  match f with
  | Report report_text => send_report report_text
  | StartupNotice hostname => send_startup_notification hostname
  | ShutdownNotice shutdown_msg => send_message shutdown_msg true None
  end.

Fixpoint run_force_sends {E : Env} (fs : list force_send) : M Notifier (list bool) :=
  match fs with
  | [] => ret []
  | f :: rest =>
      sent <- run_force_send f ;;
      others <- run_force_sends rest ;;
      ret (sent :: others)
  end.

(** The world after one more call of [requests.post]. *)
Definition posted (r : request) (w : World) : World :=
  {| clock_reads := clock_reads w; outbox := outbox w ++ [r];
     sleeps := sleeps w; samples := samples w;
     docker_calls := docker_calls w; calls := calls w |}.

(** The request by which the notifier sends [message]. *)
Definition send_text_request (self : Notifier) (message : text) : request :=
  PostSendText
    (evolution_url self +:+ "/message/sendText/" +:+ evolution_instance self)
    (evolution_token self) (notifier._build_payload self message).

(** The text [send_alert] sends for an alert, stamped [timestamp]. *)
Definition alert_text (a : alert) (timestamp : Q) : text :=
  [Lit "⚠️ *ALERTA VIGILO* ⚠️"; Lit nl; Lit nl]
    ++ default [Lit "Alerta sem mensagem"] (a_message a)
    ++ [Lit nl; Lit nl; Lit "🕒 "; DateTime timestamp].

(** The world after one more call to the Docker socket. *)
Definition docker_called (w : World) : World :=
  {| clock_reads := clock_reads w; outbox := outbox w;
     sleeps := sleeps w; samples := samples w;
     docker_calls := S (docker_calls w); calls := calls w |}.

(** How often a name is listed. *)
Definition occurrences (x : string) (l : list string) : nat :=
  length (filter (fun y => y = x) l).

(** The payload of a heartbeat built at time [now]. *)
Definition payload_at (self : Heartbeat) (st : option stats)
    (extra_data : option (string * event_data)) (now : Q) : heartbeat_payload :=
  {| hp_agent_name := hostname self;
     hp_status := "alive";
     hp_timestamp := int now;
     hp_consecutive_failures := consecutive_failures self;
     hp_total_sent := total_sent self;
     hp_total_failed := total_failed self;
     hp_stats := summary_of <$> st;
     hp_event_type := fst <$> extra_data;
     hp_event_data := snd <$> extra_data |}.

(** A response that [Heartbeat.send] takes for a delivery. *)
Definition acknowledged (r : http_result) : bool :=
  match r with
  | Response status_code _ =>
      (status_code =? 200)%Z || (status_code =? 201)%Z || (status_code =? 204)%Z
  | Fails _ => false
  end.

(** The type under which an alert is gated and reported. *)
Definition type_of (a : alert) : string := default "UNKNOWN" (a_type a).

(** A response that [Notifier.send_message] takes for a delivery. *)
Definition delivered (r : http_result) : bool :=
  match r with
  | Response status_code _ => (status_code =? 200)%Z || (status_code =? 201)%Z
  | Fails _ => false
  end.

(** The report is due at time [now]. *)
Definition due (config : Config) (self : VigiloAgent) (now : Q) : Prop :=
  (inject_Z (get_report_interval config) <= now - last_report_time self)%Q.

(** A computation leaves the observation [f] of the state as it was,
    whether it returns or raises. *)
Definition keeps {St A B} (f : St -> B) (c : M St A) : Prop :=
  ∀ s w, f (c s w).1.2 = f s.

(** How many of the [count] calls of [requests.post] from the [first]
    on are answered 200 or 201. *)
Definition deliveries {E : Env} (first count : nat) : nat :=
  length (filter (fun i => delivered (http i) = true) (seq first count)).

(** Every recorded time is a past one: no later than the next reading of
    the clock. *)
Definition settled {E : Env} (self : Notifier) (w : World) : Prop :=
  ∀ alert_type t,
    _last_alert_sent self !! alert_type = Some t →
    (t <= clock (clock_reads w))%Q.

(** The clock never goes back. *)
Definition monotone_clock {E : Env} : Prop :=
  ∀ i j, (i ≤ j)%nat → (clock i <= clock j)%Q.

(** A heartbeat or an event to send: the arguments of [Heartbeat.send]. *)
Definition beat : Type := option stats * option (string * event_data).

(** Heartbeats sent one after the other, with their results. *)
Fixpoint send_each {E : Env} (beats : list beat) : M Heartbeat (list bool) :=
  match beats with
  | [] => ret []
  | (st, extra_data) :: rest =>
      sent <- heartbeat.send st extra_data ;;
      others <- send_each rest ;;
      ret (sent :: others)
  end.

(** How many results are [b]. *)
Definition tally (b : bool) (results : list bool) : Z :=
  Z.of_nat (length (filter (fun r => r = b) results)).

(** A counter of the Docker API: an unsigned integer of 64 bits. *)
Definition uint64 (z : Z) : Prop := 0 <= z < 2 ^ 64.

(** The entries that are present are such counters. *)
Definition counters (stats : container_stats) : Prop :=
  Forall (fun entry : option Z => ∀ z, entry = Some z → uint64 z)
    [cs_total_usage stats; cs_pre_total_usage stats; cs_system_usage stats;
     cs_pre_system_usage stats; cs_online_cpus stats; cs_memory_usage stats].

(** The alert types the evaluators raise. *)
Definition known_types : list string :=
  ["CPU_CRITICAL"; "RAM_CRITICAL"; "DISK_CRITICAL"; "DOCKER_CONNECTION_ERROR";
   "CONTAINER_NOT_FOUND"; "CONTAINER_NOT_RUNNING"; "CONTAINER_UNHEALTHY"].

(** An alert with a known type, a severity and a message. *)
Definition well_formed (a : alert) : Prop :=
  (∃ type, a_type a = Some type ∧ type ∈ known_types)
  ∧ (a_severity a = Some "high" ∨ a_severity a = Some "critical")
  ∧ (∃ message, a_message a = Some message ∧ message ≠ []).

(** The marker that a report shows in front of [label]. *)
Fixpoint marker_of (label : string) (report : text) : option string :=
  match report with
  | [] => None
  | Lit marker :: rest =>
      match rest with
      | Lit l :: _ =>
          if String.eqb l label then Some marker else marker_of label rest
      | _ => marker_of label rest
      end
  | _ :: rest => marker_of label rest
  end.

(** The text of the shutdown notice. *)
Definition shutdown_text (hostname : string) (now : Q) (checks : Z) : text :=
  [Lit "🛑 *Vigilo Encerrado*"; Lit nl; Lit nl; Lit "🖥️ Host: ";
   Lit hostname; Lit nl; Lit "🕒 "; DateTime now; Lit nl; Lit nl;
   Lit "📊 Checagens realizadas: "; Num (PyInt checks)].

(** The text of the startup notice. *)
Definition startup_text (hostname : string) (now : Q) : text :=
  [Lit "✅ *Vigilo Iniciado*"; Lit nl; Lit nl; Lit "🖥️ Host: ";
   Lit hostname; Lit nl; Lit "🕒 "; DateTime now].

(** The world after one more collaborator call of the cycle body. *)
Definition called (w : World) : World :=
  {| clock_reads := clock_reads w; outbox := outbox w;
     sleeps := sleeps w; samples := samples w;
     docker_calls := docker_calls w; calls := S (calls w) |}.

(** A heartbeat that reports no event. *)
Definition plain_heartbeat (r : request) : bool :=
  match r with
  | PostSendText _ _ _ => false
  | PostWebhook _ payload => bool_decide (hp_event_type payload = None)
  end.

(** The environment raises nothing unexpected. *)
Definition quiet {E : Env} : Prop := ∀ i, fault i = None.

(** A threshold is a percentage above zero. *)
Definition percentage (t : Q) : Prop := (0 < t)%Q ∧ (t <= 100)%Q.

(** ** Scenarios *)

(** A clock that advances by one second per reading from [start]. *)
Definition ticking (start : Z) (k : nat) : Q := inject_Z (start + Z.of_nat k).

(** Every endpoint answers with [status_code]; Docker is reachable and
    lists [containers]; sampling gives [st]; nothing unexpected happens. *)
Definition steady_env (start status_code : Z) (st : stats)
    (containers : list container) : Env :=
  {| clock := ticking start;
     http := fun _ => Response status_code "";
     psutil := fun _ => st;
     docker_ping := fun _ => true;
     docker_list := fun _ => Some containers;
     fault := fun _ => None |}.

Definition failed_sampling : stats := SampleError "psutil" 0.

Definition a_notifier (last_alert_sent : gmap string Q) : Notifier :=
  {| evolution_url := "http://evolution:8080";
     evolution_token := "token";
     evolution_instance := "vigilo";
     notify_number := "5511999999999";
     cooldown_seconds := 1800;
     _last_alert_sent := last_alert_sent |}.

Definition cpu_alert : alert :=
  {| a_type := Some "CPU_CRITICAL"; a_severity := Some "high";
     a_message := Some [Lit "🔴 CPU em "; Num (PyFloat 92); Lit "% (limite: ";
                        Num (PyFloat 85); Lit "%)"];
     a_value := Some 92%Q; a_threshold := Some 85%Q;
     a_details := None; a_container := None; a_status := None |}.

(** The Docker socket does not answer. *)
Definition docker_down_env (start : Z) : Env :=
  {| clock := ticking start;
     http := fun _ => Response 200 "";
     psutil := fun _ => failed_sampling;
     docker_ping := fun _ => false;
     docker_list := fun _ => None;
     fault := fun _ => None |}.

(** A container that exited while its health check was failing. *)
Definition stopped_unhealthy_db : container :=
  {| short_id := "0123456789ab"; name := "db"; status := "exited";
     image_tags := ["postgres:16"]; image_short_id := "sha256:abc";
     attrs_created := Some "2024-01-01T00:00:00Z";
     attrs_health := Some (Some "unhealthy") |}.

Definition a_monitor (watch : list string) : DockerMonitor :=
  {| watch_containers := watch; client := true |}.

Definition a_heartbeat : Heartbeat :=
  {| webhook_url := "http://n8n:5678/webhook/vigilo"; timeout := 10;
     hostname := "vps-01"; consecutive_failures := 0; total_sent := 0;
     total_failed := 0 |}.

Definition a_config : Config :=
  {| CHECK_INTERVAL := 60; REPORT_HOURS := 4; WATCH_CONTAINERS := ["db"; "api"];
     config.CPU_THRESHOLD := 85; config.RAM_THRESHOLD := 90;
     config.DISK_THRESHOLD := 90; ALERT_COOLDOWN := 1800 |}.

(** An agent as [__init__] leaves it at time [started], but for the
    cooldown map. *)
Definition an_agent (last_alert_sent : gmap string Q) (started : Q) : VigiloAgent :=
  {| system_monitor :=
       {| system_mon.CPU_THRESHOLD := 85; system_mon.RAM_THRESHOLD := 90;
          system_mon.DISK_THRESHOLD := 90 |};
     docker_monitor := a_monitor ["db"; "api"];
     notifier := a_notifier last_alert_sent;
     heartbeat := a_heartbeat;
     running := true;
     last_report_time := started;
     check_count := 0 |}.

(** As [steady_env], but the third collaborator call of the first cycle
    raises. *)
Definition faulty_env (start status_code : Z) : Env :=
  {| clock := ticking start;
     http := fun _ => Response status_code "";
     psutil := fun _ => failed_sampling;
     docker_ping := fun _ => true;
     docker_list := fun _ => Some [];
     fault := fun k => if (k =? 2)%nat then Some (Unexpected "docker") else None |}.

(** A container that runs and passes its health check. *)
Definition running_db : container :=
  {| short_id := "0123456789ab"; name := "db"; status := "running";
     image_tags := ["postgres:16"]; image_short_id := "sha256:abc";
     attrs_created := Some "2024-01-01T00:00:00Z";
     attrs_health := Some (Some "healthy") |}.

(** Docker answers the ping, then fails to list the containers. *)
Definition listing_fails_env (start : Z) : Env :=
  {| clock := ticking start;
     http := fun _ => Response 200 "";
     psutil := fun _ => failed_sampling;
     docker_ping := fun _ => true;
     docker_list := fun _ => None;
     fault := fun _ => None |}.

(** A container that used 23 of the 160 units of CPU time that passed
    on a host with one CPU, and holds 50 MB. *)
Definition busy_container : container_stats :=
  {| cs_total_usage := Some 46; cs_pre_total_usage := Some 23;
     cs_system_usage := Some 320; cs_pre_system_usage := Some 160;
     cs_online_cpus := Some 1; cs_memory_usage := Some 52428800 |}.

(** ** Numbers *)

Lemma Qltb_lt (x y : Q) : Qltb x y = true ↔ (x < y)%Q.
Proof.
  unfold Qltb. rewrite negb_true_iff, <- not_true_iff_false, Qle_bool_iff.
  split; intros H.
  - by apply Qnot_le_lt.
  - by apply Qlt_not_le.
Qed.

Lemma Qltb_above (x y : Q) :
  Qltb x y = if Qlt_le_dec x y then true else false.
Proof.
  destruct (Qlt_le_dec x y) as [Hlt | Hle].
  - by apply Qltb_lt.
  - apply not_true_iff_false. rewrite Qltb_lt. by apply Qle_not_lt.
Qed.

(** [round_half_even] stays within one half of its argument. *)
Lemma round_half_even_near (q : Q) :
  (q - (1 # 2) <= inject_Z (round_half_even q) <= q + (1 # 2))%Q.
Proof.
  unfold round_half_even.
  pose proof (Qfloor_le q) as Hlo.
  pose proof (Qlt_floor q) as Hhi.
  rewrite inject_Z_plus in Hhi. change (inject_Z 1) with 1%Q in Hhi.
  destruct (q - inject_Z (Qfloor q) ?= 1 # 2)%Q eqn:Hc.
  - apply Qeq_alt in Hc.
    destruct (Z.even (Qfloor q));
      [| rewrite inject_Z_plus; change (inject_Z 1) with 1%Q ]; lra.
  - apply Qlt_alt in Hc. lra.
  - apply Qgt_alt in Hc. rewrite inject_Z_plus.
    change (inject_Z 1) with 1%Q. lra.
Qed.

(** Rounding does not cross an integer. *)
Lemma round_half_even_le (q : Q) (hi : Z) :
  (q <= inject_Z hi)%Q → round_half_even q <= hi.
Proof.
  intros Hq. unfold round_half_even.
  assert (Hfloor : Qfloor q <= hi).
  { rewrite <- (Qfloor_Z hi). by apply Qfloor_resp_le. }
  destruct (q - inject_Z (Qfloor q) ?= 1 # 2)%Q eqn:Hc.
  - destruct (Z.even (Qfloor q)); [done |].
    apply Qeq_alt in Hc.
    destruct (Z.eq_dec (Qfloor q) hi) as [Heq | Hne]; [| lia].
    rewrite Heq in Hc. lra.
  - done.
  - apply Qgt_alt in Hc.
    destruct (Z.eq_dec (Qfloor q) hi) as [Heq | Hne]; [| lia].
    rewrite Heq in Hc. lra.
Qed.

Lemma round_half_even_ge (q : Q) (lo : Z) :
  (inject_Z lo <= q)%Q → lo <= round_half_even q.
Proof.
  intros Hq. unfold round_half_even.
  assert (Hfloor : lo <= Qfloor q).
  { rewrite <- (Qfloor_Z lo). by apply Qfloor_resp_le. }
  destruct (q - inject_Z (Qfloor q) ?= 1 # 2)%Q;
    [destruct (Z.even (Qfloor q)) | |]; lia.
Qed.

Lemma pow2_pos k : (0 < pow2 k)%Q.
Proof. by apply Qpower_0_lt. Qed.

Lemma pow2_add j k : (pow2 (j + k) == pow2 j * pow2 k)%Q.
Proof. by apply Qpower_plus. Qed.

Lemma pow2_le j k : j <= k → (pow2 j <= pow2 k)%Q.
Proof. intros Hjk. by apply Qpower_le_compat_l. Qed.

Lemma pow2_lt j k : j < k → (pow2 j < pow2 k)%Q.
Proof. intros Hjk. by apply Qpower_lt_compat_l. Qed.

Lemma pow2_lt_inv j k : (pow2 j < pow2 k)%Q → j < k.
Proof. intros Hjk. by apply (Qpower_lt_compat_l_inv 2). Qed.

Lemma pow2_Z k : 0 <= k → (pow2 k == inject_Z (2 ^ k))%Q.
Proof. intros Hk. unfold pow2. by rewrite Zpower_Qpower. Qed.

(** [exponent x] is the integer part of the binary logarithm of [|x|]. *)
Lemma exponent_spec (x : Q) :
  ¬ (x == 0)%Q →
  (pow2 (exponent x) <= Qabs x < pow2 (exponent x + 1))%Q.
Proof.
  intros Hx. unfold exponent. cbv zeta.
  assert (Hpos : (0 < Qabs x)%Q).
  { destruct (Qlt_le_dec 0 x) as [Hgt | Hle].
    - rewrite Qabs_pos; lra.
    - rewrite Qabs_neg by done.
      destruct (Qlt_le_dec x 0) as [Hlt | Hge]; [lra |].
      exfalso. apply Hx. lra. }
  set (a := Qabs x) in *.
  destruct (Qle_bool 1 a) eqn:Hone.
  - apply Qle_bool_iff in Hone.
    assert (Hn : 1 <= Qfloor a).
    { change 1 with (Qfloor 1). by apply Qfloor_resp_le. }
    pose proof (Z.log2_spec (Qfloor a) ltac:(lia)) as [Hlo Hhi].
    pose proof (Z.log2_nonneg (Qfloor a)) as Hnonneg.
    rewrite !pow2_Z by lia.
    pose proof (Qfloor_le a) as Hfl. pose proof (Qlt_floor a) as Hlt.
    rewrite Zle_Qle in Hlo.
    assert (Hhi' : (inject_Z (Qfloor a + 1) <= inject_Z (2 ^ (Z.log2 (Qfloor a) + 1)))%Q).
    { rewrite <- Zle_Qle. unfold Z.succ in Hhi. lia. }
    split; lra.
  - assert (Hlt1 : (a < 1)%Q).
    { destruct (Qlt_le_dec a 1) as [| Hle]; [done |].
      apply Qle_bool_iff in Hle. congruence. }
    set (y := (/ a)%Q).
    assert (Hay : (a * y == 1)%Q) by (apply Qmult_inv_r; lra).
    assert (Hy : (1 < y)%Q).
    { assert (0 < y)%Q by (by apply Qinv_lt_0_compat). nra. }
    pose proof (Qle_ceiling y) as Hceil.
    pose proof (Qceiling_lt y) as Hceil'.
    assert (Hc : 1 < Qceiling y).
    { rewrite Zlt_Qlt. change (inject_Z 1) with 1%Q. lra. }
    pose proof (Z.log2_up_spec (Qceiling y) Hc) as [Hlo Hhi].
    set (k := Z.log2_up (Qceiling y)) in *.
    assert (Hk : 1 <= k).
    { destruct (Z.le_gt_cases 1 k) as [| Hk0]; [done |].
      assert (k <= 0) by lia.
      assert (2 ^ k <= 2 ^ 0) by (destruct (Z.lt_ge_cases k 0);
        [rewrite Z.pow_neg_r by done; lia | apply Z.pow_le_mono_r; lia]).
      change (2 ^ 0) with 1 in *. lia. }
    assert (Hupper : (y <= pow2 k)%Q).
    { rewrite pow2_Z by lia. rewrite Zle_Qle in Hhi. lra. }
    assert (Hlower : (pow2 (k - 1) < y)%Q).
    { rewrite pow2_Z by lia.
      assert (2 ^ (k - 1) <= Qceiling y - 1)
        by (replace (k - 1) with (Z.pred k) by lia; lia).
      rewrite Zle_Qle in H. lra. }
    replace (- k + 1) with (- (k - 1)) by lia.
    unfold pow2 in *. rewrite !Qpower_opp.
    pose proof (pow2_pos k) as Hpk. pose proof (pow2_pos (k - 1)) as Hpk1.
    unfold pow2 in *.
    assert (Hinv : (2 ^ k * / 2 ^ k == 1)%Q) by (apply Qmult_inv_r; lra).
    assert (Hinv1 : (2 ^ (k - 1) * / 2 ^ (k - 1) == 1)%Q)
      by (apply Qmult_inv_r; lra).
    assert (0 < / 2 ^ k)%Q by (by apply Qinv_lt_0_compat).
    assert (0 < / 2 ^ (k - 1))%Q by (by apply Qinv_lt_0_compat).
    split; nra.
Qed.

Lemma ulp_pos (x : Q) : (0 < ulp x)%Q.
Proof. apply pow2_pos. Qed.

Lemma b64_eq (x : Q) :
  (b64 x == inject_Z (round_half_even (x / ulp x)) * ulp x)%Q.
Proof. unfold b64. apply Qred_correct. Qed.

(** Rounding to binary64 does not cross a point of the grid around
    [x]. *)
Lemma b64_grid (x : Q) (lo hi : Z) :
  (inject_Z lo * ulp x <= x <= inject_Z hi * ulp x)%Q →
  (inject_Z lo * ulp x <= b64 x <= inject_Z hi * ulp x)%Q.
Proof.
  intros [Hlo Hhi]. pose proof (ulp_pos x) as Hu. rewrite b64_eq.
  assert (Hlo' : lo <= round_half_even (x / ulp x)).
  { apply round_half_even_ge. by apply Qle_shift_div_l. }
  assert (Hhi' : round_half_even (x / ulp x) <= hi).
  { apply round_half_even_le. by apply Qle_shift_div_r. }
  rewrite Zle_Qle in Hlo', Hhi'.
  split; apply Qmult_le_compat_r; lra.
Qed.

(** It moves [x] by half a unit in the last place at most. *)
Lemma b64_near (x : Q) :
  (x - ulp x * (1 # 2) <= b64 x <= x + ulp x * (1 # 2))%Q.
Proof.
  pose proof (ulp_pos x) as Hu. rewrite b64_eq.
  pose proof (round_half_even_near (x / ulp x)) as [Hlo Hhi].
  assert (Hx : (x / ulp x * ulp x == x)%Q) by (field; lra).
  split; nra.
Qed.

Lemma exponent_zero (x : Q) : (x == 0)%Q → exponent x = 0.
Proof.
  intros Hx. unfold exponent. cbv zeta.
  assert (Ha : (Qabs x == 0)%Q) by (rewrite Hx; reflexivity).
  destruct (Qle_bool 1 (Qabs x)) eqn:Hone.
  { apply Qle_bool_iff in Hone. lra. }
  assert (Hinv : (/ Qabs x == 0)%Q) by (rewrite Ha; reflexivity).
  rewrite (Qceiling_comp _ _ Hinv). reflexivity.
Qed.

Lemma exponent_le (x : Q) (K : Z) :
  0 <= K → (Qabs x < pow2 (K + 1))%Q → exponent x <= K.
Proof.
  intros HK Hx. destruct (Qeq_dec x 0) as [Hz | Hnz].
  - by rewrite exponent_zero.
  - pose proof (exponent_spec x Hnz) as [Hlo _].
    assert (exponent x < K + 1); [| lia].
    apply pow2_lt_inv. lra.
Qed.

(** The grid around [x] refines the grid of step [2 ^ (K - 52)] when
    [|x|] is below [2 ^ (K + 1)]. *)
Lemma ulp_divides (x : Q) (K : Z) :
  0 <= K → (Qabs x < pow2 (K + 1))%Q →
  ∃ n : Z, 0 < n ∧ (pow2 (K - 52) == inject_Z n * ulp x)%Q.
Proof.
  intros HK Hx. pose proof (exponent_le x K HK Hx) as He.
  set (e := Z.max (exponent x) (-1022)).
  assert (HeK : e <= K) by lia.
  exists (2 ^ (K - e)). split; [apply Z.pow_pos_nonneg; lia |].
  unfold ulp. fold e. rewrite <- pow2_Z by lia. rewrite <- pow2_add.
  by replace (K - e + (e - 52)) with (K - 52) by lia.
Qed.

Lemma b64_between (x : Q) (lo hi K : Z) :
  0 <= K → (Qabs x < pow2 (K + 1))%Q →
  (inject_Z lo * pow2 (K - 52) <= x <= inject_Z hi * pow2 (K - 52))%Q →
  (inject_Z lo * pow2 (K - 52) <= b64 x <= inject_Z hi * pow2 (K - 52))%Q.
Proof.
  intros HK Hx. destruct (ulp_divides x K HK Hx) as (n & Hn & ->).
  rewrite !Qmult_assoc, <- !inject_Z_mult. apply b64_grid.
Qed.

(** No integer below [2 ^ 53] is crossed. *)
Lemma b64_int_between (x : Q) (lo hi : Z) :
  (Qabs x < pow2 53)%Q →
  (inject_Z lo <= x <= inject_Z hi)%Q →
  (inject_Z lo <= b64 x <= inject_Z hi)%Q.
Proof.
  intros Hx Hbetween.
  pose proof (b64_between x lo hi 52 ltac:(lia) Hx) as Hgrid.
  change (pow2 (52 - 52)) with 1%Q in Hgrid. rewrite !Qmult_1_r in Hgrid.
  by apply Hgrid.
Qed.

(** Nor is a power of two. *)
Lemma b64_pow2_bound (x : Q) (k : Z) :
  0 <= k → (Qabs x <= pow2 k)%Q → (Qabs (b64 x) <= pow2 k)%Q.
Proof.
  intros Hk Hx.
  assert (Hlt : (Qabs x < pow2 (k + 1))%Q).
  { pose proof (pow2_lt k (k + 1) ltac:(lia)). lra. }
  assert (Hk52 : (pow2 k == inject_Z (2 ^ 52) * pow2 (k - 52))%Q).
  { rewrite <- pow2_Z by lia. rewrite <- pow2_add.
    by replace (52 + (k - 52)) with k by lia. }
  apply Qabs_Qle_condition in Hx.
  pose proof (b64_between x (- 2 ^ 52) (2 ^ 52) k Hk Hlt) as Hgrid.
  rewrite inject_Z_opp in Hgrid.
  apply Qabs_Qle_condition. rewrite Hk52 in *. 
  assert (Heq : (- inject_Z (2 ^ 52) * pow2 (k - 52)
                 == - (inject_Z (2 ^ 52) * pow2 (k - 52)))%Q) by ring.
  rewrite Heq in Hgrid. by apply Hgrid.
Qed.

Lemma b64_nonneg (x : Q) : (0 <= x)%Q → (0 <= b64 x)%Q.
Proof.
  intros Hx. pose proof (ulp_pos x) as Hu.
  destruct (Qlt_le_dec x (inject_Z 1 * ulp x)) as [Hlt | Hge].
  - pose proof (b64_grid x 0 1) as Hgrid.
    change (inject_Z 0) with 0%Q in Hgrid. rewrite Qmult_0_l in Hgrid.
    apply Hgrid. lra.
  - rewrite b64_eq.
    assert (1 <= round_half_even (x / ulp x)).
    { apply round_half_even_ge. by apply Qle_shift_div_l. }
    rewrite Zle_Qle in H. change (inject_Z 1) with 1%Q in H. nra.
Qed.

(** Below [2 ^ (K + 1)] the error is [2 ^ (K - 53)] at most. *)
Lemma b64_error (x : Q) (K : Z) :
  0 <= K → (Qabs x < pow2 (K + 1))%Q →
  (x - pow2 (K - 53) <= b64 x <= x + pow2 (K - 53))%Q.
Proof.
  intros HK Hx. pose proof (b64_near x) as Hnear.
  destruct (ulp_divides x K HK Hx) as (n & Hn & Hgrid).
  pose proof (ulp_pos x) as Hu.
  assert (Hhalf : (pow2 (K - 52) == 2 * pow2 (K - 53))%Q).
  { change 2%Q with (pow2 1). rewrite <- pow2_add.
    by replace (1 + (K - 53)) with (K - 52) by lia. }
  assert (Hn1 : (1 <= inject_Z n)%Q).
  { change 1%Q with (inject_Z 1). rewrite <- Zle_Qle. lia. }
  nra.
Qed.

Lemma in_range_bound (x : Q) (k : Z) :
  0 <= k < 1024 → (Qabs x <= pow2 k)%Q → in_range x = true.
Proof.
  intros Hk Hx. unfold in_range, Qltb. apply negb_true_iff.
  apply not_true_iff_false. rewrite Qle_bool_iff.
  pose proof (b64_pow2_bound x k ltac:(lia) Hx).
  pose proof (pow2_lt k 1024 ltac:(lia)). lra.
Qed.

(** Rounding to two decimals stays within half a hundredth. *)
Lemma hundredths_near (q : Q) :
  (q - (1 # 200) <= Qmake (round_half_even (q * 100)) 100 <= q + (1 # 200))%Q.
Proof.
  pose proof (round_half_even_near (q * 100)) as [Hlo Hhi].
  rewrite (Qmake_Qdiv (round_half_even (q * 100)) 100).
  change (inject_Z (Zpos 100)) with 100%Q.
  split.
  - apply Qle_shift_div_l; [reflexivity | lra].
  - apply Qle_shift_div_r; [reflexivity | lra].
Qed.

(** ** ThresholdEvaluator: [SystemMonitor.check_thresholds] *)

(** C4. An error snapshot gives no alert. Otherwise the alerts come in the
    order CPU, RAM, DISK, each one present exactly when the sampled
    percentage is strictly above its threshold (so not when they are
    equal), with severity high for CPU and RAM and critical for DISK. *)
Theorem check_thresholds_spec (self : SystemMonitor) (st : stats) :
  headline <$> check_thresholds self st =
    match st with
    | SampleError _ _ => []
    | Sample s =>
        above "CPU_CRITICAL" "high" (cpu_percent s) (system_mon.CPU_THRESHOLD self)
        ++ above "RAM_CRITICAL" "high" (ram_percent s) (system_mon.RAM_THRESHOLD self)
        ++ above "DISK_CRITICAL" "critical" (disk_percent s)
                 (system_mon.DISK_THRESHOLD self)
    end.
Proof.
  destruct st as [s | error ts]; [| reflexivity].
  unfold check_thresholds, above.
  rewrite !Qltb_above.
  destruct (Qlt_le_dec _ (cpu_percent s)), (Qlt_le_dec _ (ram_percent s)),
    (Qlt_le_dec _ (disk_percent s)); reflexivity.
Qed.

(** Equality with the threshold raises nothing. *)
Example check_thresholds_boundary :
  check_thresholds
    {| system_mon.CPU_THRESHOLD := 85; system_mon.RAM_THRESHOLD := 90;
       system_mon.DISK_THRESHOLD := 90 |}
    (Sample {| cpu_percent := 85; ram_percent := 90; ram_used_gb := 1;
               ram_total_gb := 2; disk_percent := 90 + (1 # 100);
               disk_used_gb := 9; disk_total_gb := 10; uptime := "1 day";
               uptime_seconds := 86400; process_count := 100;
               timestamp := 0 |})
  = [ {| a_type := Some "DISK_CRITICAL"; a_severity := Some "critical";
         a_message := Some [Lit "🔴 DISCO em "; Num (PyFloat (90 + (1 # 100)));
                            Lit "% (limite: "; Num (PyFloat 90); Lit "%)"];
         a_value := Some (90 + (1 # 100))%Q; a_threshold := Some 90%Q;
         a_details := Some [Num (PyFloat 9); Lit "GB / "; Num (PyFloat 10);
                            Lit "GB"];
         a_container := None; a_status := None |} ].
Proof. reflexivity. Qed.

(** ** Heartbeat statistics: [Heartbeat.get_stats] *)

Lemma Qabs_below (x : Q) (k : Z) :
  (0 <= x <= pow2 k)%Q → (Qabs x <= pow2 k)%Q.
Proof. intros [Hlo Hhi]. by rewrite Qabs_pos. Qed.

Lemma to_float_100 : to_float (PyInt 100) = Ret (Real 100).
Proof. vm_compute. reflexivity. Qed.

Lemma success_ratio_between (sent attempts : Z) :
  0 <= sent <= attempts → 0 < attempts →
  (0 <= inject_Z sent / inject_Z attempts <= 1)%Q.
Proof.
  intros [Hlo Hhi] Hpos.
  assert (Ha : (0 < inject_Z attempts)%Q).
  { change 0%Q with (inject_Z 0). by rewrite <- Zlt_Qlt. }
  rewrite Zle_Qle in Hlo, Hhi. change (inject_Z 0) with 0%Q in Hlo.
  split.
  - apply Qle_shift_div_l; [done | lra].
  - apply Qle_shift_div_r; [done | lra].
Qed.

(** The success rate before it is rounded to two decimals: two
    roundings to binary64 keep it within [10 ^ -13] of the exact
    percentage. *)
Lemma success_rate_run (sent attempts : Z) :
  0 <= sent <= attempts → 0 < attempts →
  let exact := (inject_Z sent / inject_Z attempts * 100)%Q in
  let ratio := b64 (inject_Z sent / inject_Z attempts) in
  let product := b64 (ratio * 100) in
  and_then (truediv sent attempts)
    (fun ratio => mul (PyFloat ratio) (PyInt 100))
  = Ret (PyFloat product)
  ∧ (0 <= ratio <= 1)%Q
  ∧ (0 <= product <= 100)%Q
  ∧ (exact - (1 # 10000000000000) <= product
     <= exact + (1 # 10000000000000))%Q.
Proof.
  intros Hsent Hpos exact ratio product.
  pose proof (success_ratio_between sent attempts Hsent Hpos) as Hexact.
  assert (Hsmall : (Qabs (inject_Z sent / inject_Z attempts) <= pow2 0)%Q).
  { apply Qabs_below. change (pow2 0) with 1%Q. lra. }
  assert (Hratio : (0 <= ratio <= 1)%Q).
  { apply (b64_int_between _ 0 1); [| done].
    pose proof (pow2_lt 0 53 ltac:(lia)). lra. }
  assert (Hsmall' : (Qabs (ratio * 100) <= pow2 7)%Q).
  { apply Qabs_below. change (pow2 7) with 128%Q. lra. }
  assert (Hproduct : (0 <= product <= 100)%Q).
  { apply (b64_int_between _ 0 100).
    - pose proof (pow2_lt 7 53 ltac:(lia)). lra.
    - change (inject_Z 0) with 0%Q. change (inject_Z 100) with 100%Q. lra. }
  split; [| split; [done | split; [done |]]].
  - unfold truediv. destruct (Z.eqb_spec attempts 0) as [| _]; [lia |].
    cbv zeta. rewrite (in_range_bound _ 0) by (done || lia).
    cbn [and_then]. unfold mul. rewrite to_float_100.
    cbn [to_float and_then fmul].
    fold ratio. rewrite (in_range_bound _ 7) by (done || lia).
    reflexivity.
  - pose proof (b64_error (inject_Z sent / inject_Z attempts) 0 ltac:(lia))
      as Herr1.
    pose proof (b64_error (ratio * 100) 6 ltac:(lia)) as Herr2.
    change (pow2 (0 - 53)) with (1 # 9007199254740992)%Q in Herr1.
    change (pow2 (6 - 53)) with (1 # 140737488355328)%Q in Herr2.
    fold ratio in Herr1. fold product in Herr2.
    assert (H1 : (Qabs (inject_Z sent / inject_Z attempts) < pow2 (0 + 1))%Q).
    { pose proof (pow2_lt 0 (0 + 1) ltac:(lia)). lra. }
    assert (H2 : (Qabs (ratio * 100) < pow2 (6 + 1))%Q).
    { rewrite Qabs_pos by lra. change (pow2 (6 + 1)) with 128%Q. lra. }
    specialize (Herr1 H1). specialize (Herr2 H2). subst exact. lra.
Qed.

(** With counters that are not negative nothing overflows. *)
Lemma get_stats_run (self : Heartbeat) :
  0 <= total_sent self → 0 <= total_failed self →
  get_stats self =
    Ret {| hs_hostname := hostname self;
           hs_total_sent := total_sent self;
           hs_total_failed := total_failed self;
           hs_consecutive_failures := consecutive_failures self;
           hs_success_rate :=
             if (total_sent self + total_failed self >? 0)%Z then
               round2 (PyFloat (b64 (b64 (inject_Z (total_sent self)
                                          / inject_Z (total_sent self
                                                      + total_failed self))
                                     * 100)))
             else PyInt 0 |}.
Proof.
  intros Hsent Hfailed. unfold get_stats.
  destruct (Z.gtb_spec (total_sent self + total_failed self) 0) as [Hpos | Hle].
  - destruct (success_rate_run (total_sent self)
                (total_sent self + total_failed self)) as [-> _]; [lia | lia |].
    reflexivity.
  - reflexivity.
Qed.

(** The division is guarded, whatever the counters. *)
Lemma get_stats_guarded (self : Heartbeat) :
  get_stats self ≠ Raise ZeroDivisionError.
Proof.
  unfold get_stats.
  destruct (Z.gtb_spec (total_sent self + total_failed self) 0) as [Hpos | Hle];
    [| done].
  unfold truediv. destruct (Z.eqb_spec (total_sent self + total_failed self) 0);
    [lia |].
  cbv zeta. destruct (in_range _); [| done].
  cbn [and_then]. unfold mul. rewrite to_float_100. done.
Qed.

(** C10. [get_stats] never divides by zero, whatever the counters, and
    with counters that are not negative it returns. With no attempt the
    success rate is the int 0. Otherwise it is [round(product, 2)] of
    the float [product = (total_sent / total_attempts) * 100]: the float
    nearest to the number of hundredths nearest to [product]. The
    product is within [10 ^ -13] of the exact percentage, so the
    hundredths are at most half a hundredth and [10 ^ -13] away from
    it; they need not be the hundredths nearest to the exact
    percentage. *)
Theorem get_stats_total (self : Heartbeat) :
  0 <= total_sent self → 0 <= total_failed self →
  let attempts := total_sent self + total_failed self in
  let exact := (inject_Z (total_sent self) / inject_Z attempts * 100)%Q in
  (∀ other : Heartbeat, get_stats other ≠ Raise ZeroDivisionError)
  ∧ ∃ rate : number,
      get_stats self =
        Ret {| hs_hostname := hostname self;
               hs_total_sent := total_sent self;
               hs_total_failed := total_failed self;
               hs_consecutive_failures := consecutive_failures self;
               hs_success_rate := rate |}
      ∧ if (attempts >? 0)%Z then
          ∃ (product : Q) (hundredths : Z),
            product
            = b64 (b64 (inject_Z (total_sent self) / inject_Z attempts) * 100)
            ∧ hundredths = round_half_even (product * 100)
            ∧ rate = PyFloat (b64 (Qmake hundredths 100))
            ∧ (exact - (1 # 10000000000000) <= product
               <= exact + (1 # 10000000000000))%Q
            ∧ (exact - (1 # 200) - (1 # 10000000000000)
               <= Qmake hundredths 100
               <= exact + (1 # 200) + (1 # 10000000000000))%Q
        else rate = PyInt 0.
Proof.
  intros Hsent Hfailed attempts exact.
  split; [apply get_stats_guarded |].
  eexists. split; [by apply get_stats_run |].
  fold attempts. destruct (Z.gtb_spec attempts 0) as [Hpos | Hle]; [| done].
  eexists _, _. split; [reflexivity |]. split; [reflexivity |].
  split; [reflexivity |].
  destruct (success_rate_run (total_sent self) attempts)
    as (_ & _ & _ & Hnear); [subst attempts; lia | done |].
  cbv zeta in Hnear. fold exact in Hnear. split; [done |].
  match goal with
  | |- context [round_half_even (?product * 100)] =>
      pose proof (hundredths_near product) as Hround
  end.
  lra.
Qed.

(** Two heartbeats sent, one failed. *)
Lemma get_stats_total_witness :
  let self := set_counters 1 2 1 a_heartbeat in
  ∃ rate : number,
    get_stats self =
      Ret {| hs_hostname := hostname self;
             hs_total_sent := total_sent self;
             hs_total_failed := total_failed self;
             hs_consecutive_failures := consecutive_failures self;
             hs_success_rate := rate |}
    ∧ rate = PyFloat (b64 (6667 # 100)).
Proof.
  intros self.
  destruct (get_stats_total self) as (_ & rate & Hrun & Hrate);
    [cbn; lia | cbn; lia |].
  exists rate. split; [exact Hrun |].
  cbn in Hrate. destruct Hrate as (product & hundredths & -> & -> & -> & _).
  vm_compute. reflexivity.
Defined.

(** 23 heartbeats sent and 137 failed: the exact percentage is 14.375,
    which any rounding to the nearest hundredth takes to 14.38. The
    float product is 14.374999999999998 and [get_stats] returns
    14.37. *)
Lemma success_rate_rounds_the_float :
  let self := set_counters 0 23 137 a_heartbeat in
  let exact := (inject_Z 23 / inject_Z (23 + 137) * 100)%Q in
  ∃ s,
    get_stats self = Ret s
    ∧ hs_success_rate s = PyFloat (b64 (1437 # 100))
    ∧ (exact == 14375 # 1000)%Q
    ∧ round_half_even (exact * 100) = 1438
    ∧ b64 (1437 # 100) ≠ b64 (1438 # 100)
    ∧ (b64 (b64 (inject_Z 23 / inject_Z (23 + 137)) * 100) < exact)%Q.
Proof.
  intros self exact. eexists.
  split; [vm_compute; reflexivity |].
  split; [vm_compute; reflexivity |].
  split; [reflexivity |]. split; [reflexivity |].
  split; [by vm_compute | reflexivity].
Qed.

(** Two heartbeats sent and one failed: 66.67, as the float it is. *)
Example get_stats_two_of_three :
  get_stats {| webhook_url := "http://n8n"; timeout := 10; hostname := "vps";
               consecutive_failures := 0; total_sent := 2; total_failed := 1 |}
  = Ret {| hs_hostname := "vps"; hs_total_sent := 2; hs_total_failed := 1;
           hs_consecutive_failures := 0;
           hs_success_rate :=
             PyFloat (4691484174324859 # 70368744177664) |}.
Proof. vm_compute. reflexivity. Qed.

(** The rounding of this file and the division and multiplication of
    the specification of IEEE 754 in the standard library agree on the
    product above. *)
Example b64_agrees_with_SpecFloat :
  let float_of (z : Z) := binary_normalize 53 1024 z 0 false in
  SFmul 53 1024 (SFdiv 53 1024 (float_of 23) (float_of 160)) (float_of 100)
  = S754_finite false 8092405580431359 (-49)
  ∧ b64 (b64 (23 / 160) * 100) = (8092405580431359 # 562949953421312)%Q
  ∧ (8092405580431359 # 562949953421312 == 8092405580431359 * pow2 (-49))%Q.
Proof. vm_compute. repeat split; reflexivity. Qed.

(** ** CooldownGate and Dispatcher: [Notifier] *)

Section Notifier_facts.
Context {E : Env}.

Lemma can_send_alert_run alert_type self w :
  _can_send_alert alert_type self w
  = (Ret (admitted self alert_type (clock (clock_reads w))), self, tick w).
Proof.
  unfold _can_send_alert, admitted, bind, time_time, gets, ret, tick.
  destruct (_last_alert_sent self !! alert_type);
    [destruct (Qle_bool _ _) |]; reflexivity.
Qed.

Lemma mark_alert_sent_run alert_type self w :
  _mark_alert_sent alert_type self w
  = (Ret tt,
     set_last_alert_sent
       (<[alert_type := clock (clock_reads w)]> (_last_alert_sent self)) self,
     tick w).
Proof. reflexivity. Qed.

(** What [send_message] does, case by case. *)
Lemma send_message_run message force alert_type self w :
  send_message message force alert_type self w =
    let gated := negb force && truthy alert_type in
    let key := default "" alert_type in
    if gated && negb (admitted self key (clock (clock_reads w)))
    then (Ret false, self, tick w)
    else
      let w1 := if gated then tick w else w in
      let w2 := posted (send_text_request self message) w1 in
      match http (length (outbox w)) with
      | Response status_code _ =>
          if (status_code =? 200)%Z || (status_code =? 201)%Z then
            if truthy alert_type then
              (Ret true,
               set_last_alert_sent
                 (<[key := clock (clock_reads w1)]> (_last_alert_sent self)) self,
               tick w2)
            else (Ret true, self, w2)
          else (Ret false, self, w2)
      | Fails _ => (Ret false, self, w2)
      end.
Proof.
  unfold send_message. unfold bind at 1.
  destruct (negb force && truthy alert_type) eqn:Hg; cbn [andb].
  - unfold bind at 1. rewrite can_send_alert_run. cbn [ret negb].
    destruct (admitted _ _ _); cbn [negb]; [| reflexivity].
    unfold try_except, bind, gets, requests_post, _mark_alert_sent,
      time_time, modify, ret.
    cbn. destruct (http _) as [code body | e]; [| reflexivity].
    cbn. destruct ((code =? 200)%Z || (code =? 201)%Z); [| reflexivity].
    destruct (truthy alert_type); reflexivity.
  - cbn [ret].
    unfold try_except, bind, gets, requests_post, _mark_alert_sent,
      time_time, modify, ret.
    cbn. destruct (http _) as [code body | e]; [| reflexivity].
    cbn. destruct ((code =? 200)%Z || (code =? 201)%Z); [| reflexivity].
    destruct (truthy alert_type); reflexivity.
Qed.

Lemma undelivered_status status_code body :
  undelivered (Response status_code body) ->
  (status_code =? 200)%Z || (status_code =? 201)%Z = false.
Proof.
  intros [H200 H201]. apply orb_false_intro; by apply Z.eqb_neq.
Qed.

(** A forced send with no alert type: one request, no other effect. *)
Lemma send_message_forced message self w :
  send_message message true None self w
  = (Ret (match http (length (outbox w)) with
          | Response status_code _ =>
              (status_code =? 200)%Z || (status_code =? 201)%Z
          | Fails _ => false
          end),
     self, posted (send_text_request self message) w).
Proof.
  rewrite send_message_run. cbn.
  destruct (http _) as [code body | e]; [| reflexivity].
  destruct ((code =? 200)%Z || (code =? 201)%Z); reflexivity.
Qed.

(** Once admitted, a type stays admitted as the clock moves on. *)
Lemma admitted_later self alert_type (now later : Q) :
  (now <= later)%Q ->
  admitted self alert_type now = true ->
  admitted self alert_type later = true.
Proof.
  unfold admitted. intros Hle.
  destruct (_last_alert_sent self !! alert_type) as [last |]; [| done].
  rewrite !Qle_bool_iff. lra.
Qed.

End Notifier_facts.

(** C3, as amended. The admission check [_can_send_alert] answers true
    for a type with no recorded time, and for a recorded time [last] it
    answers true iff [now - last >= cooldown_seconds]; the check, whether
    it admits or suppresses, changes no stored timestamp. The time is
    recorded by [_mark_alert_sent], which [send_message] reaches only
    after the channel accepted the message: a send that returns false
    leaves the state as it was, one that returns true records a clock
    reading for the type. *)
Theorem cooldown_gate_spec {E : Env} (self : Notifier) (w : World)
    (alert_type : string) :
  let now := clock (clock_reads w) in
  ∃ answer : bool,
    _can_send_alert alert_type self w = (Ret answer, self, tick w)
    ∧ (_last_alert_sent self !! alert_type = None → answer = true)
    ∧ (∀ last, _last_alert_sent self !! alert_type = Some last →
         answer = true ↔ (inject_Z (cooldown_seconds self) <= now - last)%Q)
    ∧ _mark_alert_sent alert_type self w
      = (Ret tt,
         set_last_alert_sent (<[alert_type := now]> (_last_alert_sent self)) self,
         tick w)
    ∧ (∀ message sent self' w',
         send_message message false (Some alert_type) self w = (Ret sent, self', w') →
         self' = self
         ∨ (sent = true
            ∧ ∃ k, self' = set_last_alert_sent
                             (<[alert_type := clock k]> (_last_alert_sent self)) self)).
Proof.
  intros now. exists (admitted self alert_type now).
  split; [apply can_send_alert_run |].
  split; [intros Hnone; unfold admitted; by rewrite Hnone |].
  split; [intros last Hlast; unfold admitted; rewrite Hlast;
          apply Qle_bool_iff |].
  split; [apply mark_alert_sent_run |].
  intros message sent self' w'. rewrite send_message_run. cbn zeta.
  destruct (_ && negb _); [intros [= <- <- <-]; by left |].
  destruct (http _) as [code body | e]; [| intros [= <- <- <-]; by left].
  destruct (_ || _); [| intros [= <- <- <-]; by left].
  destruct (truthy (Some alert_type)); intros [= <- <- <-]; [| by left].
  right. split; [reflexivity |]. eexists. reflexivity.
Qed.

(** On a first check at 1000 s the type is admitted and nothing is
    recorded: a second check is again a first one. *)
Lemma cooldown_gate_spec_witness :
  let E := steady_env 1000 200 failed_sampling [] in
  ∃ answer : bool,
    _can_send_alert "CPU_CRITICAL" (a_notifier ∅) empty_world
    = (Ret answer, a_notifier ∅, tick empty_world)
    ∧ answer = true
    ∧ (∀ message sent self' w',
         send_message message false (Some "CPU_CRITICAL") (a_notifier ∅) empty_world
         = (Ret sent, self', w') →
         self' = a_notifier ∅
         ∨ (sent = true
            ∧ ∃ k, self' = set_last_alert_sent
                             (<["CPU_CRITICAL" := clock k]> ∅) (a_notifier ∅))).
Proof.
  intros E.
  destruct (cooldown_gate_spec (a_notifier ∅) empty_world "CPU_CRITICAL")
    as (answer & Hrun & Hfirst & _ & _ & Hsend).
  exists answer. split; [exact Hrun |]. split; [apply Hfirst; reflexivity |].
  exact Hsend.
Defined.

(** C3, as stated, fails: the first admission check of a type answers
    true but records no time, and a send that the channel refuses (status
    500) records none either, so the next check is again a first one. *)
Lemma first_admission_not_recorded :
  let E := steady_env 1000 500 failed_sampling [] in
  (∃ w', _can_send_alert "CPU_CRITICAL" (a_notifier ∅) empty_world
         = (Ret true, a_notifier ∅, w')
         ∧ _last_alert_sent (a_notifier ∅) !! "CPU_CRITICAL" = None)
  ∧ (∃ self' w', send_message [Lit "CPU"] false (Some "CPU_CRITICAL")
                   (a_notifier ∅) empty_world = (Ret false, self', w')
                 ∧ length (outbox w') = 1%nat
                 ∧ _last_alert_sent self' !! "CPU_CRITICAL" = None).
Proof.
  intros E. split.
  - eexists. split; reflexivity.
  - eexists _, _. split; [reflexivity |]. split; reflexivity.
Qed.

Section Dispatch_facts.
Context {E : Env}.

Lemma send_alert_run (a : alert) self w :
  send_alert a self w
  = send_message (alert_text a (clock (clock_reads w))) false
      (Some (default "UNKNOWN" (a_type a))) self (tick w).
Proof. reflexivity. Qed.

Lemma send_alerts_cons sent_count (a : alert) rest self w :
  send_alerts_from sent_count (a :: rest) self w
  = match send_alert a self w with
    | (Ret true, self', w') =>
        send_alerts_from (sent_count + 1) rest self'
          {| clock_reads := clock_reads w'; outbox := outbox w';
             sleeps := sleeps w' ++ [1]; samples := samples w';
             docker_calls := docker_calls w'; calls := calls w' |}
    | (Ret false, self', w') => send_alerts_from sent_count rest self' w'
    | (Raise e, self', w') => (Raise e, self', w')
    end.
Proof.
  cbn [send_alerts_from]. unfold bind at 1.
  destruct (send_alert a self w) as [[[[] | e] self'] w']; reflexivity.
Qed.

End Dispatch_facts.

(** C1, as amended. When a single alert is admitted by the cooldown gate
    and the channel does not take the message (a status other than 200 and
    201, or an exception), [send_alerts] reports 0 delivered of 1, the
    request was made, and the notifier state is unchanged: no time is
    recorded for the type, which stays admitted at any later time. *)
Theorem failed_delivery_keeps_gate_open {E : Env} (a : alert)
    (self : Notifier) (w : World) :
  let alert_type := default "UNKNOWN" (a_type a) in
  admitted self alert_type (clock (S (clock_reads w))) = true →
  undelivered (http (length (outbox w))) →
  ∃ w',
    send_alerts [a] self w = (Ret 0, self, w')
    ∧ outbox w'
      = outbox w ++ [send_text_request self (alert_text a (clock (clock_reads w)))]
    ∧ ∀ later, (clock (S (clock_reads w)) <= later)%Q →
               admitted self alert_type later = true.
Proof.
  intros alert_type Hadmit Hfail.
  unfold send_alerts. rewrite send_alerts_cons, send_alert_run, send_message_run.
  cbn zeta. fold alert_type. cbn [negb andb default clock_reads tick outbox].
  change (id alert_type) with alert_type.
  assert (Hgate : truthy (Some alert_type)
                  && negb (admitted self alert_type (clock (S (clock_reads w))))
                  = false).
  { rewrite Hadmit. apply andb_false_r. }
  rewrite Hgate.
  assert (Hlater : ∀ later, (clock (S (clock_reads w)) <= later)%Q →
                            admitted self alert_type later = true).
  { intros later Hle. by eapply admitted_later. }
  destruct (http (length (outbox w))) as [code body | e].
  - rewrite (undelivered_status _ _ Hfail).
    eexists. split; [reflexivity |]. split; [| exact Hlater].
    destruct (truthy (Some alert_type)); reflexivity.
  - eexists. split; [reflexivity |]. split; [| exact Hlater].
    destruct (truthy (Some alert_type)); reflexivity.
Qed.

(** A first CPU alert against a channel that answers 500. *)
Lemma failed_delivery_keeps_gate_open_witness :
  let E := steady_env 1000 500 failed_sampling [] in
  ∃ w',
    send_alerts [cpu_alert] (a_notifier ∅) empty_world
    = (Ret 0, a_notifier ∅, w')
    ∧ outbox w'
      = [send_text_request (a_notifier ∅) (alert_text cpu_alert (clock 0%nat))]
    ∧ ∀ later, (clock 1%nat <= later)%Q →
               admitted (a_notifier ∅) "CPU_CRITICAL" later = true.
Proof.
  intros E.
  apply (failed_delivery_keeps_gate_open cpu_alert (a_notifier ∅) empty_world).
  - reflexivity.
  - cbn. split; discriminate.
Defined.

(** C1, as stated, fails: a first CPU alert is admitted, the channel
    answers 500, 0 of 1 is delivered, and the cooldown state holds no
    time for the type afterwards; detected again a minute later, the alert
    is admitted and sent again. *)
Lemma failed_delivery_not_recorded :
  let E := steady_env 1000 500 failed_sampling [] in
  admitted (a_notifier ∅) "CPU_CRITICAL" (clock 1%nat) = true
  ∧ undelivered (http 0%nat)
  ∧ ∃ self' w',
      send_alerts [cpu_alert] (a_notifier ∅) empty_world = (Ret 0, self', w')
      ∧ length (outbox w') = 1%nat
      ∧ _last_alert_sent self' !! "CPU_CRITICAL" = None
      ∧ admitted self' "CPU_CRITICAL" (clock 1%nat + 60) = true.
Proof.
  intros E. split; [reflexivity |]. split; [cbn; split; discriminate |].
  eexists _, _. split; [reflexivity |]. repeat split.
Qed.

Section Force_send_facts.
Context {E : Env}.

Lemma set_last_alert_sent_same self :
  set_last_alert_sent (_last_alert_sent self) self = self.
Proof. by destruct self. Qed.

Lemma send_text_request_set m self message :
  send_text_request (set_last_alert_sent m self) message
  = send_text_request self message.
Proof. reflexivity. Qed.

(** One forced send: one request to the channel, the notifier as it
    was, and the same outcome whatever the cooldown map holds. *)
Lemma run_force_send_run (f : force_send) self w :
  ∃ (sent : bool) (req : request) (w' : World),
    is_send_text req = true
    ∧ outbox w' = outbox w ++ [req]
    ∧ ∀ m, run_force_send f (set_last_alert_sent m self) w
           = (Ret sent, set_last_alert_sent m self, w').
Proof.
  destruct f as [report_text | hostname | shutdown_msg].
  - eexists _, _, _. split; [| split; [| intros m]].
    3: { unfold run_force_send, send_report, bind at 1, datetime_now, time_time.
         rewrite send_message_forced, send_text_request_set. reflexivity. }
    2: reflexivity. reflexivity.
  - eexists _, _, _. split; [| split; [| intros m]].
    3: { unfold run_force_send, send_startup_notification, bind at 1,
           datetime_now, time_time.
         rewrite send_message_forced, send_text_request_set. reflexivity. }
    2: reflexivity. reflexivity.
  - eexists _, _, _. split; [| split; [| intros m]].
    3: { unfold run_force_send. rewrite send_message_forced, send_text_request_set. reflexivity. }
    2: reflexivity. reflexivity.
Qed.

End Force_send_facts.

(** C7. Any sequence of forced sends (reports, startup and shutdown
    notices) leaves the notifier, and so the map from alert types to
    times, as it was; each of them issues its request, so none is
    suppressed; and the outcome is the same whatever the map holds, so the
    map is not consulted. *)
Theorem force_send_ignores_cooldown {E : Env} (fs : list force_send)
    (self : Notifier) (w : World) :
  ∃ (results : list bool) (requests : list request) (w' : World),
    run_force_sends fs self w = (Ret results, self, w')
    ∧ outbox w' = outbox w ++ requests
    ∧ length requests = length fs
    ∧ Forall (fun r => is_send_text r = true) requests
    ∧ ∀ last_alert_sent,
        run_force_sends fs (set_last_alert_sent last_alert_sent self) w
        = (Ret results, set_last_alert_sent last_alert_sent self, w').
Proof.
  enough (∃ (results : list bool) (requests : list request) (w' : World),
            outbox w' = outbox w ++ requests
            ∧ length requests = length fs
            ∧ Forall (fun r => is_send_text r = true) requests
            ∧ ∀ m, run_force_sends fs (set_last_alert_sent m self) w
                   = (Ret results, set_last_alert_sent m self, w'))
    as (results & requests & w' & Hout & Hlen & Hall & Hrun).
  { exists results, requests, w'. repeat split; try done.
    specialize (Hrun (_last_alert_sent self)).
    by rewrite set_last_alert_sent_same in Hrun. }
  revert w. induction fs as [| f rest IH]; intros w.
  - exists [], [], w. rewrite app_nil_r. repeat split; constructor.
  - destruct (run_force_send_run f self w)
      as (sent & req & w1 & Hreq & Hout1 & Hrun1).
    destruct (IH w1) as (results & requests & w' & Hout & Hlen & Hall & Hrun).
    exists (sent :: results), (req :: requests), w'.
    split; [rewrite Hout, Hout1, <- app_assoc; reflexivity |].
    split; [cbn; by rewrite Hlen |].
    split; [by constructor |].
    intros m. cbn [run_force_sends]. unfold bind at 1. rewrite Hrun1.
    unfold bind at 1. rewrite Hrun. reflexivity.
Qed.

(** A report and a shutdown notice sent while every alert type is in
    cooldown still go out. *)
Example force_send_during_cooldown :
  let E := steady_env 1000 200 failed_sampling [] in
  let self := a_notifier {[ "CPU_CRITICAL" := 999%Q ]} in
  ∃ w', run_force_sends [Report [Lit "ok"]; ShutdownNotice [Lit "bye"]]
          self empty_world
        = (Ret [true; true], self, w')
        ∧ length (outbox w') = 2%nat.
Proof. intros E self. eexists. split; reflexivity. Qed.

(** ** WatchEvaluator: [DockerMonitor.check_watched_containers] *)

Section Docker_facts.
Context {E : Env}.

Lemma is_connected_run self w :
  is_connected self w
  = if client self then (Ret (docker_ping (docker_calls w)), self, docker_called w)
    else (Ret false, self, w).
Proof. unfold is_connected, bind, gets. by destruct (client self). Qed.

Lemma check_watched_app cmap acc x :
  check_watched cmap acc x = acc ++ check_watched cmap [] x.
Proof.
  unfold check_watched.
  destruct (cmap !! x) as [c |]; [| done].
  destruct (negb _); destruct (ci_health c) as [h |];
    try destruct (String.eqb h _); cbn; rewrite ?app_nil_r, <- ?app_assoc; done.
Qed.

Lemma check_watched_foldl cmap acc names :
  foldl (check_watched cmap) acc names
  = acc ++ concat (check_watched cmap [] <$> names).
Proof.
  revert acc. induction names as [| x names IH]; intros acc; cbn.
  - by rewrite app_nil_r.
  - rewrite IH, check_watched_app, <- app_assoc. done.
Qed.

Lemma about_app type container l1 l2 :
  about type container (l1 ++ l2)
  = about type container l1 ++ about type container l2.
Proof. apply filter_app. Qed.

Lemma about_other cmap type name x :
  x ≠ name -> about type name (check_watched cmap [] x) = [].
Proof.
  intros Hne. unfold check_watched, about.
  destruct (cmap !! x) as [c |].
  - destruct (negb _); destruct (ci_health c) as [h |];
      try destruct (String.eqb h _); cbn;
      repeat case_decide; try done; naive_solver.
  - cbn. case_decide; [naive_solver | done].
Qed.

Lemma about_stopped cmap name c :
  cmap !! name = Some c -> ci_status c ≠ "running" ->
  length (about "CONTAINER_NOT_RUNNING" name (check_watched cmap [] name)) = 1%nat
  ∧ length (about "CONTAINER_UNHEALTHY" name (check_watched cmap [] name))
    = (if decide (ci_health c = Some "unhealthy") then 1 else 0)%nat
  ∧ about "CONTAINER_NOT_FOUND" name (check_watched cmap [] name) = [].
Proof.
  intros Hc Hst. unfold check_watched, about. rewrite Hc.
  assert (Hneg : negb (String.eqb (ci_status c) "running") = true).
  { apply negb_true_iff, String.eqb_neq. done. }
  rewrite Hneg.
  destruct (ci_health c) as [h |].
  - destruct (String.eqb_spec h "unhealthy") as [-> | Hh].
    + rewrite decide_True by done. cbn.
      repeat split; repeat case_decide; cbn; try done; naive_solver.
    + rewrite decide_False by congruence. cbn.
      repeat split; repeat case_decide; cbn; try done; naive_solver.
  - rewrite decide_False by done. cbn.
    repeat split; repeat case_decide; cbn; try done; naive_solver.
Qed.


Lemma occurrences_cons x y l :
  occurrences x (y :: l)
  = ((if decide (y = x) then 1 else 0) + occurrences x l)%nat.
Proof. unfold occurrences. rewrite filter_cons. by case_decide. Qed.

Lemma check_watched_containers_run self w w1 w2 all :
  watch_containers self ≠ [] ->
  is_connected self w = (Ret true, self, w1) ->
  get_all_containers self w1 = (Ret all, self, w2) ->
  check_watched_containers self w
  = (Ret (concat (check_watched (container_map_of all) [] <$> watch_containers self)),
     self, w2).
Proof.
  intros Hne Hconn Hall. unfold check_watched_containers, bind at 1, gets.
  destruct (watch_containers self) as [| x rest] eqn:Hw; [done |].
  unfold bind at 1. rewrite Hconn. cbn [negb].
  unfold bind at 1. rewrite Hall. unfold ret.
  by rewrite check_watched_foldl.
Qed.

End Docker_facts.

(** C5. With an empty watch list the check returns no alert and touches
    nothing, the Docker socket included. With a non-empty one and an
    unreachable client ([is_connected] answers false) it returns exactly
    one alert, DOCKER_CONNECTION_ERROR of severity critical, about no
    container. *)
Theorem docker_unreachable_single_alert {E : Env} (self : DockerMonitor) (w : World) :
  (watch_containers self = [] →
   check_watched_containers self w = (Ret [], self, w))
  ∧ (∀ w', watch_containers self ≠ [] →
           is_connected self w = (Ret false, self, w') →
           ∃ a, check_watched_containers self w = (Ret [a], self, w')
                ∧ a_type a = Some "DOCKER_CONNECTION_ERROR"
                ∧ a_severity a = Some "critical"
                ∧ a_container a = None).
Proof.
  split.
  - intros Hnil. unfold check_watched_containers, bind, gets. by rewrite Hnil.
  - intros w' Hne Hconn. unfold check_watched_containers, bind at 1, gets.
    destruct (watch_containers self) as [| x rest]; [done |].
    unfold bind at 1. rewrite Hconn. cbn [negb]. eexists. split; [reflexivity |].
    repeat split.
Qed.

(** Docker down, with and without a watch list. *)
Lemma docker_unreachable_single_alert_witness :
  let E := docker_down_env 1000 in
  (check_watched_containers (a_monitor []) empty_world
   = (Ret [], a_monitor [], empty_world))
  ∧ ∃ a, check_watched_containers (a_monitor ["db"; "api"]) empty_world
         = (Ret [a], a_monitor ["db"; "api"], docker_called empty_world)
         ∧ a_type a = Some "DOCKER_CONNECTION_ERROR"
         ∧ a_severity a = Some "critical"
         ∧ a_container a = None.
Proof.
  intros E. split.
  - apply (docker_unreachable_single_alert (a_monitor []) empty_world).
    reflexivity.
  - apply (docker_unreachable_single_alert (a_monitor ["db"; "api"]) empty_world);
      [discriminate | reflexivity].
Defined.

(** C2, as amended. For a watched name whose record in the snapshot has
    a status other than running, one pass gives one CONTAINER_NOT_RUNNING
    alert for the name per occurrence of the name in the watch list, no
    CONTAINER_NOT_FOUND, and, the health check being independent of the
    status, one CONTAINER_UNHEALTHY alert per occurrence when the record's
    health is unhealthy and none otherwise. *)
Theorem watched_stopped_container {E : Env} (self : DockerMonitor)
    (w w1 w2 : World) (all : list container_info) (name : string)
    (c : container_info) :
  name ∈ watch_containers self →
  is_connected self w = (Ret true, self, w1) →
  get_all_containers self w1 = (Ret all, self, w2) →
  container_map_of all !! name = Some c →
  ci_status c ≠ "running" →
  ∃ alerts,
    check_watched_containers self w = (Ret alerts, self, w2)
    ∧ length (about "CONTAINER_NOT_RUNNING" name alerts)
      = occurrences name (watch_containers self)
    ∧ length (about "CONTAINER_UNHEALTHY" name alerts)
      = (if decide (ci_health c = Some "unhealthy")
         then occurrences name (watch_containers self) else 0%nat)
    ∧ about "CONTAINER_NOT_FOUND" name alerts = [].
Proof.
  intros Hin Hconn Hall Hc Hst.
  eexists. split.
  { eapply check_watched_containers_run; [| done | done].
    intros Hnil. rewrite Hnil in Hin. by apply not_elem_of_nil in Hin. }
  clear Hin Hconn Hall.
  induction (watch_containers self) as [| x names IH].
  - cbn. by case_decide.
  - rewrite fmap_cons, occurrences_cons. cbn [concat]. rewrite !about_app, !length_app.
    destruct IH as (IH1 & IH2 & IH3). rewrite IH1, IH2, IH3.
    destruct (decide (x = name)) as [-> | Hne].
    + destruct (about_stopped _ _ _ Hc Hst) as (H1 & H2 & H3).
      rewrite H1, H2, H3. repeat split. by case_decide.
    + rewrite !about_other by done. repeat split.
Qed.

(** Watching api and db while db is down and unhealthy. *)
Lemma watched_stopped_container_witness :
  let E := steady_env 1000 200 failed_sampling [stopped_unhealthy_db] in
  ∃ alerts,
    check_watched_containers (a_monitor ["api"; "db"]) empty_world
    = (Ret alerts, a_monitor ["api"; "db"],
       docker_called (docker_called (docker_called empty_world)))
    ∧ length (about "CONTAINER_NOT_RUNNING" "db" alerts) = 1%nat
    ∧ length (about "CONTAINER_UNHEALTHY" "db" alerts) = 1%nat
    ∧ about "CONTAINER_NOT_FOUND" "db" alerts = [].
Proof.
  intros E.
  apply (watched_stopped_container (a_monitor ["api"; "db"]) empty_world
           (docker_called empty_world)
           (docker_called (docker_called (docker_called empty_world)))
           [container_info_of stopped_unhealthy_db] "db"
           (container_info_of stopped_unhealthy_db)).
  - set_solver.
  - reflexivity.
  - reflexivity.
  - vm_compute. reflexivity.
  - discriminate.
Defined.

(** C2, as stated, fails: a watched container that exited with a failing
    health check gets both a CONTAINER_NOT_RUNNING and a
    CONTAINER_UNHEALTHY alert in one pass; and a name listed twice gets
    two CONTAINER_NOT_RUNNING alerts. *)
Lemma stopped_container_reports_unhealthy :
  let E := steady_env 1000 200 failed_sampling [stopped_unhealthy_db] in
  (∃ alerts w',
     check_watched_containers (a_monitor ["db"]) empty_world
     = (Ret alerts, a_monitor ["db"], w')
     ∧ a_type <$> alerts
       = [Some "CONTAINER_NOT_RUNNING"; Some "CONTAINER_UNHEALTHY"]
     ∧ a_container <$> alerts = [Some "db"; Some "db"])
  ∧ (∃ alerts w',
       check_watched_containers (a_monitor ["db"; "db"]) empty_world
       = (Ret alerts, a_monitor ["db"; "db"], w')
       ∧ length (about "CONTAINER_NOT_RUNNING" "db" alerts) = 2%nat).
Proof.
  intros E. split.
  - eexists _, _. split; [vm_compute; reflexivity |]. split; reflexivity.
  - eexists _, _. split; [vm_compute; reflexivity |]. vm_compute. reflexivity.
Qed.

(** ** Dispatcher: [VigiloAgent._process_alerts] *)

Section Process_facts.
Context {E : Env}.

Lemma heartbeat_send_run st extra_data self w :
  heartbeat.send st extra_data self w
  = (Ret (acknowledged (http (length (outbox w)))),
     (if acknowledged (http (length (outbox w)))
      then set_counters 0 (total_sent self + 1) (total_failed self) self
      else set_counters (consecutive_failures self + 1) (total_sent self)
             (total_failed self + 1) self),
     posted (PostWebhook (webhook_url self)
               (payload_at self st extra_data (clock (clock_reads w))))
       (tick w)).
Proof.
  unfold heartbeat.send, try_except, bind, heartbeat._build_payload, time_time,
    gets, requests_post, modify, _handle_failure, ret, acknowledged.
  cbn. destruct (http _) as [code body | e]; [| reflexivity].
  cbn. destruct (_ || _); reflexivity.
Qed.

(** A send makes at most one request, to the channel, and returns. *)
Lemma send_message_requests message force alert_type self w :
  ∃ sent self' w' texts,
    send_message message force alert_type self w = (Ret sent, self', w')
    ∧ outbox w' = outbox w ++ texts
    ∧ Forall (fun r => is_send_text r = true) texts.
Proof.
  rewrite send_message_run. cbn zeta.
  destruct (_ && negb _).
  { eexists _, _, _, []. split; [reflexivity |]. rewrite app_nil_r. by split. }
  destruct (http _) as [code body | e];
    [destruct (_ || _); [destruct (truthy alert_type) |] |];
    (eexists _, _, _, [_]; split; [reflexivity |]; split;
     [destruct force, (truthy alert_type); reflexivity
     | by repeat constructor]).
Qed.

Lemma send_alerts_requests alerts : ∀ sent_count self w,
  ∃ sent self' w' texts,
    send_alerts_from sent_count alerts self w = (Ret sent, self', w')
    ∧ outbox w' = outbox w ++ texts
    ∧ Forall (fun r => is_send_text r = true) texts.
Proof.
  induction alerts as [| a rest IH]; intros sent_count self w.
  - eexists _, _, _, []. split; [reflexivity |]. rewrite app_nil_r. by split.
  - rewrite send_alerts_cons, send_alert_run.
    destruct (send_message_requests
                (alert_text a (clock (clock_reads w))) false
                (Some (default "UNKNOWN" (a_type a))) self (tick w))
      as (sent & self1 & w1 & texts1 & -> & Hout1 & Hall1).
    destruct sent.
    + edestruct IH as (sent' & self' & w' & texts & -> & Hout & Hall).
      eexists _, _, _, (texts1 ++ texts). split; [reflexivity |].
      split; [| by apply Forall_app].
      rewrite Hout. cbn [outbox]. rewrite Hout1. cbn [outbox tick].
      by rewrite app_assoc.
    + edestruct IH as (sent' & self' & w' & texts & -> & Hout & Hall).
      eexists _, _, _, (texts1 ++ texts). split; [reflexivity |].
      split; [| by apply Forall_app].
      rewrite Hout, Hout1. cbn [outbox tick]. by rewrite app_assoc.
Qed.

(** Alerts whose types are all in cooldown: nothing is sent, nothing
    changes but the clock readings. *)
Lemma send_alerts_suppressed alerts : ∀ sent_count self w,
  (∀ a, a ∈ alerts →
     truthy (Some (type_of a)) = true
     ∧ ∀ k, (k < clock_reads w + 2 * length alerts)%nat →
            admitted self (type_of a) (clock k) = false) →
  ∃ w', send_alerts_from sent_count alerts self w = (Ret sent_count, self, w')
        ∧ outbox w' = outbox w
        ∧ clock_reads w' = (clock_reads w + 2 * length alerts)%nat.
Proof.
  induction alerts as [| a rest IH]; intros sent_count self w Hcool.
  - exists w. split; [reflexivity |]. split; [reflexivity | cbn; lia].
  - rewrite send_alerts_cons, send_alert_run, send_message_run. cbn zeta.
    destruct (Hcool a) as [Ht Hk]; [set_solver |].
    unfold type_of in Ht, Hk. cbn [negb andb default]. 
    change (id (default "UNKNOWN" (a_type a))) with (default "UNKNOWN" (a_type a)).
    rewrite Ht. cbn [andb tick clock_reads].
    rewrite Hk by (cbn [length]; lia). cbn [negb].
    destruct (IH sent_count self (tick (tick w))) as (w' & -> & Hout & Hreads).
    { intros a' Hin. destruct (Hcool a') as [Ht' Hk']; [set_solver |].
      split; [done |]. intros k Hlt. apply Hk'. cbn in *. lia. }
    exists w'. split; [reflexivity |]. split; [done |].
    rewrite Hreads. cbn. lia.
Qed.
End Process_facts.

(** C8. Processing a non-empty batch of detected alerts returns, and what
    it posts is: messages to the channel, then exactly one event to the
    telemetry webhook, of type alerts_generated, carrying the number of
    detected alerts and the type of each of them in order, sent or not.
    When every alert of the batch is in cooldown, no message goes to the
    channel and the cooldown state is unchanged, yet the event lists their
    types all the same. *)
Theorem process_alerts_reports_detection {E : Env}
    (system_alerts docker_alerts : list alert) (self : VigiloAgent) (w : World) :
  let all_alerts := system_alerts ++ docker_alerts in
  all_alerts ≠ [] →
  ∃ self' w' texts payload,
    _process_alerts system_alerts docker_alerts self w = (Ret tt, self', w')
    ∧ outbox w'
      = outbox w ++ texts ++ [PostWebhook (webhook_url (heartbeat self)) payload]
    ∧ Forall (fun r => is_send_text r = true) texts
    ∧ hp_event_type payload = Some "alerts_generated"
    ∧ hp_event_data payload
      = Some (AlertsGenerated (Z.of_nat (length all_alerts))
                              (type_of <$> all_alerts))
    ∧ ((∀ a, a ∈ all_alerts →
          truthy (Some (type_of a)) = true
          ∧ ∀ k, (k < clock_reads w + 2 * length all_alerts)%nat →
                 admitted (notifier self) (type_of a) (clock k) = false) →
       texts = [] ∧ notifier self' = notifier self).
Proof.
  intros all_alerts Hne. unfold _process_alerts. fold all_alerts.
  destruct all_alerts as [| a rest] eqn:Hall; [done |]. rewrite <- Hall.
  unfold bind at 1, on_notifier, zoom, send_alerts.
  destruct (send_alerts_requests all_alerts 0 (notifier self) w)
    as (sent & n' & w1 & texts & Hrun & Hout & Htexts).
  rewrite Hrun.
  unfold bind at 1, on_heartbeat, zoom, send_alert_event, send_event.
  rewrite heartbeat_send_run. cbn [heartbeat set_notifier ret].
  eexists _, _, texts, _. split; [reflexivity |].
  split; [cbn [outbox posted tick]; rewrite Hout, <- app_assoc; reflexivity |].
  split; [done |]. split; [reflexivity |]. split; [reflexivity |].
  intros Hcool.
  destruct (send_alerts_suppressed all_alerts 0 (notifier self) w Hcool)
    as (w1' & Hrun' & Hout' & _).
  rewrite Hrun in Hrun'. injection Hrun' as _ -> ->.
  split; [| reflexivity].
  apply (app_inv_head (outbox w)). rewrite app_nil_r. congruence.
Qed.

(** A CPU alert detected again 60 s after it was last sent, with a
    cooldown of 1800 s. *)
Lemma process_alerts_reports_detection_witness :
  let E := steady_env 1000 200 failed_sampling [] in
  let self := an_agent {[ "CPU_CRITICAL" := 940%Q ]} 900 in
  ∃ self' w' texts payload,
    _process_alerts [cpu_alert] [] self empty_world = (Ret tt, self', w')
    ∧ outbox w' = texts ++ [PostWebhook "http://n8n:5678/webhook/vigilo" payload]
    ∧ Forall (fun r => is_send_text r = true) texts
    ∧ hp_event_type payload = Some "alerts_generated"
    ∧ hp_event_data payload = Some (AlertsGenerated 1 ["CPU_CRITICAL"])
    ∧ texts = [] ∧ notifier self' = notifier self.
Proof.
  intros E self.
  destruct (process_alerts_reports_detection [cpu_alert] [] self empty_world)
    as (self' & w' & texts & payload & Hrun & Hout & Htexts & Hty & Hdata & Hcool);
    [discriminate |].
  exists self', w', texts, payload.
  split; [exact Hrun |]. split; [exact Hout |]. split; [exact Htexts |].
  split; [exact Hty |]. split; [exact Hdata |].
  apply Hcool. intros a Hin. apply list_elem_of_singleton in Hin. subst a.
  split; [reflexivity |]. intros k Hk. cbn in Hk.
  destruct k as [| [| k]]; [reflexivity | reflexivity | lia].
Defined.

(** ** AgentLoop: [VigiloAgent._perform_check] *)

Section Keeps.
Context {E : Env} {St B : Type} (f : St -> B).

Lemma keeps_ret {A} (a : A) : keeps f (ret a).
Proof. by intros s w. Qed.

Lemma keeps_raise {A} e : keeps f (raise (A := A) e).
Proof. by intros s w. Qed.

Lemma keeps_gets {A} (g : St -> A) : keeps f (gets g).
Proof. by intros s w. Qed.

Lemma keeps_time_time : keeps f time_time.
Proof. by intros s w. Qed.

Lemma keeps_time_sleep secs : keeps f (time_sleep secs).
Proof. by intros s w. Qed.

Lemma keeps_modify (g : St -> St) : (∀ s, f (g s) = f s) -> keeps f (modify g).
Proof. intros Hg s w. apply Hg. Qed.

Lemma keeps_bind {A A'} (c : M St A) (k : A -> M St A') :
  keeps f c -> (∀ a, keeps f (k a)) -> keeps f (bind c k).
Proof.
  intros Hc Hk s w. unfold bind. specialize (Hc s w).
  destruct (c s w) as [[[a | e] s'] w']; cbn in *; [| done].
  by rewrite Hk.
Qed.

Lemma keeps_try_except {A} (c : M St A) (handler : exn -> M St A) :
  keeps f c -> (∀ e, keeps f (handler e)) -> keeps f (try_except c handler).
Proof.
  intros Hc Hh s w. unfold try_except. specialize (Hc s w).
  destruct (c s w) as [[[a | e] s'] w']; cbn in *; [done |].
  by rewrite Hh.
Qed.

Lemma keeps_call {A} (c : M St A) : keeps f c -> keeps f (call c).
Proof.
  intros Hc s w. unfold call. destruct (fault _); [done |]. apply Hc.
Qed.

Lemma keeps_zoom {T A} (get : St -> T) (set : T -> St -> St) (c : M T A) :
  (∀ t s, f (set t s) = f s) -> keeps f (zoom get set c).
Proof.
  intros Hset s w. unfold zoom.
  destruct (c (get s) w) as [[r t'] w']. apply Hset.
Qed.

Lemma keeps_of_outcome {A} (r : outcome A) : keeps f (of_outcome r).
Proof. destruct r; [apply keeps_ret | apply keeps_raise]. Qed.

End Keeps.

Ltac keeps_step :=
  first
    [ apply keeps_ret | apply keeps_raise | apply keeps_gets
    | apply keeps_time_time | apply keeps_time_sleep | apply keeps_of_outcome
    | apply keeps_zoom; reflexivity
    | apply keeps_modify; reflexivity
    | apply keeps_call
    | apply keeps_try_except; [| intros ?]
    | apply keeps_bind; [| intros ?] ].

Section Cycle_facts.
Context {E : Env} (config : Config).

Lemma process_alerts_keeps_count system_alerts docker_alerts :
  keeps check_count (_process_alerts system_alerts docker_alerts).
Proof.
  unfold _process_alerts. destruct (_ ++ _); repeat keeps_step.
Qed.

Lemma generate_full_report_keeps_count system_stats :
  keeps check_count (_generate_full_report system_stats).
Proof. unfold _generate_full_report. repeat keeps_step. Qed.

Lemma perform_check_report_keeps_count system_stats :
  keeps check_count (_perform_check_report config system_stats).
Proof.
  unfold _perform_check_report, _should_send_report.
  apply keeps_bind; [repeat keeps_step |]. intros [|]; [| keeps_step].
  apply keeps_bind; [apply keeps_call, generate_full_report_keeps_count |].
  intros report. apply keeps_bind; [repeat keeps_step |].
  intros [|]; repeat keeps_step.
Qed.

(** A check returns, whatever is raised inside, and counts once. *)
Lemma perform_check_counts self w :
  ∃ self' w',
    _perform_check config self w = (Ret tt, self', w')
    ∧ check_count self' = check_count self + 1.
Proof.
  unfold _perform_check.
  match goal with
  | |- context [try_except (bind (modify ?g) ?k) ?h] =>
      set (rest := k tt);
      assert (Hrest : keeps check_count rest);
      [| change (bind (modify g) k) with (bind (modify g) (fun _ => rest)) ]
  end.
  { subst rest. cbv beta.
    apply keeps_bind; [repeat keeps_step |]. intros system_stats.
    apply keeps_bind; [repeat keeps_step |]. intros system_alerts.
    apply keeps_bind; [repeat keeps_step |]. intros docker_alerts.
    apply keeps_bind.
    { destruct system_alerts, docker_alerts;
        try apply keeps_ret; apply keeps_call, process_alerts_keeps_count. }
    intros _. apply keeps_bind; [repeat keeps_step |]. intros _.
    apply perform_check_report_keeps_count. }
  unfold try_except, bind at 1, modify.
  specialize (Hrest (set_check_count (check_count self + 1) self) w).
  destruct (rest _ w) as [[[[] | e] self'] w']; cbn in Hrest;
    eexists _, _; (split; [reflexivity | exact Hrest]).
Qed.

End Cycle_facts.

(** C9. Any number of cycles returns, and [check_count] grows by exactly
    one per cycle: the count is taken first in the guarded body, nothing
    after it touches the count, and whatever a later step raises is caught
    by the check itself. *)
Theorem check_count_counts_cycles {E : Env} (config : Config) (n : nat) (self : VigiloAgent) (w : World) :
  ∃ self' w',
    run_cycles config n self w = (Ret tt, self', w')
    ∧ check_count self' = check_count self + Z.of_nat n.
Proof.
  revert self w. induction n as [| n IH]; intros self w.
  - exists self, w. split; [reflexivity | cbn; lia].
  - cbn [run_cycles]. unfold bind at 1, try_except, bind at 1.
    destruct (perform_check_counts config self w) as (self1 & w1 & -> & Hcount).
    cbn [time_sleep].
    edestruct IH as (self' & w' & -> & Hcount').
    eexists _, _. split; [reflexivity |].
    rewrite Hcount'. cbn in *. lia.
Qed.

(** A cycle in which the container check raises: the exception is caught,
    the heartbeat of that cycle is lost, the check is counted. *)
Example faulty_cycle_is_counted :
  let E := faulty_env 1000 200 in
  ∃ self' w',
    _perform_check a_config (an_agent ∅ 1000) empty_world = (Ret tt, self', w')
    ∧ check_count self' = 1
    ∧ outbox w' = []
    ∧ calls w' = 3%nat.
Proof.
  intros E. eexists _, _.
  split; [vm_compute; reflexivity |]. repeat split; reflexivity.
Qed.

(** Three cycles with the watched containers missing: the first is cut
    short by the exception, the second sends one alert (the second alert
    has the same type and is in cooldown), the third sends none; the last
    two each post the aggregate event and the heartbeat. *)
Example three_cycles :
  let E := faulty_env 1000 200 in
  ∃ self' w',
    run_cycles a_config 3 (an_agent ∅ 1000) empty_world = (Ret tt, self', w')
    ∧ check_count self' = 3
    ∧ length (outbox w') = 5%nat
    ∧ sleeps w' = [60; 1; 60; 60].
Proof.
  intros E. eexists _, _.
  split; [vm_compute; reflexivity |]. repeat split; reflexivity.
Qed.

(** ** ReportScheduler: step 6 of [VigiloAgent._perform_check] *)

Section Report_facts.
Context {E : Env} (config : Config).

Lemma undelivered_delivered r : undelivered r ↔ delivered r = false.
Proof.
  destruct r as [code body | e]; cbn; [| done].
  rewrite orb_false_iff, !Z.eqb_neq. done.
Qed.

Lemma should_send_report_run self w :
  _should_send_report config self w
  = (Ret (Qle_bool (inject_Z (get_report_interval config))
                   (clock (clock_reads w) - last_report_time self)),
     self, tick w).
Proof. reflexivity. Qed.

Lemma send_report_run report_text self w :
  ∃ req,
    send_report report_text self w
    = (Ret (delivered (http (length (outbox w)))), self, posted req (tick w))
    ∧ is_send_text req = true.
Proof.
  eexists. unfold send_report, bind at 1, datetime_now, time_time.
  rewrite send_message_forced. cbn [outbox]. split; reflexivity.
Qed.

(** The Docker summary only talks to the Docker socket. *)
Lemma get_docker_summary_run self w :
  ∃ summary w',
    get_docker_summary self w = (Ret summary, self, w')
    ∧ outbox w' = outbox w ∧ clock_reads w' = clock_reads w.
Proof.
  unfold get_docker_summary, bind at 1. rewrite is_connected_run.
  destruct (client self) eqn:Hclient; cbn [negb ret].
  2: { eexists _, _. repeat split. }
  destruct (docker_ping (docker_calls w)); cbn [negb].
  2: { eexists _, _. repeat split. }
  unfold bind at 1, get_all_containers, bind at 1. rewrite is_connected_run, Hclient.
  destruct (docker_ping _); cbn [negb ret].
  - unfold bind at 1, containers_list.
    destruct (docker_list _) as [containers |]; cbn [ret];
      unfold bind, gets; destruct (map _ (watch_containers self));
      eexists _, _; repeat split.
  - unfold bind, gets; destruct (map _ (watch_containers self));
      eexists _, _; repeat split.
Qed.

(** The report is put together without a request and without a look
    at the clock, and leaves the agent as it is; it raises only where
    [get_stats] does. *)
Lemma generate_full_report_run system_stats self w :
  ∃ r w',
    _generate_full_report system_stats self w = (r, self, w')
    ∧ outbox w' = outbox w ∧ clock_reads w' = clock_reads w.
Proof.
  unfold _generate_full_report, bind at 1, on_system_monitor, zoom, gets.
  unfold bind at 1, on_docker_monitor, zoom.
  destruct (get_docker_summary_run (docker_monitor self) w)
    as (summary & w' & Hrun & Hout & Hreads).
  cbn [docker_monitor set_system_monitor]. rewrite Hrun.
  unfold bind at 1, bind at 1, gets.
  cbn [id heartbeat set_docker_monitor set_system_monitor].
  destruct (get_stats (heartbeat self)) as [heartbeat_stats | e].
  - cbn [of_outcome ret]. eexists _, w'. split; [| done].
    unfold bind, gets, ret. by destruct self.
  - cbn [of_outcome raise]. eexists _, w'. split; [| done].
    unfold raise. by destruct self.
Qed.
End Report_facts.

(** C6. The periodic-report step changes the agent only by setting
    [last_report_time] to the clock reading taken after the report was
    due, was posted and was delivered (status 200 or 201). When the
    channel does not take the report, the agent is as it was before the
    step; if the report was due then, [_should_send_report] answers true
    at every later check whose clock reading is not earlier. *)
Theorem report_time_advances_on_delivery_only {E : Env} (config : Config)
    (system_stats : stats) (self : VigiloAgent) (w : World) :
  ∃ r self' w',
    _perform_check_report config system_stats self w = (r, self', w')
    ∧ (self' = self
       ∨ (due config self (clock (clock_reads w))
          ∧ delivered (http (length (outbox w))) = true
          ∧ (∃ req, outbox w' = outbox w ++ [req] ∧ is_send_text req = true)
          ∧ self' = set_last_report_time (clock (pred (clock_reads w'))) self))
    ∧ (undelivered (http (length (outbox w))) →
       self' = self
       ∧ (due config self (clock (clock_reads w)) →
          ∀ w2, (clock (clock_reads w) <= clock (clock_reads w2))%Q →
                _should_send_report config self' w2 = (Ret true, self', tick w2))).
Proof.
  assert (Hstill : ∀ w2,
            due config self (clock (clock_reads w)) →
            (clock (clock_reads w) <= clock (clock_reads w2))%Q →
            _should_send_report config self w2 = (Ret true, self, tick w2)).
  { intros w2 Hdue Hle. rewrite should_send_report_run.
    replace (Qle_bool _ _) with true; [done |].
    symmetry. apply Qle_bool_iff. unfold due in Hdue. lra. }
  assert (Hsame : ∀ (r : outcome unit) w',
            ∃ r0 self' w'0,
              (r, self, w') = (r0, self', w'0)
              ∧ (self' = self
                 ∨ (due config self (clock (clock_reads w))
                    ∧ delivered (http (length (outbox w))) = true
                    ∧ (∃ req, outbox w'0 = outbox w ++ [req]
                              ∧ is_send_text req = true)
                    ∧ self' = set_last_report_time
                                (clock (pred (clock_reads w'0))) self))
              ∧ (undelivered (http (length (outbox w))) →
                 self' = self
                 ∧ (due config self (clock (clock_reads w)) →
                    ∀ w2, (clock (clock_reads w) <= clock (clock_reads w2))%Q →
                          _should_send_report config self' w2
                          = (Ret true, self', tick w2)))).
  { intros r w'. exists r, self, w'. split; [done |]. split; [by left |].
    intros _. split; [done |]. intros Hdue w2 Hle. by apply Hstill. }
  unfold _perform_check_report, bind at 1, call at 1.
  destruct (fault (calls w)); [apply Hsame |].
  rewrite should_send_report_run.
  destruct (Qle_bool _ _) eqn:Hdue; [| apply Hsame].
  apply Qle_bool_iff in Hdue.
  unfold bind at 1, call at 1. cbn [calls tick].
  destruct (fault (S (calls w))); [apply Hsame |].
  match goal with
  | |- context [_generate_full_report system_stats self ?w0] =>
      destruct (generate_full_report_run system_stats self w0)
        as ([report | e] & w1 & -> & Hout1 & Hreads1)
  end; [| apply Hsame].
  simpl in Hout1, Hreads1.
  unfold bind at 1, call at 1.
  destruct (fault (calls w1)); [apply Hsame |].
  unfold on_notifier, zoom.
  match goal with
  | |- context [send_report report ?n ?w0] =>
      destruct (send_report_run report n w0) as (req & -> & Hreq)
  end.
  cbn [outbox]. rewrite Hout1.
  assert (Heta : set_notifier (notifier self) self = self) by by destruct self.
  rewrite Heta.
  destruct (delivered (http (length (outbox w)))) eqn:Hdel.
  - eexists _, _, _. split; [reflexivity |]. split.
    + right. split; [exact Hdue |]. split; [reflexivity |].
      split; [eexists; split; [| exact Hreq]; reflexivity |].
      cbn. by rewrite Hreads1.
    + intros Hun. apply undelivered_delivered in Hun. congruence.
  - apply Hsame.
Qed.

(** The report is due and the channel answers 500. *)
Lemma report_time_advances_on_delivery_only_witness :
  let E := steady_env 20000 500 failed_sampling [] in
  let self := an_agent ∅ 0 in
  ∃ r self' w',
    _perform_check_report a_config failed_sampling self empty_world = (r, self', w')
    ∧ self' = self
    ∧ ∀ w2, (clock 0%nat <= clock (clock_reads w2))%Q →
            _should_send_report a_config self' w2 = (Ret true, self', tick w2).
Proof.
  intros E self.
  destruct (report_time_advances_on_delivery_only a_config failed_sampling self
              empty_world) as (r & self' & w' & Hrun & _ & Hfail).
  exists r, self', w'. split; [exact Hrun |].
  destruct Hfail as [Hsame Hdue]; [cbn; split; discriminate |].
  split; [exact Hsame |]. apply Hdue. apply Qle_bool_iff. reflexivity.
Defined.

Example report_sent_then_not_due :
  let E := steady_env 20000 200 failed_sampling [] in
  let self := an_agent ∅ 0 in
  ∃ self' w',
    _perform_check_report a_config failed_sampling self empty_world
    = (Ret tt, self', w')
    ∧ last_report_time self' = 20002%Q
    ∧ length (outbox w') = 1%nat
    ∧ _should_send_report a_config self' w' = (Ret false, self', tick w').
Proof.
  intros E self. eexists _, _.
  split; [vm_compute; reflexivity |]. repeat split; reflexivity.
Qed.

(** * Further properties of the code *)

(** ** Dispatcher: deliveries and cooldown of [Notifier.send_alerts] *)

Section Accounting.
Context {E : Env}.

Lemma deliveries_0 first : deliveries first 0 = 0%nat.
Proof. reflexivity. Qed.

Lemma deliveries_S first count :
  deliveries first (S count)
  = ((if delivered (http first) then 1 else 0) + deliveries (S first) count)%nat.
Proof.
  unfold deliveries. cbn [seq]. rewrite filter_cons.
  destruct (delivered (http first)); by case_decide.
Qed.

(** What [send_alert] does, in full. *)
Lemma send_alert_eq (a : alert) self w :
  send_alert a self w =
    let gated := truthy (Some (type_of a)) in
    if gated && negb (admitted self (type_of a) (clock (S (clock_reads w))))
    then (Ret false, self, tick (tick w))
    else
      let w1 := if gated then tick (tick w) else tick w in
      let w2 := posted (send_text_request self
                          (alert_text a (clock (clock_reads w)))) w1 in
      let ok := delivered (http (length (outbox w))) in
      (Ret ok,
       (if ok && gated
        then set_last_alert_sent
               (<[type_of a := clock (clock_reads w1)]> (_last_alert_sent self))
               self
        else self),
       if ok && gated then tick w2 else w2).
Proof.
  rewrite send_alert_run, send_message_run. cbn zeta.
  fold (type_of a). cbn [negb andb default clock_reads tick outbox].
  change (id (type_of a)) with (type_of a).
  destruct (truthy (Some (type_of a))); cbn [andb];
    [destruct (admitted self (type_of a) _); cbn [negb]; [| reflexivity] |];
    unfold delivered; (destruct (http _) as [code body | e]; [| reflexivity]);
    destruct (_ || _); reflexivity.
Qed.

(** What one alert does to the world: at most one request. *)
Lemma send_alert_cases (a : alert) self w :
  (send_alert a self w = (Ret false, self, tick (tick w))
   ∧ truthy (Some (type_of a)) = true
   ∧ admitted self (type_of a) (clock (S (clock_reads w))) = false)
  ∨ ∃ req self' w',
      send_alert a self w = (Ret (delivered (http (length (outbox w)))), self', w')
      ∧ outbox w' = outbox w ++ [req]
      ∧ is_send_text req = true
      ∧ sleeps w' = sleeps w
      ∧ (truthy (Some (type_of a)) = true →
         admitted self (type_of a) (clock (S (clock_reads w))) = true)
      ∧ (self' = self
         ∨ (truthy (Some (type_of a)) = true
            ∧ self' = set_last_alert_sent
                        (<[type_of a := clock (S (S (clock_reads w)))]>
                           (_last_alert_sent self)) self
            ∧ clock_reads w' = S (S (S (clock_reads w)))))
      ∧ (clock_reads w ≤ clock_reads w')%nat.
Proof.
  rewrite send_alert_eq. cbn zeta.
  destruct (truthy (Some (type_of a))) eqn:Ht; cbn [andb].
  - destruct (admitted self (type_of a) _) eqn:Had; cbn [negb]; [| by left].
    right. destruct (delivered _); cbn [andb];
      eexists _, _, _; (split; [reflexivity |]); (split; [reflexivity |]);
      (split; [reflexivity |]); (split; [reflexivity |]); (split; [done |]);
      (split; [| cbn; lia]); [right | left]; done.
  - right. rewrite andb_false_r.
    eexists _, _, _; (split; [reflexivity |]); (split; [reflexivity |]);
      (split; [reflexivity |]); (split; [reflexivity |]); (split; [done |]);
      (split; [| cbn; lia]); by left.
Qed.
End Accounting.

Section Accounting_loop.
Context {E : Env}.

Lemma send_alerts_from_accounting alerts : ∀ sent_count self w,
  ∃ reqs self' w',
    send_alerts_from sent_count alerts self w
    = (Ret (sent_count + Z.of_nat (deliveries (length (outbox w)) (length reqs))),
       self', w')
    ∧ outbox w' = outbox w ++ reqs
    ∧ (length reqs ≤ length alerts)%nat
    ∧ Forall (fun r => is_send_text r = true) reqs
    ∧ sleeps w'
      = sleeps w ++ replicate (deliveries (length (outbox w)) (length reqs)) 1.
Proof.
  induction alerts as [| a rest IH]; intros sent_count self w.
  - exists [], self, w. cbn. rewrite Z.add_0_r, !app_nil_r. repeat split; constructor.
  - rewrite send_alerts_cons.
    destruct (send_alert_cases a self w)
      as [(-> & _ & _) | (req & self1 & w1 & -> & Hout & Hreq & Hsl & _ & _ & _)].
    + destruct (IH sent_count self (tick (tick w)))
        as (reqs & self' & w' & -> & Hout' & Hlen & Hall & Hsl').
      exists reqs, self', w'. cbn [outbox tick sleeps] in *.
      repeat split; try done. cbn [length]. lia.
    + destruct (delivered (http (length (outbox w)))) eqn:Hdel.
      * match goal with
        | |- context [send_alerts_from ?k rest self1 ?w0] =>
            destruct (IH k self1 w0)
              as (reqs & self' & w' & -> & Hout' & Hlen & Hall & Hsl')
        end.
        cbn [outbox sleeps] in *. rewrite Hout in *. rewrite Hsl in *.
        rewrite length_app in *. cbn [length] in *.
        replace (length (outbox w) + 1)%nat with (S (length (outbox w))) in * by lia.
        exists (req :: reqs), self', w'. cbn [length].
        rewrite deliveries_S, Hdel.
        split; [f_equal; f_equal; f_equal; lia |].
        split; [rewrite Hout', <- app_assoc; done |].
        split; [lia |]. split; [by constructor |].
        rewrite Hsl', <- app_assoc. done.
      * destruct (IH sent_count self1 w1)
          as (reqs & self' & w' & -> & Hout' & Hlen & Hall & Hsl').
        rewrite Hout in *. rewrite Hsl in *.
        rewrite length_app in *. cbn [length] in *.
        replace (length (outbox w) + 1)%nat with (S (length (outbox w))) in * by lia.
        exists (req :: reqs), self', w'. cbn [length].
        rewrite deliveries_S, Hdel.
        split; [done |].
        split; [rewrite Hout', <- app_assoc; done |].
        split; [lia |]. split; [by constructor | done].
Qed.
End Accounting_loop.

(** X1. [send_alerts] always returns, and its result is the number of
    its requests that the channel answered with 200 or 201. It makes at
    most one request per alert, all of them to the channel, and as
    many pauses as deliveries, of one second each. *)
Theorem send_alerts_counts_deliveries {E : Env} (alerts : list alert)
    (self : Notifier) (w : World) :
  ∃ reqs self' w',
    let delivered_now := deliveries (length (outbox w)) (length reqs) in
    send_alerts alerts self w = (Ret (Z.of_nat delivered_now), self', w')
    ∧ outbox w' = outbox w ++ reqs
    ∧ (length reqs ≤ length alerts)%nat
    ∧ Forall (fun r => is_send_text r = true) reqs
    ∧ sleeps w' = sleeps w ++ replicate delivered_now 1.
Proof.
  destruct (send_alerts_from_accounting alerts 0 self w)
    as (reqs & self' & w' & Hrun & Hrest).
  exists reqs, self', w'. cbn zeta. split; [| exact Hrest].
  unfold send_alerts. rewrite Hrun. by rewrite Z.add_0_l.
Qed.

Section Cooldown.
Context {E : Env}.

Lemma int_nonneg (q : Q) : (0 <= q)%Q → 0 <= int q.
Proof.
  intros Hq. unfold int. apply Z.quot_pos; [| lia].
  unfold Qle in Hq. cbn in Hq. lia.
Qed.

Lemma int_below (q : Q) : (0 <= q)%Q → (inject_Z (int q) <= q)%Q.
Proof.
  intros Hq. unfold int, Qle, inject_Z. cbn.
  destruct q as [n d]. cbn in *. unfold Qle in Hq. cbn in Hq.
  rewrite Z.mul_1_r in Hq |- *.
  rewrite Z.mul_comm. apply Z.mul_quot_le; lia.
Qed.

Lemma int_above (q : Q) : (0 <= q)%Q → (q < inject_Z (int q) + 1)%Q.
Proof.
  intros Hq. destruct q as [n d]. unfold int, Qle in *. cbn in *.
  rewrite Z.mul_1_r in Hq. rewrite Z.quot_div_nonneg by lia.
  rewrite <- (inject_Z_plus _ 1). unfold Qlt, inject_Z. cbn.
  rewrite Z.mul_1_r. pose proof (Z.mul_succ_div_gt n (Zpos d) ltac:(lia)).
  unfold Z.succ in *. lia.
Qed.
End Cooldown.

(** X2. A delivered alert records the time read after the channel
    answered, under its type. From then on an alert of the same type is
    suppressed, with no request and no change of state, for as long as
    less than the cooldown has passed since that time, and is sent
    again once the cooldown has passed. *)
Theorem delivered_alert_starts_cooldown {E : Env} (a b : alert)
    (self self' : Notifier) (w w' w2 : World) :
  send_alert a self w = (Ret true, self', w') →
  a_type a ≠ Some "" →
  type_of b = type_of a →
  let recorded := clock (S (S (clock_reads w))) in
  let now := clock (S (clock_reads w2)) in
  _last_alert_sent self' !! type_of a = Some recorded
  ∧ ((now - recorded < inject_Z (cooldown_seconds self))%Q →
     send_alert b self' w2 = (Ret false, self', tick (tick w2)))
  ∧ ((inject_Z (cooldown_seconds self) <= now - recorded)%Q →
     ∃ req r self'' w2',
       send_alert b self' w2 = (Ret r, self'', w2')
       ∧ outbox w2' = outbox w2 ++ [req]).
Proof.
  intros Hrun Hty Hsame recorded now. subst recorded now.
  assert (Htruthy : truthy (Some (type_of a)) = true).
  { unfold type_of, truthy. destruct (a_type a) as [s |]; [| done].
    cbn. apply negb_true_iff, String.eqb_neq. congruence. }
  rewrite send_alert_eq in Hrun. cbn zeta in Hrun. rewrite Htruthy in Hrun.
  cbn [andb] in Hrun. destruct (admitted self _ _); cbn [negb] in Hrun;
    [| discriminate].
  injection Hrun as Hdel <- <-. rewrite Hdel. cbn [andb clock_reads tick].
  assert (Hrec : _last_alert_sent
                   (set_last_alert_sent
                      (<[type_of a := clock (S (S (clock_reads w)))]>
                         (_last_alert_sent self)) self)
                 !! type_of a = Some (clock (S (S (clock_reads w))))).
  { cbn. apply lookup_insert_eq. }
  split; [exact Hrec |].
  rewrite !send_alert_eq. cbn zeta. rewrite Hsame, Htruthy. cbn [andb].
  unfold admitted. rewrite Hrec. cbn [cooldown_seconds set_last_alert_sent].
  split.
  - intros Hin. replace (Qle_bool _ _) with false; [reflexivity |].
    symmetry. apply not_true_iff_false. rewrite Qle_bool_iff. lra.
  - intros Hout. replace (Qle_bool _ _) with true
      by (symmetry; by apply Qle_bool_iff).
    cbn [negb]. eexists _, _, _, _. split; [reflexivity |].
    destruct (delivered (http (length (outbox w2)))); reflexivity.
Qed.

Section Settled.
Context {E : Env}.

Lemma send_alert_settled (a : alert) self w r self' w' :
  monotone_clock → settled self w →
  send_alert a self w = (r, self', w') →
  settled self' w'
  ∧ (clock_reads w ≤ clock_reads w')%nat
  ∧ (∀ alert_type t, _last_alert_sent self !! alert_type = Some t →
       ∃ t', _last_alert_sent self' !! alert_type = Some t' ∧ (t <= t')%Q)
  ∧ (∀ alert_type, is_Some (_last_alert_sent self' !! alert_type) →
       is_Some (_last_alert_sent self !! alert_type) ∨ alert_type = type_of a).
Proof.
  intros Hmono Hsettled Hrun.
  assert (Hkeep : ∀ w0, (clock_reads w ≤ clock_reads w0)%nat → settled self w0).
  { intros w0 Hle ty t Ht. specialize (Hsettled ty t Ht).
    specialize (Hmono _ _ Hle). lra. }
  destruct (send_alert_cases a self w)
    as [(Hrun' & _) | (req & self1 & w1 & Hrun' & _ & _ & _ & _ & Hstate & Hreads)];
    rewrite Hrun in Hrun'; injection Hrun' as -> -> ->.
  - split; [apply Hkeep; cbn; lia |]. split; [cbn; lia |].
    split; [intros ty t Ht; exists t; split; [done | lra] | by left].
  - destruct Hstate as [-> | (_ & -> & Hreads')].
    + split; [by apply Hkeep |]. split; [done |].
      split; [intros ty t Ht; exists t; split; [done | lra] | by left].
    + split; [| split; [done | split]].
      * intros ty t. cbn. destruct (decide (type_of a = ty)) as [<- | Hne].
        -- rewrite lookup_insert_eq. intros [= <-]. apply Hmono. lia.
        -- rewrite lookup_insert_ne by done. intros Ht.
           specialize (Hsettled ty t Ht).
           assert (clock (clock_reads w) <= clock (clock_reads w1))%Q
             by (apply Hmono; lia).
           lra.
      * intros ty t Ht. cbn. destruct (decide (type_of a = ty)) as [<- | Hne].
        -- rewrite lookup_insert_eq. eexists. split; [done |].
           specialize (Hsettled _ t Ht).
           assert (clock (clock_reads w) <= clock (S (S (clock_reads w))))%Q
             by (apply Hmono; lia).
           lra.
        -- rewrite lookup_insert_ne by done. exists t. split; [done | lra].
      * intros ty. cbn. destruct (decide (type_of a = ty)) as [<- | Hne];
          [by right |]. rewrite lookup_insert_ne by done. by left.
Qed.
End Settled.

(** X3. Under a clock that never goes back, [send_alerts] keeps every
    recorded time in the past, never moves a recorded time back, and
    records times only for the types of the alerts it was given. *)
Theorem cooldown_times_never_go_back {E : Env} (alerts : list alert)
    (self self' : Notifier) (w w' : World) (r : outcome Z) :
  monotone_clock →
  settled self w →
  send_alerts alerts self w = (r, self', w') →
  settled self' w'
  ∧ (∀ alert_type t, _last_alert_sent self !! alert_type = Some t →
       ∃ t', _last_alert_sent self' !! alert_type = Some t' ∧ (t <= t')%Q)
  ∧ (∀ alert_type, is_Some (_last_alert_sent self' !! alert_type) →
       is_Some (_last_alert_sent self !! alert_type)
       ∨ alert_type ∈ type_of <$> alerts).
Proof.
  intros Hmono. unfold send_alerts. generalize 0 as sent_count.
  revert self w.
  induction alerts as [| a rest IH]; intros self w sent_count Hsettled Hrun.
  - injection Hrun as _ <- <-.
    split; [done |]. split; [| by left].
    intros ty t Ht. exists t. split; [done | lra].
  - rewrite send_alerts_cons in Hrun.
    destruct (send_alert a self w) as [[r1 self1] w1] eqn:Hone.
    destruct (send_alert_settled a self w r1 self1 w1 Hmono Hsettled Hone)
      as (Hsettled1 & Hreads & Hgrow1 & Hnew1).
    assert (Hstep : ∀ k w0, clock_reads w0 = clock_reads w1 →
              send_alerts_from k rest self1 w0 = (r, self', w') →
              settled self' w'
              ∧ (∀ alert_type t, _last_alert_sent self !! alert_type = Some t →
                   ∃ t', _last_alert_sent self' !! alert_type = Some t'
                         ∧ (t <= t')%Q)
              ∧ (∀ alert_type, is_Some (_last_alert_sent self' !! alert_type) →
                   is_Some (_last_alert_sent self !! alert_type)
                   ∨ alert_type ∈ type_of <$> a :: rest)).
    { intros k w0 Hw0 Hrest.
      destruct (IH self1 w0 k) as (Hs & Hg & Hn); [| done |].
      { intros ty t Ht. rewrite Hw0. by apply (Hsettled1 ty t). }
      split; [done |]. split.
      - intros ty t Ht. destruct (Hgrow1 ty t Ht) as (t1 & Ht1 & Hle1).
        destruct (Hg ty t1 Ht1) as (t2 & Ht2 & Hle2).
        exists t2. split; [done | lra].
      - intros ty Hty. rewrite fmap_cons.
        destruct (Hn ty Hty) as [Hold | Hin]; [| right; by right].
        destruct (Hnew1 ty Hold) as [? | ->]; [by left | right; by left]. }
    destruct r1 as [[|] | e].
    + eapply Hstep; [| exact Hrun]. reflexivity.
    + eapply Hstep; [| exact Hrun]. reflexivity.
    + exfalso. destruct (send_alert_cases a self w)
        as [(Hrun' & _) | (? & ? & ? & Hrun' & _)];
        rewrite Hone in Hrun'; discriminate.
Qed.

(** X4. [get_cooldown_status] changes nothing and has an entry for
    exactly the types with a recorded time. It says that a type is ready
    exactly when the gate admits the type at the same time; otherwise
    it shows the whole seconds of what is left of the cooldown: the one
    integer that is at most what is left and less than a second below
    it, which is not negative. *)
Theorem cooldown_status_agrees_with_gate {E : Env} (self : Notifier) (w : World) :
  let now := clock (clock_reads w) in
  ∃ status : gmap string text,
    get_cooldown_status self w = (Ret status, self, tick w)
    ∧ (∀ alert_type,
         status !! alert_type = None ↔ _last_alert_sent self !! alert_type = None)
    ∧ (∀ alert_type last,
         _last_alert_sent self !! alert_type = Some last →
         if admitted self alert_type now
         then status !! alert_type = Some [Lit "Pronto para enviar"]
         else ∃ remaining,
                status !! alert_type
                = Some [Num (PyInt remaining); Lit "s restantes"]
                ∧ 0 <= remaining
                ∧ (inject_Z remaining
                   <= inject_Z (cooldown_seconds self) - (now - last)
                   < inject_Z remaining + 1)%Q
                ∧ ((last <= now)%Q → remaining <= cooldown_seconds self)).
Proof.
  intros now. eexists. split; [reflexivity |]. unfold id. split.
  - intros ty. rewrite lookup_fmap. apply fmap_None.
  - intros ty last Hlast. unfold admitted. rewrite Hlast, lookup_fmap, Hlast.
    cbn [fmap option_fmap option_map id]. fold now.
    unfold Qltb.
    destruct (Qle_bool (inject_Z (cooldown_seconds self)) (now - last)) eqn:Hgate;
      cbn [negb]; [reflexivity |].
    apply not_true_iff_false in Hgate. rewrite Qle_bool_iff in Hgate.
    assert (Hpos : (0 <= inject_Z (cooldown_seconds self) - (now - last))%Q) by lra.
    eexists. split; [reflexivity |].
    split; [by apply int_nonneg |].
    split; [split; [by apply int_below | by apply int_above] |].
    intros Hpast. pose proof (int_below _ Hpos) as Hle.
    assert (Hc : (inject_Z (int (inject_Z (cooldown_seconds self) - (now - last)))
                  <= inject_Z (cooldown_seconds self))%Q) by lra.
    by rewrite <- Zle_Qle in Hc.
Qed.

Lemma ticking_monotone start i j :
  (i ≤ j)%nat → (ticking start i <= ticking start j)%Q.
Proof. intros Hle. unfold ticking. rewrite <- Zle_Qle. lia. Qed.

Lemma delivered_alert_starts_cooldown_witness :
  let E := steady_env 1000 200 failed_sampling [] in
  let self' := set_last_alert_sent {[ "CPU_CRITICAL" := clock 2%nat ]} (a_notifier ∅) in
  _last_alert_sent self' !! "CPU_CRITICAL" = Some (clock 2%nat)
  ∧ send_alert cpu_alert self' (tick (tick (tick (posted
        (send_text_request (a_notifier ∅) (alert_text cpu_alert (clock 0%nat)))
        empty_world))))
    = (Ret false, self', Nat.iter 5 tick (posted
        (send_text_request (a_notifier ∅) (alert_text cpu_alert (clock 0%nat)))
        empty_world)).
Proof.
  intros E self'.
  set (w' := tick (posted (send_text_request (a_notifier ∅)
                             (alert_text cpu_alert (clock 0%nat)))
                     (tick (tick empty_world)))).
  destruct (delivered_alert_starts_cooldown cpu_alert cpu_alert (a_notifier ∅)
              self' empty_world w'
              (tick (tick (tick (posted
                 (send_text_request (a_notifier ∅)
                    (alert_text cpu_alert (clock 0%nat))) empty_world)))))
    as (Hrec & Hin & _).
  - reflexivity.
  - discriminate.
  - reflexivity.
  - split; [exact Hrec |]. apply Hin. reflexivity.
Defined.

Lemma cooldown_times_never_go_back_witness :
  let E := steady_env 1000 200 failed_sampling [] in
  let self := a_notifier {[ "CPU_CRITICAL" := 940%Q ]} in
  ∃ r self' w',
    send_alerts [cpu_alert] self empty_world = (r, self', w')
    ∧ settled self' w'
    ∧ ∃ t', _last_alert_sent self' !! "CPU_CRITICAL" = Some t' ∧ (940 <= t')%Q.
Proof.
  intros E self.
  destruct (send_alerts [cpu_alert] self empty_world) as [[r self'] w'] eqn:Hrun.
  exists r, self', w'. split; [reflexivity |].
  destruct (cooldown_times_never_go_back [cpu_alert] self self' empty_world w' r)
    as (Hsettled & Hgrow & _).
  - intros i j. apply ticking_monotone.
  - intros ty t Ht. cbn in Ht.
    destruct (decide (ty = "CPU_CRITICAL")) as [-> | Hne].
    + rewrite lookup_singleton_eq in Ht. injection Ht as <-. 
      apply Qle_bool_iff. reflexivity.
    + by rewrite lookup_singleton_ne in Ht.
  - exact Hrun.
  - split; [exact Hsettled |]. apply Hgrow. reflexivity.
Defined.

(** ** Heartbeat counters: [Heartbeat.send] and [Heartbeat.get_stats] *)

Section Heartbeat_facts.
Context {E : Env}.

Lemma tally_cons b r results :
  tally b (r :: results) = (if decide (r = b) then 1 else 0) + tally b results.
Proof.
  unfold tally. rewrite filter_cons. case_decide; cbn [length]; lia.
Qed.

Lemma send_each_run beats : ∀ self w,
  ∃ self' w' reqs,
    let results :=
      (fun i => acknowledged (http (length (outbox w) + i)%nat))
        <$> seq 0 (length beats) in
    send_each beats self w = (Ret results, self', w')
    ∧ outbox w' = outbox w ++ reqs
    ∧ length reqs = length beats
    ∧ Forall (fun r => is_send_text r = false) reqs
    ∧ total_sent self' = total_sent self + tally true results
    ∧ total_failed self' = total_failed self + tally false results
    ∧ (∀ earlier k, results = earlier ++ [true] ++ replicate k false →
         consecutive_failures self' = Z.of_nat k)
    ∧ (results = replicate (length beats) false →
         consecutive_failures self'
         = consecutive_failures self + Z.of_nat (length beats))
    ∧ webhook_url self' = webhook_url self ∧ hostname self' = hostname self.
Proof.
  induction beats as [| [st extra_data] rest IH]; intros self w.
  - exists self, w, []. cbn. rewrite app_nil_r.
    split; [done |]. split; [done |]. split; [done |]. split; [done |].
    split; [unfold tally; cbn; lia |]. split; [unfold tally; cbn; lia |].
    split; [intros earlier k Heq; by destruct earlier |].
    split; [intros _; lia | done].
  - cbn [send_each]. unfold bind at 1. rewrite heartbeat_send_run.
    remember (acknowledged (http (length (outbox w)))) as ok eqn:Hokdef.
    unfold bind at 1.
    match goal with
    | |- context [send_each rest ?s1 ?w1] =>
        destruct (IH s1 w1)
          as (self' & w' & reqs & Hrun & Hout & Hlen & Hall & Hsent & Hfailed
              & Hlast & Hnone & Hurl & Hhost)
    end.
    cbn zeta in Hrun. rewrite Hrun. cbn [ret].
    cbn [outbox posted tick] in *.
    rewrite length_app in *. cbn [length] in *.
    eexists self', w', (_ :: reqs). cbn zeta.
    assert (Hres : (λ i : nat, acknowledged (http (length (outbox w) + i)%nat))
                     <$> seq 0 (S (length rest))
                   = ok :: ((λ i : nat,
                               acknowledged (http (length (outbox w) + 1 + i)%nat))
                              <$> seq 0 (length rest))).
    { cbn [seq]. rewrite fmap_cons, Nat.add_0_r, <- Hokdef. f_equal.
      rewrite <- fmap_S_seq, <- list_fmap_compose. apply list_fmap_ext.
      intros i x _. cbn. f_equal. f_equal. lia. }
    rewrite Hres.
    set (results := (λ i, acknowledged (http (length (outbox w) + 1 + i)%nat))
                      <$> seq 0 (length rest)) in *.
    split; [reflexivity |].
    split; [rewrite Hout, <- app_assoc; reflexivity |].
    split; [cbn; by rewrite Hlen |].
    split; [by constructor |].
    rewrite !tally_cons.
    clear Hokdef Hres.
    split; [rewrite Hsent; destruct ok; repeat case_decide; try done; cbn; lia |].
    split; [rewrite Hfailed; destruct ok; repeat case_decide; try done; cbn; lia |].
    split; [| split; [| split]].
    + intros earlier k Heq. destruct earlier as [| r earlier].
      * cbn in Heq. injection Heq as Hok Heq.
        assert (Hlenk : k = length rest).
        { apply (f_equal length) in Heq. rewrite length_replicate in Heq.
          unfold results in Heq. by rewrite length_fmap, length_seq in Heq. }
        subst k. rewrite Hnone by done. rewrite Hok. cbn. lia.
      * cbn in Heq. injection Heq as _ Heq. by eapply Hlast.
    + intros Heq. cbn in Heq. injection Heq as Hok Heq.
      rewrite Hnone by done. rewrite Hok. cbn. lia.
    + rewrite Hurl. by destruct ok.
    + rewrite Hhost. by destruct ok.
Qed.
End Heartbeat_facts.

(** X5. Heartbeats sent one after the other make one request each,
    whatever the endpoint answers. [total_sent] grows by the number of
    acknowledged ones and [total_failed] by the number of the others;
    [consecutive_failures] is the number of failures since the last
    acknowledged one. *)
Theorem heartbeat_counters_track_results {E : Env} (beats : list beat)
    (self : Heartbeat) (w : World) :
  ∃ self' w' reqs,
    let results :=
      (fun i => acknowledged (http (length (outbox w) + i)%nat))
        <$> seq 0 (length beats) in
    send_each beats self w = (Ret results, self', w')
    ∧ outbox w' = outbox w ++ reqs
    ∧ length reqs = length beats
    ∧ total_sent self' = total_sent self + tally true results
    ∧ total_failed self' = total_failed self + tally false results
    ∧ (∀ earlier k, results = earlier ++ [true] ++ replicate k false →
         consecutive_failures self' = Z.of_nat k)
    ∧ (results = replicate (length beats) false →
         consecutive_failures self'
         = consecutive_failures self + Z.of_nat (length beats)).
Proof.
  destruct (send_each_run beats self w)
    as (self' & w' & reqs & Hrun & Hout & Hlen & _ & Hsent & Hfailed & Hlast
        & Hnone & _).
  exists self', w', reqs. cbn zeta. repeat split; done.
Qed.

Section Rate.

(** Rounding to two decimals does not cross an integer either. *)
Lemma round2_between (x : Q) (lo hi : Z) :
  - 2 ^ 52 <= lo → hi <= 2 ^ 52 →
  (inject_Z lo <= x <= inject_Z hi)%Q →
  (inject_Z lo <= b64 (Qmake (round_half_even (x * 100)) 100)
   <= inject_Z hi)%Q.
Proof.
  intros Hlo Hhi [Hlox Hxhi].
  assert (Hround : lo * 100 <= round_half_even (x * 100) <= hi * 100).
  { split; [apply round_half_even_ge | apply round_half_even_le];
      rewrite inject_Z_mult; change (inject_Z 100) with 100%Q; lra. }
  set (n := round_half_even (x * 100)) in *.
  assert (Hn : (inject_Z lo <= Qmake n 100 <= inject_Z hi)%Q).
  { rewrite (Qmake_Qdiv n 100). change (inject_Z (Zpos 100)) with 100%Q.
    destruct Hround as [Hl Hh]. rewrite Zle_Qle, inject_Z_mult in Hl, Hh.
    change (inject_Z 100) with 100%Q in Hl, Hh.
    split; [apply Qle_shift_div_l | apply Qle_shift_div_r]; lra. }
  apply b64_int_between; [| done].
  assert (Hbound : (- inject_Z (2 ^ 52) <= Qmake n 100 <= inject_Z (2 ^ 52))%Q).
  { rewrite Zle_Qle in Hlo, Hhi. rewrite inject_Z_opp in Hlo. lra. }
  apply Qabs_Qle_condition in Hbound.
  pose proof (pow2_Z 52 ltac:(lia)) as H52.
  pose proof (pow2_lt 52 53 ltac:(lia)). lra.
Qed.

(** A ratio between the integers [lo] and [hi], both 0 or 1, gives a
    rate between [lo * 100] and [hi * 100]. *)
Lemma percentage_between (y : Q) (lo hi : Z) :
  0 <= lo → hi <= 1 →
  (inject_Z lo <= y <= inject_Z hi)%Q →
  (inject_Z (lo * 100)
   <= b64 (Qmake (round_half_even (b64 (b64 y * 100) * 100)) 100)
   <= inject_Z (hi * 100))%Q.
Proof.
  intros Hlo Hhi Hy.
  assert (Hlo' : (0 <= inject_Z lo)%Q)
    by (change 0%Q with (inject_Z 0); by rewrite <- Zle_Qle).
  assert (Hhi' : (inject_Z hi <= 1)%Q)
    by (change 1%Q with (inject_Z 1); by rewrite <- Zle_Qle).
  assert (Hratio : (inject_Z lo <= b64 y <= inject_Z hi)%Q).
  { apply b64_int_between; [| done].
    rewrite Qabs_pos by lra. pose proof (pow2_lt 0 53 ltac:(lia)).
    change (pow2 0) with 1%Q in *. lra. }
  assert (Hproduct : (inject_Z (lo * 100) <= b64 (b64 y * 100)
                      <= inject_Z (hi * 100))%Q).
  { apply b64_int_between.
    - rewrite Qabs_pos by lra. pose proof (pow2_lt 7 53 ltac:(lia)).
      change (pow2 7) with 128%Q in *. lra.
    - rewrite !inject_Z_mult. change (inject_Z 100) with 100%Q. lra. }
  apply round2_between; [lia | lia | done].
Qed.

End Rate.

(** X6. With counters that are not negative, the success rate of
    [get_stats] is the int 0 before the first attempt and afterwards a
    float between 0 and 100: 100 when nothing failed, 0 when nothing
    was sent. *)
Theorem success_rate_is_a_percentage (self : Heartbeat) :
  0 <= total_sent self → 0 <= total_failed self →
  ∃ s, get_stats self = Ret s
       ∧ match hs_success_rate s with
         | PyInt z => z = 0 ∧ total_sent self + total_failed self = 0
         | PyFloat q =>
             (0 <= q <= 100)%Q
             ∧ 0 < total_sent self + total_failed self
             ∧ (total_failed self = 0 → (q == 100)%Q)
             ∧ (total_sent self = 0 → (q == 0)%Q)
         | PyInf _ | PyNaN => False
         end.
Proof.
  intros Hsent Hfailed. rewrite get_stats_run by done.
  eexists. split; [reflexivity |]. cbn [hs_success_rate].
  destruct (Z.gtb_spec (total_sent self + total_failed self) 0) as [Hpos | Hnone];
    [| split; [done | lia]].
  cbn [round2].
  set (y := (inject_Z (total_sent self)
             / inject_Z (total_sent self + total_failed self))%Q).
  assert (Hy : (0 <= y <= 1)%Q) by (apply success_ratio_between; lia).
  split; [| split; [lia | split]].
  - apply (percentage_between y 0 1); [lia | lia | done].
  - intros Hzero.
    assert (Hone : (y == 1)%Q).
    { unfold y. rewrite Hzero, Z.add_0_r. field.
      change 0%Q with (inject_Z 0). rewrite inject_Z_injective. lia. }
    pose proof (percentage_between y 1 1 ltac:(lia) ltac:(lia)) as Hq.
    change (inject_Z (1 * 100)) with 100%Q in Hq. change (inject_Z 1) with 1%Q in Hq.
    apply Qle_antisym; apply Hq; lra.
  - intros Hzero.
    assert (Hnone : (y == 0)%Q).
    { unfold y. rewrite Hzero. change (inject_Z 0) with 0%Q.
      unfold Qdiv. ring. }
    pose proof (percentage_between y 0 0 ltac:(lia) ltac:(lia)) as Hq.
    change (inject_Z (0 * 100)) with 0%Q in Hq. change (inject_Z 0) with 0%Q in Hq.
    apply Qle_antisym; apply Hq; lra.
Qed.

Lemma success_rate_is_a_percentage_witness :
  ∃ s, get_stats (set_counters 1 2 1 a_heartbeat) = Ret s
       ∧ match hs_success_rate s with
         | PyInt z => z = 0 ∧ 2 + 1 = 0
         | PyFloat q =>
             (0 <= q <= 100)%Q ∧ 0 < 2 + 1
             ∧ (1 = 0 → (q == 100)%Q) ∧ (2 = 0 → (q == 0)%Q)
         | PyInf _ | PyNaN => False
         end.
Proof.
  apply (success_rate_is_a_percentage (set_counters 1 2 1 a_heartbeat)); cbn; lia.
Defined.

(** ** WatchEvaluator: containers that are missing or fine *)

Section Watch_facts.
Context {E : Env}.

Lemma check_watched_nil cmap name :
  check_watched cmap [] name = []
  ↔ ∃ c, cmap !! name = Some c ∧ ci_status c = "running"
         ∧ ci_health c ≠ Some "unhealthy".
Proof.
  unfold check_watched. destruct (cmap !! name) as [c |] eqn:Hc.
  - destruct (String.eqb_spec (ci_status c) "running") as [Hst | Hst]; cbn [negb].
    + destruct (ci_health c) as [h |] eqn:Hh.
      * destruct (String.eqb_spec h "unhealthy") as [-> | Hne].
        -- split; [done |]. intros (c' & [= <-] & _ & Hbad). congruence.
        -- split; [| done]. intros _. exists c. repeat split; congruence.
      * split; [| done]. intros _. exists c. repeat split; congruence.
    + split.
      * destruct (ci_health c) as [h |]; [destruct (String.eqb h _) |]; done.
      * intros (c' & [= <-] & Hrun & _). done.
  - split; [done |]. intros (c & ? & _). done.
Qed.

Lemma concat_nil_Forall {A} (ls : list (list A)) :
  concat ls = [] ↔ Forall (fun l => l = []) ls.
Proof.
  induction ls as [| l ls IH]; cbn; [by split |].
  split.
  - intros Happ. apply app_eq_nil in Happ as [-> Hrest].
    constructor; [done | by apply IH].
  - intros Hall. inversion Hall as [| ? ? -> Hrest]; subst. by apply IH.
Qed.

Lemma about_missing cmap name :
  cmap !! name = None →
  length (about "CONTAINER_NOT_FOUND" name (check_watched cmap [] name)) = 1%nat
  ∧ about "CONTAINER_NOT_RUNNING" name (check_watched cmap [] name) = []
  ∧ about "CONTAINER_UNHEALTHY" name (check_watched cmap [] name) = [].
Proof.
  intros Hc. unfold check_watched, about. rewrite Hc. cbn.
  repeat split; repeat case_decide; cbn; try done; naive_solver.
Qed.

Lemma get_all_containers_run self w :
  get_all_containers self w
  = if client self then
      if docker_ping (docker_calls w) then
        (Ret (match docker_list (S (docker_calls w)) with
              | Some containers => container_info_of <$> containers
              | None => []
              end), self, docker_called (docker_called w))
      else (Ret [], self, docker_called w)
    else (Ret [], self, w).
Proof.
  unfold get_all_containers, bind at 1. rewrite is_connected_run.
  destruct (client self); [| reflexivity].
  destruct (docker_ping _); cbn [negb]; [| reflexivity].
  unfold bind, containers_list. cbn. by destruct (docker_list _).
Qed.

Lemma container_map_of_snoc all c :
  container_map_of (all ++ [c]) = <[ci_name c := c]> (container_map_of all).
Proof. unfold container_map_of. by rewrite foldl_app. Qed.

End Watch_facts.

(** X7. With Docker reachable, the watched-container check raises no
    alert exactly when every watched name is listed, running and not
    unhealthy. *)
Theorem no_alert_iff_all_running_and_healthy {E : Env} (self : DockerMonitor)
    (w w1 w2 : World) (all : list container_info) :
  is_connected self w = (Ret true, self, w1) →
  get_all_containers self w1 = (Ret all, self, w2) →
  ∃ alerts w',
    check_watched_containers self w = (Ret alerts, self, w')
    ∧ (alerts = []
       ↔ ∀ name, name ∈ watch_containers self →
           ∃ c, container_map_of all !! name = Some c
                ∧ ci_status c = "running"
                ∧ ci_health c ≠ Some "unhealthy").
Proof.
  intros Hconn Hall.
  destruct (watch_containers self) as [| x rest] eqn:Hwatch.
  - exists [], w. split.
    + unfold check_watched_containers, bind, gets. by rewrite Hwatch.
    + split; [| done]. intros _ name Hin. by apply not_elem_of_nil in Hin.
  - eexists _, w2. split.
    + eapply check_watched_containers_run; [| done | done]. by rewrite Hwatch.
    + rewrite Hwatch, concat_nil_Forall, Forall_fmap, Forall_forall.
      split; intros H name Hin; apply check_watched_nil; by apply H.
Qed.

(** X8. A watched name that Docker does not list gets one
    CONTAINER_NOT_FOUND alert per occurrence in the watch list, and no
    other alert. *)
Theorem watched_missing_container {E : Env} (self : DockerMonitor)
    (w w1 w2 : World) (all : list container_info) (name : string) :
  name ∈ watch_containers self →
  is_connected self w = (Ret true, self, w1) →
  get_all_containers self w1 = (Ret all, self, w2) →
  name ∉ ci_name <$> all →
  ∃ alerts,
    check_watched_containers self w = (Ret alerts, self, w2)
    ∧ length (about "CONTAINER_NOT_FOUND" name alerts)
      = occurrences name (watch_containers self)
    ∧ about "CONTAINER_NOT_RUNNING" name alerts = []
    ∧ about "CONTAINER_UNHEALTHY" name alerts = [].
Proof.
  intros Hin Hconn Hall Hmissing.
  assert (Hnone : container_map_of all !! name = None).
  { clear -Hmissing. induction all as [| c all IH] using rev_ind; [done |].
    rewrite container_map_of_snoc. rewrite fmap_app in Hmissing. cbn in Hmissing.
    apply not_elem_of_app in Hmissing as [Hrest Hc].
    rewrite lookup_insert_ne; [by apply IH |].
    intros Heq. apply Hc. rewrite <- Heq. by left. }
  eexists. split.
  { eapply check_watched_containers_run; [| done | done].
    intros Hnil. rewrite Hnil in Hin. by apply not_elem_of_nil in Hin. }
  clear Hin Hconn Hall.
  induction (watch_containers self) as [| x names IH].
  - done.
  - rewrite fmap_cons, occurrences_cons. cbn [concat].
    rewrite !about_app, !length_app.
    destruct IH as (IH1 & IH2 & IH3). rewrite IH1, IH2, IH3.
    destruct (decide (x = name)) as [-> | Hne].
    + destruct (about_missing _ _ Hnone) as (H1 & H2 & H3).
      rewrite H1, H2, H3. done.
    + rewrite !about_other by done. done.
Qed.

(** X9. When Docker answers the first ping and the listing then fails
    (the second ping is lost, or the list call raises),
    [get_all_containers] returns the empty list and every watched
    container is reported as CONTAINER_NOT_FOUND, in the order of the
    watch list. *)
Theorem listing_failure_reports_all_missing {E : Env} (self : DockerMonitor)
    (w : World) :
  watch_containers self ≠ [] →
  client self = true →
  docker_ping (docker_calls w) = true →
  docker_ping (S (docker_calls w)) = false
  ∨ docker_list (S (S (docker_calls w))) = None →
  ∃ alerts w',
    check_watched_containers self w = (Ret alerts, self, w')
    ∧ a_type <$> alerts
      = replicate (length (watch_containers self)) (Some "CONTAINER_NOT_FOUND")
    ∧ a_container <$> alerts = Some <$> watch_containers self.
Proof.
  intros Hne Hclient Hping Hfail.
  assert (Hall : ∃ w2, get_all_containers self (docker_called w) = (Ret [], self, w2)).
  { rewrite get_all_containers_run, Hclient. cbn [docker_calls docker_called].
    destruct Hfail as [-> | Hlist]; [eexists; reflexivity |].
    destruct (docker_ping (S (docker_calls w))); [| eexists; reflexivity].
    rewrite Hlist. eexists; reflexivity. }
  destruct Hall as [w2 Hall].
  eexists _, w2. split.
  { eapply check_watched_containers_run; [done | | exact Hall].
    by rewrite is_connected_run, Hclient, Hping. }
  clear. induction (watch_containers self) as [| x names [IH1 IH2]]; [done |].
  rewrite fmap_cons. cbn [concat]. rewrite !fmap_app, IH1, IH2. done.
Qed.

Lemma find_app_first {A} (f : A → bool) (l1 l2 : list A) :
  List.find f (l1 ++ l2)
  = match List.find f l1 with
    | Some x => Some x
    | None => List.find f l2
    end.
Proof.
  induction l1 as [| x l1 IH]; [done |]. cbn. by destruct (f x).
Qed.

(** X10. The container map of [check_watched_containers] holds, for a
    name, the last container of the listing with that name; it has no
    entry exactly for the names that are not listed. *)
Theorem container_map_keeps_last (all : list container_info) (name : string) :
  container_map_of all !! name
  = List.find (fun c => String.eqb (ci_name c) name) (rev all)
  ∧ (container_map_of all !! name = None ↔ name ∉ ci_name <$> all)
  ∧ (NoDup (ci_name <$> all) →
     container_map_of all !! name
     = List.find (fun c => String.eqb (ci_name c) name) all).
Proof.
  assert (Hlast : container_map_of all !! name
                  = List.find (fun c => String.eqb (ci_name c) name) (rev all)).
  { induction all as [| c all IH] using rev_ind; [done |].
    rewrite container_map_of_snoc, rev_app_distr. cbn [rev app List.find].
    destruct (String.eqb_spec (ci_name c) name) as [-> | Hne].
    - by rewrite lookup_insert_eq.
    - by rewrite lookup_insert_ne. }
  split; [exact Hlast |]. split.
  - rewrite Hlast. rewrite list_elem_of_fmap. split.
    + intros Hnone (c & -> & Hin).
      apply list_elem_of_In, in_rev in Hin.
      eapply find_none in Hnone; [| exact Hin]. cbn in Hnone.
      by rewrite String.eqb_refl in Hnone.
    + intros Hnot. destruct (List.find _ _) as [c |] eqn:Hfind; [| done].
      apply find_some in Hfind as [Hin Heq]. apply String.eqb_eq in Heq.
      exfalso. apply Hnot. exists c. split; [done |].
      apply list_elem_of_In, in_rev. done.
  - intros Hnodup. rewrite Hlast. clear Hlast.
    induction all as [| c all IH]; [done |].
    rewrite fmap_cons in Hnodup. apply NoDup_cons in Hnodup as [Hnotin Hnodup].
    cbn [rev]. rewrite find_app_first, IH by done. cbn [List.find].
    destruct (String.eqb_spec (ci_name c) name) as [Heq | Hne].
    + destruct (List.find _ all) as [c' |] eqn:Hfind; [| done].
      apply find_some in Hfind as [Hin Hc']. apply String.eqb_eq in Hc'.
      exfalso. apply Hnotin. rewrite Heq, <- Hc'. apply list_elem_of_fmap.
      exists c'. split; [done |]. by apply list_elem_of_In.
    + by destruct (List.find _ all).
Qed.

Lemma no_alert_iff_all_running_and_healthy_witness :
  let E := steady_env 1000 200 failed_sampling [running_db] in
  ∃ alerts w',
    check_watched_containers (a_monitor ["db"]) empty_world
    = (Ret alerts, a_monitor ["db"], w')
    ∧ (alerts = []
       ↔ ∀ name, name ∈ ["db"] →
           ∃ c, container_map_of [container_info_of running_db] !! name = Some c
                ∧ ci_status c = "running"
                ∧ ci_health c ≠ Some "unhealthy").
Proof.
  intros E.
  apply (no_alert_iff_all_running_and_healthy (a_monitor ["db"]) empty_world
           (docker_called empty_world)
           (docker_called (docker_called (docker_called empty_world)))
           [container_info_of running_db]); reflexivity.
Defined.

Lemma watched_missing_container_witness :
  let E := steady_env 1000 200 failed_sampling [running_db] in
  ∃ alerts,
    check_watched_containers (a_monitor ["db"; "api"]) empty_world
    = (Ret alerts, a_monitor ["db"; "api"],
       docker_called (docker_called (docker_called empty_world)))
    ∧ length (about "CONTAINER_NOT_FOUND" "api" alerts) = 1%nat
    ∧ about "CONTAINER_NOT_RUNNING" "api" alerts = []
    ∧ about "CONTAINER_UNHEALTHY" "api" alerts = [].
Proof.
  intros E.
  apply (watched_missing_container (a_monitor ["db"; "api"]) empty_world
           (docker_called empty_world)
           (docker_called (docker_called (docker_called empty_world)))
           [container_info_of running_db] "api").
  - set_solver.
  - reflexivity.
  - reflexivity.
  - cbn. set_solver.
Defined.

Lemma listing_failure_reports_all_missing_witness :
  let E := listing_fails_env 1000 in
  ∃ alerts w',
    check_watched_containers (a_monitor ["db"; "api"]) empty_world
    = (Ret alerts, a_monitor ["db"; "api"], w')
    ∧ a_type <$> alerts
      = [Some "CONTAINER_NOT_FOUND"; Some "CONTAINER_NOT_FOUND"]
    ∧ a_container <$> alerts = [Some "db"; Some "api"].
Proof.
  intros E.
  apply (listing_failure_reports_all_missing (a_monitor ["db"; "api"]) empty_world).
  - discriminate.
  - reflexivity.
  - reflexivity.
  - right. reflexivity.
Defined.

(** ** Container statistics: [DockerMonitor._calculate_cpu_percent] *)

Section Usage.

(** Below [2 ^ k] nothing leaves the range of floats. *)
Lemma b64_bounded (x : Q) (k : Z) :
  0 <= k < 1024 → (0 <= x <= pow2 k)%Q →
  in_range x = true ∧ (0 <= b64 x <= pow2 k)%Q.
Proof.
  intros Hk Hx. pose proof (Qabs_below x k Hx) as Habs.
  split; [by apply (in_range_bound x k) |].
  split; [apply b64_nonneg; lra |].
  pose proof (b64_pow2_bound x k ltac:(lia) Habs) as Hb.
  apply Qabs_Qle_condition in Hb. lra.
Qed.

Lemma truediv_bounded (a b k : Z) :
  0 <= k < 1024 → 0 <= a <= 2 ^ k → 0 < b →
  truediv a b = Ret (b64 (inject_Z a / inject_Z b))
  ∧ (0 <= b64 (inject_Z a / inject_Z b) <= pow2 k)%Q.
Proof.
  intros Hk [Ha Hak] Hb. unfold truediv.
  destruct (Z.eqb_spec b 0); [lia |]. cbv zeta.
  assert (Hb1 : (1 <= inject_Z b)%Q).
  { change 1%Q with (inject_Z 1). rewrite <- Zle_Qle. lia. }
  rewrite Zle_Qle in Ha, Hak. change (inject_Z 0) with 0%Q in Ha.
  rewrite <- pow2_Z in Hak by lia. pose proof (pow2_pos k).
  assert (Hq : (0 <= inject_Z a / inject_Z b <= pow2 k)%Q).
  { split; [apply Qle_shift_div_l | apply Qle_shift_div_r]; nra. }
  destruct (b64_bounded _ k Hk Hq) as [-> Hbounds]. done.
Qed.

Lemma to_float_bounded (z k : Z) :
  0 <= k < 1024 → 0 <= z <= 2 ^ k →
  to_float (PyInt z) = Ret (Real (b64 (inject_Z z)))
  ∧ (0 <= b64 (inject_Z z) <= pow2 k)%Q.
Proof.
  intros Hk [Hz Hzk]. cbn [to_float].
  rewrite Zle_Qle in Hz, Hzk. change (inject_Z 0) with 0%Q in Hz.
  rewrite <- pow2_Z in Hzk by lia.
  destruct (b64_bounded (inject_Z z) k Hk) as [-> Hbounds]; done.
Qed.

Lemma fmul_bounded (a b : Q) (j k : Z) :
  0 <= j → 0 <= k → j + k < 1024 →
  (0 <= a <= pow2 j)%Q → (0 <= b <= pow2 k)%Q →
  fmul (Real a) (Real b) = Real (b64 (a * b))
  ∧ (0 <= b64 (a * b) <= pow2 (j + k))%Q.
Proof.
  intros Hj Hk Hjk Ha Hb. cbn [fmul].
  assert (Hab : (0 <= a * b <= pow2 (j + k))%Q).
  { rewrite pow2_add. split; nra. }
  destruct (b64_bounded (a * b) (j + k)) as [-> Hbounds]; [lia | done |].
  done.
Qed.

Lemma hundredths_nonneg (x : Q) :
  (0 <= x)%Q → (0 <= b64 (Qmake (round_half_even (x * 100)) 100))%Q.
Proof.
  intros Hx. apply b64_nonneg.
  assert (0 <= round_half_even (x * 100)).
  { apply round_half_even_ge. change (inject_Z 0) with 0%Q. lra. }
  unfold Qle. cbn. lia.
Qed.

(** The CPU figure for two positive deltas and a CPU count, all three
    counters. *)
Lemma cpu_percent_run (cpu_delta system_delta cpu_count : Z) :
  0 < cpu_delta < 2 ^ 64 → 0 < system_delta < 2 ^ 64 → uint64 cpu_count →
  let ratio := b64 (inject_Z cpu_delta / inject_Z system_delta) in
  let share := b64 (ratio * b64 (inject_Z cpu_count)) in
  let cpu_percent := b64 (share * 100) in
  and_then (truediv cpu_delta system_delta) (fun ratio =>
  and_then (mul (PyFloat ratio) (PyInt cpu_count)) (fun share =>
  and_then (mul share (PyFloat 100)) (fun cpu_percent =>
  Ret (Some (round2 cpu_percent)))))
  = Ret (Some (PyFloat (b64 (Qmake (round_half_even (cpu_percent * 100)) 100))))
  ∧ (0 <= cpu_percent)%Q.
Proof.
  intros Hcpu Hsys Hcount ratio share cpu_percent.
  destruct (truediv_bounded cpu_delta system_delta 64) as [-> Hratio];
    [lia | lia | lia |].
  fold ratio in Hratio. cbn [and_then]. unfold mul at 1.
  cbn [to_float and_then].
  destruct (to_float_bounded cpu_count 64) as [Hconv Hc];
    [lia | unfold uint64 in Hcount; lia |].
  cbn [to_float] in Hconv. rewrite Hconv. cbn [and_then]. fold ratio.
  destruct (fmul_bounded ratio (b64 (inject_Z cpu_count)) 64 64)
    as [-> Hshare]; [lia | lia | lia | done | done |].
  fold share in Hshare |- *. cbn [of_float and_then]. unfold mul.
  cbn [to_float and_then].
  destruct (fmul_bounded share 100 128 7) as [-> Hpercent];
    [lia | lia | lia | done | by vm_compute |].
  fold cpu_percent in Hpercent. cbn [of_float and_then round2].
  split; [reflexivity | apply Hpercent].
Qed.

End Usage.

(** X11. The two usage figures of a container raise nothing but an
    [OverflowError], whatever is missing from the statistics, and
    nothing at all when the entries are counters of 64 bits. The CPU
    figure is then [round(x, 2)] of the float product
    [x = (cpu_delta / system_delta) * cpu_count * 100.0] when both
    deltas are positive, and 0.0 when an entry is missing or a delta is
    not positive; the memory figure is [round(usage / 2 ^ 20, 2)], and
    0.0 without a usage entry. Neither is negative. *)
Theorem container_usage_never_fails (stats : container_stats) :
  counters stats →
  (∀ (any : container_stats) (e : exn),
     _calculate_cpu_percent any = Raise e ∨ _calculate_memory_usage any = Raise e →
     e = overflow_error)
  ∧ (∃ cpu : Q,
       _calculate_cpu_percent stats = Ret (PyFloat cpu)
       ∧ (0 <= cpu)%Q
       ∧ (∀ total pre_total system pre_system,
            cs_total_usage stats = Some total →
            cs_pre_total_usage stats = Some pre_total →
            cs_system_usage stats = Some system →
            cs_pre_system_usage stats = Some pre_system →
            0 < total - pre_total → 0 < system - pre_system →
            let ratio :=
              b64 (inject_Z (total - pre_total) / inject_Z (system - pre_system)) in
            let cpu_count := b64 (inject_Z (default 1 (cs_online_cpus stats))) in
            let cpu_percent := b64 (b64 (ratio * cpu_count) * 100) in
            cpu = b64 (Qmake (round_half_even (cpu_percent * 100)) 100))
       ∧ ((cs_total_usage stats = None ∨ cs_pre_total_usage stats = None
           ∨ cs_system_usage stats = None ∨ cs_pre_system_usage stats = None
           ∨ (∀ total pre_total system pre_system,
                cs_total_usage stats = Some total →
                cs_pre_total_usage stats = Some pre_total →
                cs_system_usage stats = Some system →
                cs_pre_system_usage stats = Some pre_system →
                total - pre_total <= 0 ∨ system - pre_system <= 0)) →
          _calculate_cpu_percent stats = Ret (PyFloat 0)))
  ∧ (∃ memory : Q,
       _calculate_memory_usage stats = Ret (PyFloat memory)
       ∧ (0 <= memory)%Q
       ∧ (cs_memory_usage stats = None →
          _calculate_memory_usage stats = Ret (PyFloat 0))
       ∧ (∀ usage, cs_memory_usage stats = Some usage →
            memory
            = b64 (Qmake (round_half_even
                            (b64 (inject_Z usage / inject_Z (1024 * 1024)) * 100))
                     100))).
Proof.
  intros Hcounters. split; [| split].
  - intros any e.
    assert (Hmul : ∀ x y e0, mul x y = Raise e0 → e0 = overflow_error).
    { intros x y e0. unfold mul, to_float.
      destruct x as [a | a | s |], y as [b | b | t |]; try done;
        repeat match goal with
               | |- context [in_range ?q] => destruct (in_range q)
               end; cbn [and_then]; congruence. }
    unfold _calculate_cpu_percent, _calculate_memory_usage, truediv.
    intros [Hcpu | Hmem].
    + destruct (cs_total_usage any) as [total |],
        (cs_pre_total_usage any) as [pre_total |],
        (cs_system_usage any) as [system |],
        (cs_pre_system_usage any) as [pre_system |];
        cbn [item and_then] in Hcpu; try discriminate.
      destruct (_ && _); [| discriminate].
      destruct (_ =? 0)%Z; [discriminate |]. cbv zeta in Hcpu.
      destruct (in_range _); cbn [and_then] in Hcpu;
        [| cbn in Hcpu; congruence].
      destruct (mul _ (PyInt _)) as [share |] eqn:Hshare;
        cbn [and_then] in Hcpu.
      * destruct (mul share _) as [cpu_percent |] eqn:Hpercent;
          cbn [and_then] in Hcpu; [discriminate |].
        apply Hmul in Hpercent. subst. cbn in Hcpu. congruence.
      * apply Hmul in Hshare. subst. cbn in Hcpu. congruence.
    + destruct (cs_memory_usage any) as [usage |];
        cbn [item and_then] in Hmem; [| discriminate].
      change (1024 * 1024 =? 0)%Z with false in Hmem. cbv zeta in Hmem.
      destruct (in_range _); cbn [and_then] in Hmem; [discriminate |].
      cbn in Hmem. congruence.
  - unfold counters in Hcounters. rewrite !Forall_cons in Hcounters.
    destruct Hcounters as (Htotal & Hpre_total & Hsystem & Hpre_system
                           & Hcpus & _).
    assert (Hcount : uint64 (default 1 (cs_online_cpus stats))).
    { destruct (cs_online_cpus stats) as [n |]; [by apply Hcpus |].
      unfold uint64. cbn. lia. }
    unfold _calculate_cpu_percent.
    destruct (cs_total_usage stats) as [total |],
      (cs_pre_total_usage stats) as [pre_total |],
      (cs_system_usage stats) as [system |],
      (cs_pre_system_usage stats) as [pre_system |]; cbn [item and_then];
      try (exists 0%Q; cbn; split; [done |]; split; [done |];
           split; [done | by intros _]).
    specialize (Htotal _ eq_refl). specialize (Hpre_total _ eq_refl).
    specialize (Hsystem _ eq_refl). specialize (Hpre_system _ eq_refl).
    unfold uint64 in Htotal, Hpre_total, Hsystem, Hpre_system.
    destruct (Z.gtb_spec (system - pre_system) 0) as [Hsys | Hsys]; cbn [andb].
    2: { exists 0%Q. split; [done |]. split; [done |].
         split; [intros ? ? ? ? [= <-] [= <-] [= <-] [= <-]; lia | done]. }
    destruct (Z.gtb_spec (total - pre_total) 0) as [Hcpu | Hcpu].
    2: { exists 0%Q. split; [done |]. split; [done |].
         split; [intros ? ? ? ? [= <-] [= <-] [= <-] [= <-]; lia | done]. }
    destruct (cpu_percent_run (total - pre_total) (system - pre_system)
                (default 1 (cs_online_cpus stats)))
      as [-> Hnonneg]; [lia | lia | done |].
    eexists. split; [reflexivity |].
    split; [by apply hundredths_nonneg |]. split.
    + intros ? ? ? ? [= <-] [= <-] [= <-] [= <-] _ _. reflexivity.
    + intros [? | [? | [? | [? | Hnonpos]]]]; try done.
      destruct (Hnonpos _ _ _ _ eq_refl eq_refl eq_refl eq_refl); lia.
  - unfold counters in Hcounters. rewrite !Forall_cons in Hcounters.
    destruct Hcounters as (_ & _ & _ & _ & _ & Hmemory & _).
    unfold _calculate_memory_usage.
    destruct (cs_memory_usage stats) as [usage |]; cbn [item and_then].
    + specialize (Hmemory _ eq_refl). unfold uint64 in Hmemory.
      destruct (truediv_bounded usage (1024 * 1024) 64) as [-> Hbounds];
        [lia | lia | lia |].
      cbn [and_then round2]. eexists. split; [reflexivity |].
      split; [apply hundredths_nonneg, Hbounds |]. split; [done |].
      by intros ? [= <-].
    + exists 0%Q. cbn. repeat split; done.
Qed.

Lemma container_usage_never_fails_witness :
  ∃ cpu memory : Q,
    _calculate_cpu_percent busy_container = Ret (PyFloat cpu)
    ∧ cpu = b64 (1437 # 100)
    ∧ _calculate_memory_usage busy_container = Ret (PyFloat memory)
    ∧ memory = 50%Q.
Proof.
  destruct (container_usage_never_fails busy_container)
    as (_ & (cpu & Hcpu & _ & Hformula & _) & (memory & Hmemory & _ & _ & Husage)).
  { unfold counters, busy_container, uint64. cbn.
    repeat (apply Forall_cons_2; [intros z [= <-]; lia |]).
    apply Forall_nil_2. }
  exists cpu, memory. split; [exact Hcpu |].
  split; [| split; [exact Hmemory |]].
  - rewrite (Hformula 46 23 320 160) by (reflexivity || lia).
    vm_compute. reflexivity.
  - rewrite (Husage 52428800) by reflexivity. vm_compute. reflexivity.
Defined.

(** ** The alerts of the two evaluators and the report *)

Ltac solve_well_formed :=
  unfold well_formed; cbn;
  split;
  [ eexists; split; [reflexivity | unfold known_types; set_solver]
  | split;
    [ first [ left; reflexivity | right; reflexivity ]
    | eexists; split; [reflexivity | discriminate] ] ].

Section Evaluator_facts.
Context {E : Env}.

Lemma known_types_truthy type :
  type ∈ known_types → truthy (Some type) = true.
Proof.
  unfold known_types. rewrite !elem_of_cons, elem_of_nil.
  intros [-> | [-> | [-> | [-> | [-> | [-> | [-> | []]]]]]]]; reflexivity.
Qed.

Lemma check_thresholds_well_formed self st :
  Forall well_formed (check_thresholds self st).
Proof.
  destruct st as [s | error ts]; [| constructor].
  unfold check_thresholds.
  destruct (Qltb _ (cpu_percent s)), (Qltb _ (ram_percent s)),
    (Qltb _ (disk_percent s)); cbn;
    repeat (apply Forall_cons; split; [solve_well_formed |]); constructor.
Qed.

Lemma check_watched_well_formed cmap name :
  Forall (fun a => well_formed a ∧ a_container a = Some name)
         (check_watched cmap [] name).
Proof.
  unfold check_watched.
  destruct (cmap !! name) as [c |];
    [destruct (negb _); destruct (ci_health c) as [h |];
     try destruct (String.eqb h _) |];
    cbn;
    repeat (apply Forall_cons; split; [split; [solve_well_formed | done] |]);
    constructor.
Qed.

End Evaluator_facts.

Section Watch_totality.
Context {E : Env}.

Lemma check_watched_containers_total self w :
  ∃ alerts w',
    check_watched_containers self w = (Ret alerts, self, w')
    ∧ outbox w' = outbox w ∧ clock_reads w' = clock_reads w
    ∧ (alerts = []
       ∨ (∃ a, alerts = [a] ∧ a_type a = Some "DOCKER_CONNECTION_ERROR"
               ∧ a_container a = None ∧ well_formed a)
       ∨ ∃ all, alerts
                = concat (check_watched (container_map_of all) []
                            <$> watch_containers self)).
Proof.
  unfold check_watched_containers, bind at 1, gets.
  destruct (watch_containers self) as [| x rest] eqn:Hwatch.
  { exists [], w. repeat split. by left. }
  unfold bind at 1. rewrite is_connected_run.
  destruct (client self) eqn:Hclient; cbn [negb ret].
  2: { eexists _, _. split; [reflexivity |]. split; [done |]. split; [done |].
       right. left. eexists. split; [reflexivity |].
       split; [reflexivity |]. split; [reflexivity |]. solve_well_formed. }
  destruct (docker_ping (docker_calls w)); cbn [negb].
  2: { eexists _, _. split; [reflexivity |]. split; [done |]. split; [done |].
       right. left. eexists. split; [reflexivity |].
       split; [reflexivity |]. split; [reflexivity |]. solve_well_formed. }
  unfold bind at 1. rewrite get_all_containers_run, Hclient.
  cbn [docker_calls docker_called].
  destruct (docker_ping _); unfold ret;
    (eexists _, _; split; [reflexivity |]; split; [done |]; split; [done |];
     right; right; eexists; rewrite check_watched_foldl, <- Hwatch; reflexivity).
Qed.

End Watch_totality.

(** X12. Every alert of the two evaluators has one of the seven known
    types, a severity of high or critical and a message that is not
    empty, so that it is gated under its own type; an alert about a
    container is about a watched one. *)
Theorem evaluators_raise_well_formed_alerts {E : Env} (monitor : SystemMonitor)
    (st : stats) (docker : DockerMonitor) (w : World) :
  ∃ docker_alerts w',
    check_watched_containers docker w = (Ret docker_alerts, docker, w')
    ∧ Forall (fun a => a_container a = None
                       ∨ ∃ name, a_container a = Some name
                                 ∧ name ∈ watch_containers docker)
             docker_alerts
    ∧ Forall (fun a => well_formed a
                       ∧ a_type a = Some (type_of a)
                       ∧ truthy (Some (type_of a)) = true)
             (check_thresholds monitor st ++ docker_alerts).
Proof.
  assert (Hgated : ∀ a, well_formed a →
            well_formed a ∧ a_type a = Some (type_of a)
            ∧ truthy (Some (type_of a)) = true).
  { intros a Hwf. split; [done |].
    destruct Hwf as ((type & Htype & Hknown) & _). unfold type_of.
    rewrite Htype. split; [done |]. by apply known_types_truthy. }
  destruct (check_watched_containers_total docker w)
    as (alerts & w' & Hrun & _ & _ & Hshape).
  exists alerts, w'. split; [exact Hrun |].
  assert (Hdocker : Forall (fun a => well_formed a
                      ∧ (a_container a = None
                         ∨ ∃ name, a_container a = Some name
                                   ∧ name ∈ watch_containers docker)) alerts).
  { destruct Hshape as [-> | [(a & -> & _ & Hnone & Hwf) | (all & ->)]].
    - constructor.
    - apply Forall_cons. split; [split; [done | by left] | constructor].
    - clear Hrun.
      induction (watch_containers docker) as [| x names IH]; [constructor |].
      rewrite fmap_cons. cbn [concat]. apply Forall_app. split.
      + eapply Forall_impl; [apply check_watched_well_formed |].
        intros a [Hwf Hname]. split; [done |]. right. exists x.
        split; [done | by left].
      + eapply Forall_impl; [exact IH |].
        intros a [Hwf [Hnone | (name & Hname & Hin)]]; (split; [done |]);
          [by left | right; exists name; split; [done | by right]]. }
  split.
  - eapply Forall_impl; [exact Hdocker |]. by intros a [_ H].
  - apply Forall_app. split.
    + eapply Forall_impl; [apply check_thresholds_well_formed |]. exact Hgated.
    + eapply Forall_impl; [exact Hdocker |]. intros a [Hwf _]. by apply Hgated.
Qed.

(** X13. The report marks a metric green when it is strictly below its
    threshold and red otherwise, while the alert is raised when the
    metric is strictly above the threshold. *)
Theorem report_marks_red_from_the_threshold (self : SystemMonitor) (s : sample) :
  let report := get_formatted_report self (Sample s) in
  let alerts := check_thresholds self (Sample s) in
  let marker (v t : Q) := Some (if Qlt_le_dec v t then "🟢" else "🔴") in
  marker_of " *CPU:* " report
  = marker (cpu_percent s) (system_mon.CPU_THRESHOLD self)
  ∧ marker_of " *RAM:* " report
    = marker (ram_percent s) (system_mon.RAM_THRESHOLD self)
  ∧ marker_of " *Disco:* " report
    = marker (disk_percent s) (system_mon.DISK_THRESHOLD self)
  ∧ (Some "CPU_CRITICAL" ∈ a_type <$> alerts
     ↔ (system_mon.CPU_THRESHOLD self < cpu_percent s)%Q)
  ∧ (Some "RAM_CRITICAL" ∈ a_type <$> alerts
     ↔ (system_mon.RAM_THRESHOLD self < ram_percent s)%Q)
  ∧ (Some "DISK_CRITICAL" ∈ a_type <$> alerts
     ↔ (system_mon.DISK_THRESHOLD self < disk_percent s)%Q).
Proof.
  intros report alerts marker. subst report alerts marker.
  unfold get_formatted_report, check_thresholds. cbv beta.
  rewrite !Qltb_above.
  split; [| split; [| split]].
  1-3: destruct (Qlt_le_dec (cpu_percent s) _), (Qlt_le_dec (ram_percent s) _),
         (Qlt_le_dec (disk_percent s) _); reflexivity.
  destruct (Qlt_le_dec _ (cpu_percent s)) as [Hc | Hc],
    (Qlt_le_dec _ (ram_percent s)) as [Hr | Hr],
    (Qlt_le_dec _ (disk_percent s)) as [Hd | Hd]; cbn;
    repeat split; intros H; try done; try set_solver;
    try (exfalso; lra).
Qed.

(** ** Lifecycle: startup, [run] and [_shutdown] *)

Section Lifecycle_facts.
Context {E : Env}.

Lemma set_notifier_same self : set_notifier (notifier self) self = self.
Proof. by destruct self. Qed.

Lemma shutdown_run self w :
  ∃ hb w',
    _shutdown self w = (Ret tt, set_heartbeat hb self, w')
    ∧ outbox w'
      = outbox w
        ++ [send_text_request (notifier self)
              (shutdown_text (hostname (heartbeat self)) (clock (clock_reads w))
                 (check_count self));
            PostWebhook (webhook_url (heartbeat self))
              (payload_at (heartbeat self) None
                 (Some ("shutdown",
                        Shutdown "Vigilo Agent encerrado" (check_count self)))
                 (clock (S (clock_reads w))))]
    ∧ webhook_url hb = webhook_url (heartbeat self)
    ∧ sleeps w' = sleeps w.
Proof.
  unfold _shutdown, try_except, bind at 1, gets, bind at 1, datetime_now, time_time.
  unfold bind at 1, bind at 1, on_notifier, zoom.
  rewrite send_message_forced. cbn [notifier]. rewrite set_notifier_same.
  unfold bind at 1, on_heartbeat, zoom, send_event. rewrite heartbeat_send_run.
  cbn [ret]. eexists _, _. split; [reflexivity |].
  cbn [outbox posted tick clock_reads sleeps heartbeat].
  rewrite <- app_assoc. split; [done |]. split; [| done].
  by destruct (acknowledged _).
Qed.

Lemma startup_run self w :
  ∃ hb w',
    _send_startup_notifications self w = (Ret tt, set_heartbeat hb self, w')
    ∧ outbox w'
      = outbox w
        ++ [send_text_request (notifier self)
              (startup_text (hostname (heartbeat self)) (clock (clock_reads w)));
            PostWebhook (webhook_url (heartbeat self))
              (payload_at (heartbeat self) None
                 (Some ("startup",
                        Startup "Vigilo Agent iniciado"
                          (hostname (heartbeat self))))
                 (clock (S (clock_reads w))))].
Proof.
  unfold _send_startup_notifications, bind at 1, gets.
  unfold bind at 1, on_notifier, zoom, send_startup_notification, bind at 1,
    datetime_now, time_time.
  rewrite send_message_forced. cbn [notifier]. rewrite set_notifier_same.
  unfold bind at 1, on_heartbeat, zoom, send_startup_event, bind at 1, gets,
    send_event.
  rewrite heartbeat_send_run.
  cbn [ret]. eexists _, _. split; [reflexivity |].
  cbn [outbox posted tick clock_reads]. rewrite <- app_assoc. done.
Qed.

End Lifecycle_facts.

(** X14. The startup and the shutdown procedures each return after
    exactly two requests, whatever the endpoints answer: the notice to
    the channel, then the event to the webhook. The shutdown notice and
    event carry the number of checks made. *)
Theorem startup_and_shutdown_notify_both {E : Env} (self : VigiloAgent) (w : World) :
  (∃ hb w',
     _send_startup_notifications self w = (Ret tt, set_heartbeat hb self, w')
     ∧ outbox w'
       = outbox w
         ++ [send_text_request (notifier self)
               (startup_text (hostname (heartbeat self)) (clock (clock_reads w)));
             PostWebhook (webhook_url (heartbeat self))
               (payload_at (heartbeat self) None
                  (Some ("startup",
                         Startup "Vigilo Agent iniciado"
                           (hostname (heartbeat self))))
                  (clock (S (clock_reads w))))])
  ∧ (∃ hb w',
       _shutdown self w = (Ret tt, set_heartbeat hb self, w')
       ∧ outbox w'
         = outbox w
           ++ [send_text_request (notifier self)
                 (shutdown_text (hostname (heartbeat self))
                    (clock (clock_reads w)) (check_count self));
               PostWebhook (webhook_url (heartbeat self))
                 (payload_at (heartbeat self) None
                    (Some ("shutdown",
                           Shutdown "Vigilo Agent encerrado" (check_count self)))
                    (clock (S (clock_reads w))))]).
Proof.
  split.
  - apply startup_run.
  - destruct (shutdown_run self w) as (hb & w' & Hrun & Hout & _).
    by exists hb, w'.
Qed.

Section Run_facts.
Context {E : Env} (config : Config).

Lemma process_alerts_keeps_running system_alerts docker_alerts :
  keeps running (_process_alerts system_alerts docker_alerts).
Proof. unfold _process_alerts. destruct (_ ++ _); repeat keeps_step. Qed.

Lemma generate_full_report_keeps_running system_stats :
  keeps running (_generate_full_report system_stats).
Proof. unfold _generate_full_report. repeat keeps_step. Qed.

Lemma perform_check_report_keeps_running system_stats :
  keeps running (_perform_check_report config system_stats).
Proof.
  unfold _perform_check_report, _should_send_report.
  apply keeps_bind; [repeat keeps_step |]. intros [|]; [| keeps_step].
  apply keeps_bind; [apply keeps_call, generate_full_report_keeps_running |].
  intros report. apply keeps_bind; [repeat keeps_step |].
  intros [|]; repeat keeps_step.
Qed.

Lemma perform_check_keeps_running : keeps running (_perform_check config).
Proof.
  unfold _perform_check.
  apply keeps_try_except; [| intros e; keeps_step].
  apply keeps_bind; [repeat keeps_step |]. intros _.
  apply keeps_bind; [repeat keeps_step |]. intros system_stats.
  apply keeps_bind; [repeat keeps_step |]. intros system_alerts.
  apply keeps_bind; [repeat keeps_step |]. intros docker_alerts.
  apply keeps_bind.
  { destruct system_alerts, docker_alerts;
      try apply keeps_ret; apply keeps_call, process_alerts_keeps_running. }
  intros _. apply keeps_bind; [repeat keeps_step |]. intros _.
  apply perform_check_report_keeps_running.
Qed.

(** One pass through the loop of [run]. *)
Lemma run_pass self w :
  ∃ self' w',
    try_except (_perform_check config ;; time_sleep (CHECK_INTERVAL config))
      (fun _ => time_sleep 30) self w
    = (Ret tt, self', w')
    ∧ check_count self' = check_count self + 1
    ∧ running self' = running self
    ∧ ∃ before, sleeps w' = before ++ [CHECK_INTERVAL config].
Proof.
  unfold try_except, bind at 1.
  destruct (perform_check_counts config self w) as (self' & w' & Hrun & Hcount).
  pose proof (perform_check_keeps_running self w) as Hrunning.
  rewrite Hrun in *. cbn in Hrunning.
  exists self'. eexists. split; [reflexivity |].
  split; [done |]. split; [done |]. by eexists.
Qed.

Lemma run_stopped signal iteration fuel self w :
  running self = false →
  ∃ hb w',
    run config signal iteration fuel self w
    = (Ret true, set_heartbeat hb self, w')
    ∧ outbox w'
      = outbox w
        ++ [send_text_request (notifier self)
              (shutdown_text (hostname (heartbeat self)) (clock (clock_reads w))
                 (check_count self));
            PostWebhook (webhook_url (heartbeat self))
              (payload_at (heartbeat self) None
                 (Some ("shutdown",
                        Shutdown "Vigilo Agent encerrado" (check_count self)))
                 (clock (S (clock_reads w))))]
    ∧ webhook_url hb = webhook_url (heartbeat self)
    ∧ sleeps w' = sleeps w.
Proof.
  intros Hstopped.
  destruct (shutdown_run self w) as (hb & w' & Hrun & Hout & Hurl & Hsleeps).
  exists hb, w'.
  destruct fuel; cbn [run]; unfold bind at 1, gets; rewrite Hstopped;
    unfold bind at 1; rewrite Hrun; done.
Qed.

Lemma run_until_signal signal k : ∀ iteration fuel self w,
  running self = true →
  signal (iteration + k)%nat = true →
  (∀ j, (j < k)%nat → signal (iteration + j)%nat = false) →
  (k < fuel)%nat →
  ∃ self' w' before notice payload,
    run config signal iteration fuel self w = (Ret true, self', w')
    ∧ check_count self' = check_count self + Z.of_nat (S k)
    ∧ running self' = false
    ∧ outbox w'
      = before ++ [send_text_request (notifier self') notice;
                   PostWebhook (webhook_url (heartbeat self')) payload]
    ∧ Num (PyInt (check_count self')) ∈ notice
    ∧ hp_event_type payload = Some "shutdown"
    ∧ hp_event_data payload
      = Some (Shutdown "Vigilo Agent encerrado" (check_count self')).
Proof.
  induction k as [| k IH]; intros iteration fuel self w Hrunning Hsignal Hquiet Hfuel.
  - destruct fuel as [| fuel]; [lia |].
    cbn [run]. unfold bind at 1, gets. rewrite Hrunning.
    unfold bind at 1.
    destruct (run_pass self w) as (self1 & w1 & -> & Hcount & Hrun1 & _).
    rewrite Nat.add_0_r in Hsignal. rewrite Hsignal.
    unfold bind at 1, _signal_handler, modify.
    destruct (run_stopped signal (S iteration) fuel (set_running false self1) w1)
      as (hb & w' & -> & Hout & Hurl & _); [done |].
    eexists _, _, _, _, _. split; [reflexivity |].
    cbn [check_count set_heartbeat set_running running notifier heartbeat] in *.
    split; [lia |]. split; [done |]. rewrite Hurl.
    split; [exact Hout |]. split; [| done].
    unfold shutdown_text. set_solver.
  - destruct fuel as [| fuel]; [lia |].
    cbn [run]. unfold bind at 1, gets. rewrite Hrunning.
    unfold bind at 1.
    destruct (run_pass self w) as (self1 & w1 & -> & Hcount & Hrun1 & _).
    pose proof (Hquiet 0%nat ltac:(lia)) as Hfirst.
    rewrite Nat.add_0_r in Hfirst. rewrite Hfirst.
    unfold bind at 1. cbn [ret].
    destruct (IH (S iteration) fuel self1 w1)
      as (self' & w' & before & notice & payload & -> & Hcount' & Hrest).
    + congruence.
    + by rewrite Nat.add_succ_comm.
    + intros j Hj. rewrite Nat.add_succ_comm. apply Hquiet. lia.
    + lia.
    + exists self', w', before, notice, payload.
      split; [reflexivity |]. split; [lia | exact Hrest].
Qed.
End Run_facts.

(** X15. When the first signal arrives during pass [k] of the loop and
    the agent was running, [run] completes that pass, makes no other,
    and returns after the shutdown procedure: [k + 1] checks were
    counted, and the last two requests are the shutdown notice and the
    shutdown event, both with that count. *)
Theorem run_stops_after_the_signal {E : Env} (config : Config)
    (signal : nat → bool) (k fuel : nat) (self : VigiloAgent) (w : World) :
  running self = true →
  signal k = true →
  (∀ j, (j < k)%nat → signal j = false) →
  (k < fuel)%nat →
  ∃ self' w' before notice payload,
    run config signal 0 fuel self w = (Ret true, self', w')
    ∧ check_count self' = check_count self + Z.of_nat (S k)
    ∧ running self' = false
    ∧ outbox w'
      = before ++ [send_text_request (notifier self') notice;
                   PostWebhook (webhook_url (heartbeat self')) payload]
    ∧ Num (PyInt (check_count self')) ∈ notice
    ∧ hp_event_type payload = Some "shutdown"
    ∧ hp_event_data payload
      = Some (Shutdown "Vigilo Agent encerrado" (check_count self')).
Proof.
  intros Hrunning Hsignal Hquiet Hfuel.
  by apply (run_until_signal config signal k 0%nat fuel self w).
Qed.

Lemma run_stops_after_the_signal_witness :
  let E := faulty_env 1000 200 in
  let signal := fun k => (k =? 1)%nat in
  ∃ self' w' before notice payload,
    run a_config signal 0 5 (an_agent ∅ 1000) empty_world = (Ret true, self', w')
    ∧ check_count self' = 0 + Z.of_nat 2
    ∧ running self' = false
    ∧ outbox w'
      = before ++ [send_text_request (notifier self') notice;
                   PostWebhook (webhook_url (heartbeat self')) payload]
    ∧ Num (PyInt (check_count self')) ∈ notice
    ∧ hp_event_type payload = Some "shutdown"
    ∧ hp_event_data payload
      = Some (Shutdown "Vigilo Agent encerrado" (check_count self')).
Proof.
  intros E signal.
  apply (run_stops_after_the_signal a_config signal 1 5 (an_agent ∅ 1000)
           empty_world).
  - reflexivity.
  - reflexivity.
  - intros j Hj. destruct j; [reflexivity | lia].
  - lia.
Defined.

(** ** A check in which nothing unexpected is raised *)

Section Quiet_cycle.
Context {E : Env} (config : Config).

Lemma call_quiet {St A} (c : M St A) s w :
  quiet → call c s w = c s (called w).
Proof. intros Hquiet. unfold call. by rewrite Hquiet. Qed.

Lemma send_text_not_heartbeat texts :
  Forall (fun r => is_send_text r = true) texts →
  Forall (fun r => plain_heartbeat r = false) texts.
Proof. intros Hall. eapply Forall_impl; [exact Hall |]. by intros []. Qed.

Lemma no_plain_heartbeat (l : list request) :
  Forall (fun r => plain_heartbeat r = false) l →
  filter (fun r => plain_heartbeat r = true) l = [].
Proof.
  induction 1 as [| r l Hr _ IH]; [done |].
  rewrite filter_cons, IH. case_decide; congruence.
Qed.

Lemma process_alerts_run system_alerts docker_alerts self w :
  ∃ self' w' more,
    _process_alerts system_alerts docker_alerts self w = (Ret tt, self', w')
    ∧ outbox w' = outbox w ++ more
    ∧ Forall (fun r => plain_heartbeat r = false) more
    ∧ webhook_url (heartbeat self') = webhook_url (heartbeat self)
    ∧ hostname (heartbeat self') = hostname (heartbeat self).
Proof.
  unfold _process_alerts.
  destruct (system_alerts ++ docker_alerts) as [| a rest].
  { exists self, w, []. by rewrite app_nil_r. }
  unfold bind at 1, on_notifier, zoom, send_alerts.
  destruct (send_alerts_requests (a :: rest) 0 (notifier self) w)
    as (sent & nt & w1 & texts & -> & Hout & Htexts).
  unfold bind at 1, on_heartbeat, zoom, send_alert_event, send_event.
  rewrite heartbeat_send_run. cbn [ret].
  eexists _, _, _. split; [reflexivity |].
  cbn [outbox posted tick heartbeat set_heartbeat set_notifier].
  rewrite Hout, <- app_assoc. split; [reflexivity |].
  split; [| by destruct (acknowledged _)].
  apply Forall_app. split; [by apply send_text_not_heartbeat |].
  by repeat constructor.
Qed.

Lemma cycle_alerts_run (system_alerts docker_alerts : list alert) self w :
  quiet →
  ∃ self' w' more,
    (match system_alerts, docker_alerts with
     | [], [] => ret tt
     | _, _ => call (_process_alerts system_alerts docker_alerts)
     end) self w = (Ret tt, self', w')
    ∧ outbox w' = outbox w ++ more
    ∧ Forall (fun r => plain_heartbeat r = false) more
    ∧ webhook_url (heartbeat self') = webhook_url (heartbeat self)
    ∧ hostname (heartbeat self') = hostname (heartbeat self).
Proof.
  intros Hquiet.
  destruct system_alerts as [| a sa], docker_alerts as [| b da];
    [exists self, w, []; by rewrite app_nil_r | ..];
    rewrite call_quiet by done;
    match goal with
    | |- context [_process_alerts ?sa ?da] =>
        destruct (process_alerts_run sa da self (called w))
          as (self' & w' & more & Hrun & Hrest)
    end;
    by exists self', w', more.
Qed.

Lemma perform_check_report_run system_stats self w :
  quiet →
  ∃ r self' w' more,
    _perform_check_report config system_stats self w = (r, self', w')
    ∧ outbox w' = outbox w ++ more
    ∧ Forall (fun r => is_send_text r = true) more
    ∧ (length more ≤ 1)%nat.
Proof.
  intros Hquiet. unfold _perform_check_report, bind at 1.
  rewrite call_quiet, should_send_report_run by done.
  destruct (Qle_bool _ _).
  2: { exists (Ret tt), self, (tick (called w)), [].
       cbn [ret outbox tick called length].
       rewrite app_nil_r. split; [reflexivity |]. split; [reflexivity |].
       split; [constructor | lia]. }
  unfold bind at 1. rewrite call_quiet by done.
  destruct (generate_full_report_run system_stats self
              (called (tick (called w))))
    as ([report | e] & w1 & -> & Hout & _).
  2: { exists (Raise e), self, w1, []. cbn [outbox tick called length] in *.
       rewrite app_nil_r. split; [reflexivity |]. split; [done |].
       split; [constructor | lia]. }
  unfold bind at 1. rewrite call_quiet by done. unfold on_notifier, zoom.
  destruct (send_report_run report (notifier self) (called w1))
    as (req & -> & Hreq).
  rewrite set_notifier_same.
  destruct (delivered _); unfold bind, time_time, modify, ret;
    (eexists _, _, _, [req]; split; [reflexivity |];
     cbn [outbox posted tick called length] in *; rewrite Hout;
     split; [reflexivity |]; split; [by constructor | lia]).
Qed.

Lemma perform_check_quiet self w :
  quiet →
  ∃ self' w' before after payload,
    _perform_check config self w = (Ret tt, self', w')
    ∧ outbox w'
      = outbox w ++ before
          ++ [PostWebhook (webhook_url (heartbeat self)) payload] ++ after
    ∧ hp_agent_name payload = hostname (heartbeat self)
    ∧ hp_stats payload = Some (summary_of (psutil (samples w)))
    ∧ hp_event_type payload = None
    ∧ Forall (fun r => plain_heartbeat r = false) before
    ∧ Forall (fun r => is_send_text r = true) after
    ∧ (length after ≤ 1)%nat.
Proof.
  intros Hquiet.
  unfold _perform_check, try_except, bind at 1, modify.
  unfold bind at 1. rewrite call_quiet by done.
  unfold on_system_monitor at 1, zoom, get_system_stats.
  unfold bind at 1. rewrite call_quiet by done.
  unfold on_system_monitor at 1, zoom, gets.
  unfold bind at 1. rewrite call_quiet by done.
  unfold on_docker_monitor, zoom.
  match goal with
  | |- context [check_watched_containers ?m ?w0] =>
      destruct (check_watched_containers_total m w0)
        as (docker_alerts & w1 & -> & Hout1 & _)
  end.
  unfold bind at 1.
  match goal with
  | |- context [match ?sa with
                | [] => match docker_alerts with
                        | [] => ret tt
                        | _ :: _ => _
                        end
                | _ :: _ => _
                end ?s ?w0] =>
      destruct (cycle_alerts_run sa docker_alerts s w0 Hquiet)
        as (self2 & w2 & more & -> & Hout2 & Hmore & Hurl & Hhost)
  end.
  unfold bind at 1. rewrite call_quiet by done.
  unfold on_heartbeat, zoom. rewrite heartbeat_send_run.
  match goal with
  | |- context [_perform_check_report config ?st ?s ?w0] =>
      destruct (perform_check_report_run st s w0 Hquiet)
        as (r & self3 & w3 & after & -> & Hout3 & Hall & Hlen)
  end.
  eexists self3, w3, more, after, _.
  split; [by destruct r as [[] | e] |].
  split.
  { rewrite Hout3. cbn [outbox posted tick called].
    rewrite Hout2, Hout1. cbn [outbox called]. rewrite Hurl.
    cbn [heartbeat set_docker_monitor set_system_monitor set_check_count].
    by rewrite <- !app_assoc. }
  cbn [hp_agent_name hp_stats hp_event_type payload_at fmap option_fmap
       option_map samples called].
  rewrite Hhost. done.
Qed.
End Quiet_cycle.

(** X16. In a check during which nothing unexpected is raised, the
    heartbeat of step 5 goes out exactly once, whatever the alerts of
    the check and whatever became of their delivery: after the alert
    traffic, none of which is a plain heartbeat, and before the
    report, which is at most one message to the channel. It names the
    host and carries the sample taken in step 1. *)
Theorem quiet_check_sends_one_heartbeat {E : Env} (config : Config)
    (self : VigiloAgent) (w : World) :
  quiet →
  ∃ self' w' before after payload,
    _perform_check config self w = (Ret tt, self', w')
    ∧ outbox w'
      = outbox w ++ before
          ++ [PostWebhook (webhook_url (heartbeat self)) payload] ++ after
    ∧ filter (fun r => plain_heartbeat r = true)
        (before ++ [PostWebhook (webhook_url (heartbeat self)) payload] ++ after)
      = [PostWebhook (webhook_url (heartbeat self)) payload]
    ∧ hp_agent_name payload = hostname (heartbeat self)
    ∧ hp_stats payload = Some (summary_of (psutil (samples w)))
    ∧ Forall (fun r => is_send_text r = true) after
    ∧ (length after ≤ 1)%nat.
Proof.
  intros Hquiet.
  destruct (perform_check_quiet config self w Hquiet)
    as (self' & w' & before & after & payload & Hrun & Hout & Hname & Hstats
        & Hevent & Hbefore & Hafter & Hlen).
  exists self', w', before, after, payload.
  split; [done |]. split; [done |]. split; [| done].
  rewrite !filter_app, (no_plain_heartbeat before) by done.
  rewrite (no_plain_heartbeat after) by by apply send_text_not_heartbeat.
  rewrite filter_cons, filter_nil. cbn [plain_heartbeat].
  rewrite Hevent. by case_decide.
Qed.

Lemma quiet_check_sends_one_heartbeat_witness :
  let E := steady_env 1000 500 failed_sampling [] in
  let self := an_agent ∅ 1000 in
  ∃ self' w' before after payload,
    _perform_check a_config self empty_world = (Ret tt, self', w')
    ∧ outbox w'
      = outbox empty_world ++ before
          ++ [PostWebhook (webhook_url (heartbeat self)) payload] ++ after
    ∧ filter (fun r => plain_heartbeat r = true)
        (before ++ [PostWebhook (webhook_url (heartbeat self)) payload] ++ after)
      = [PostWebhook (webhook_url (heartbeat self)) payload]
    ∧ hp_agent_name payload = hostname (heartbeat self)
    ∧ hp_stats payload = Some (summary_of (psutil (samples empty_world)))
    ∧ Forall (fun r => is_send_text r = true) after
    ∧ (length after ≤ 1)%nat.
Proof.
  intros E self.
  apply (quiet_check_sends_one_heartbeat a_config self empty_world).
  intros i. reflexivity.
Defined.

(** ** Validation of the configuration: [Config._validate_config] *)

(** X17. Under a configuration that passed validation the report interval
    is at least an hour: no report is due while less than 3600 seconds
    have passed since the last one. The pause between two checks is at
    least ten seconds and the three thresholds are percentages above
    zero. *)
Theorem validated_config_spaces_reports {E : Env} (n8n_url evolution_url : string)
    (config : Config) (self : VigiloAgent) (w : World) :
  _validate_config n8n_url evolution_url config = Ret tt →
  (clock (clock_reads w) - last_report_time self < 3600)%Q →
  _should_send_report config self w = (Ret false, self, tick w)
  ∧ 10 <= CHECK_INTERVAL config
  ∧ 3600 <= get_report_interval config
  ∧ percentage (config.CPU_THRESHOLD config)
  ∧ percentage (config.RAM_THRESHOLD config)
  ∧ percentage (config.DISK_THRESHOLD config).
Proof.
  unfold _validate_config. intros Hvalid Hrecent.
  repeat match type of Hvalid with
         | (if ?b then _ else _) = _ => destruct b eqn:?; [discriminate |]
         end.
  assert (Hhours : 1 <= REPORT_HOURS config) by lia.
  assert (Hinterval : 3600 <= get_report_interval config)
    by (unfold get_report_interval; lia).
  repeat match goal with
         | H : negb (_ && _) = false |- _ =>
             apply negb_false_iff, andb_true_iff in H;
             rewrite Qltb_lt, Qle_bool_iff in H
         end.
  split; [| split; [lia | done]].
  rewrite should_send_report_run. repeat f_equal.
  apply not_true_is_false. rewrite Qle_bool_iff. intros Hdue.
  apply (Qlt_not_le _ _ Hrecent).
  apply (Qle_trans _ (inject_Z (get_report_interval config))); [| exact Hdue].
  change 3600%Q with (inject_Z 3600). by rewrite <- Zle_Qle.
Qed.

Lemma validated_config_spaces_reports_witness :
  let E := steady_env 1000 200 failed_sampling [] in
  let self := an_agent ∅ 1000 in
  _should_send_report a_config self empty_world = (Ret false, self, tick empty_world)
  ∧ 10 <= CHECK_INTERVAL a_config
  ∧ 3600 <= get_report_interval a_config
  ∧ percentage (config.CPU_THRESHOLD a_config)
  ∧ percentage (config.RAM_THRESHOLD a_config)
  ∧ percentage (config.DISK_THRESHOLD a_config).
Proof.
  intros E self.
  apply (validated_config_spaces_reports "http://n8n:5678/webhook/vigilo"
           "https://evolution.example" a_config self empty_world).
  - reflexivity.
  - reflexivity.
Defined.
